(** * FDCA vector engine runtime: a shallow embedding of the driver's
      RVV configuration, CSR, instruction, VRF and vector-memory code.

    Integers of the C source are modelled as [Z]; the width of a C type is
    written out where a value is stored ([u8], [u32], [u64]).  A pointer
    argument that the C code tests against NULL is an [option].  The driver
    is built for a 64-bit kernel ([unsigned long] and [size_t] are 64 bits
    wide). *)

From Stdlib Require Import ZArith List Bool Lia.
Import ListNotations.
Local Open Scope Z_scope.

(** ** Machine integers and kernel helpers *)

Definition u8 (x : Z) : Z := x mod 2 ^ 8.
Definition u32 (x : Z) : Z := x mod 2 ^ 32.
Definition u64 (x : Z) : Z := x mod 2 ^ 64.
Definition s64 (x : Z) : Z := (x + 2 ^ 63) mod 2 ^ 64 - 2 ^ 63.

(** [BIT(n)] of linux/bits.h: [1UL << n]. *)
Definition BIT (n : Z) : Z := Z.shiftl 1 n.

(** C truth value of an integer: [!!x]. *)
Definition c_bool (x : Z) : bool := negb (x =? 0).
(** C logical negation of an integer: [!x]. *)
Definition c_not (x : Z) : bool := x =? 0.

(** [atomic64_inc] on an [atomic64_t]. *)
Definition atomic64_inc (x : Z) : Z := s64 (x + 1).

(** linux/errno.h *)
Module Errno.
Definition EIO : Z := 5.
Definition ENOMEM : Z := 12.
Definition ENODEV : Z := 19.
Definition EINVAL : Z := 22.
Definition ENOSPC : Z := 28.
Definition ERANGE : Z := 34.
Definition ETIMEDOUT : Z := 110.
End Errno.
Import Errno.

(** ** fdca_drv.h: constants, capability descriptor and device *)

Definition FDCA_RVV_NUM_VREGS : Z := 32.

Record fdca_rvv_config : Type := mk_rvv_config {
  vlen : Z;                        (* u32 *)
  elen : Z;                        (* u32 *)
  num_lanes : Z;                   (* u32 *)
  cfg_vlenb : Z;                   (* u32 vlenb *)
  fp_support : bool;
  fixed_point_support : bool;
  segment_support : bool;
  os_support : bool;
  multiplier_latency : list Z;     (* u32[4] *)
  fpu_latency : list Z;            (* u32[5] *)
  vrf_size_per_lane : Z;
  vrf_banks_per_lane : Z
}.

(** Messages the driver hands to [fdca_err] / [fdca_info] / [fdca_dbg]. *)
Inductive log_entry : Type :=
| Err_invalid_vlen (v : Z)
| Err_invalid_elen (v : Z)
| Err_invalid_lanes (v : Z)
| Info_config_ok
| Err_vpu_unavailable
| Err_dma_alloc_failed (bytes : Z)
| Err_index_dma_alloc_failed
| Err_unsupported_vmem_type (t : Z)
| Err_vmem_status (status : Z)
| Err_vmem_timeout
| Dbg_vmem_started (t : Z).

(** The part of [struct fdca_device] the vector engine code reads or
    writes: the capability descriptor, the presence flag of the vector
    processing unit and the kernel log the device prints to. *)
Record fdca_device : Type := mk_device {
  rvv_config : fdca_rvv_config;
  rvv_available : bool;
  vpu_present : bool;              (* units[FDCA_UNIT_VPU].present *)
  klog : list log_entry
}.

Definition dev_log (fdev : fdca_device) (e : log_entry) : fdca_device :=
  mk_device (rvv_config fdev) (rvv_available fdev) (vpu_present fdev)
            (klog fdev ++ [e]).

(** ** fdca_rvv_config.c *)
Module RvvConfig.

(** [fdca_rvv_config_validate]: the return code and the device after the
    call. *)
Definition fdca_rvv_config_validate (fdev : fdca_device) : Z * fdca_device :=
  let config := rvv_config fdev in
  if (vlen config <? 128) || (vlen config >? 65536) then
    (- EINVAL, dev_log fdev (Err_invalid_vlen (vlen config)))
  else if elen config >? 64 then
    (- EINVAL, dev_log fdev (Err_invalid_elen (elen config)))
  else if (num_lanes config =? 0) || (num_lanes config >? 16) then
    (- EINVAL, dev_log fdev (Err_invalid_lanes (num_lanes config)))
  else
    (0, dev_log fdev Info_config_ok).

Definition fdca_rvv_config_init (fdev : fdca_device) : Z * fdca_device :=
  fdca_rvv_config_validate fdev.

(** Field widths of [struct fdca_rvv_config]: the three validated fields
    are [u32]. *)
Definition config_wf (c : fdca_rvv_config) : Prop :=
  0 <= vlen c < 2 ^ 32 /\ 0 <= elen c < 2 ^ 32 /\ 0 <= num_lanes c < 2 ^ 32.

End RvvConfig.

(** ** fdca_rvv_state.h / fdca_rvv_state.c: CSR context *)
Module RvvState.

Definition FDCA_VTYPE_VLMUL_MASK : Z := 0x7.
Definition FDCA_VTYPE_VSEW_MASK : Z := 0x38.
Definition FDCA_VTYPE_VTA : Z := BIT 6.
Definition FDCA_VTYPE_VMA : Z := BIT 7.
Definition FDCA_VTYPE_VILL : Z := BIT 63.
Definition FDCA_VTYPE_VLMUL_SHIFT : Z := 0.
Definition FDCA_VTYPE_VSEW_SHIFT : Z := 3.

(** The anonymous [parsed] struct of the CSR context. *)
Record parsed_vtype : Type := mk_parsed {
  vlmul : Z;                     (* u32 *)
  vsew : Z;                      (* u32 *)
  vta : bool;
  vma : bool;
  vill : bool;
  sew_bits : Z;                  (* u32 *)
  lmul_mul : Z;                  (* u32 *)
  lmul_div : Z                   (* u32 *)
}.

Record fdca_rvv_csr_context : Type := mk_csr {
  vstart : Z;                    (* u64 *)
  vxsat : Z;
  vxrm : Z;
  vcsr : Z;
  vl : Z;
  vtype : Z;
  vlenb : Z;
  parsed : parsed_vtype;
  valid : bool;
  dirty : bool;
  save_time : Z;
  save_count : Z
}.

Definition set_parsed (c : fdca_rvv_csr_context) (p : parsed_vtype)
  : fdca_rvv_csr_context :=
  mk_csr (vstart c) (vxsat c) (vxrm c) (vcsr c) (vl c) (vtype c) (vlenb c)
         p (valid c) (dirty c) (save_time c) (save_count c).

Definition set_vill (p : parsed_vtype) (b : bool) : parsed_vtype :=
  mk_parsed (vlmul p) (vsew p) (vta p) (vma p) b
            (sew_bits p) (lmul_mul p) (lmul_div p).

(** [memset(&ctx->csr, 0, sizeof(ctx->csr))] of [fdca_rvv_context_create]. *)
Definition parsed_zero : parsed_vtype :=
  mk_parsed 0 0 false false false 0 0 0.
Definition csr_zero : fdca_rvv_csr_context :=
  mk_csr 0 0 0 0 0 0 0 parsed_zero false false 0 0.

(** [static inline u32 fdca_rvv_get_sew_bits(u32 vsew)]. *)
Definition fdca_rvv_get_sew_bits (vsew : Z) : Z := u32 (Z.shiftl 8 vsew).

(** [fdca_rvv_get_lmul_fraction]: the pair written to [*mul], [*div]. *)
Definition fdca_rvv_get_lmul_fraction (vlmul : Z) : Z * Z :=
  if vlmul <=? 3 then (u32 (Z.shiftl 1 vlmul), 1)
  else if (vlmul >=? 5) && (vlmul <=? 7) then (1, u32 (Z.shiftl 1 (8 - vlmul)))
  else (1, 1).

(** [fdca_rvv_csr_parse_vtype]. *)
Definition fdca_rvv_csr_parse_vtype (csr_ctx : fdca_rvv_csr_context)
  : fdca_rvv_csr_context :=
  let vtype := vtype csr_ctx in
  let c1 := set_parsed csr_ctx
              (set_vill (parsed csr_ctx) (c_bool (Z.land vtype FDCA_VTYPE_VILL))) in
  if vill (parsed c1) then c1
  else
    let p_vlmul := u32 (Z.land (Z.shiftr vtype FDCA_VTYPE_VLMUL_SHIFT)
                               FDCA_VTYPE_VLMUL_MASK) in
    let p_vsew := u32 (Z.land (Z.shiftr vtype FDCA_VTYPE_VSEW_SHIFT)
                              (Z.shiftr FDCA_VTYPE_VSEW_MASK FDCA_VTYPE_VSEW_SHIFT)) in
    let p_vta := c_bool (Z.land vtype FDCA_VTYPE_VTA) in
    let p_vma := c_bool (Z.land vtype FDCA_VTYPE_VMA) in
    let p_sew := fdca_rvv_get_sew_bits p_vsew in
    let '(mul, div) := fdca_rvv_get_lmul_fraction p_vlmul in
    set_parsed c1
      (mk_parsed p_vlmul p_vsew p_vta p_vma (vill (parsed c1)) p_sew mul div).

(** The part of [struct fdca_rvv_state_manager] that CSR validation
    reads through the global [g_rvv_manager]. *)
Record fdca_rvv_state_manager : Type := mk_manager {
  hw_config : option fdca_rvv_config;   (* pointer, may be NULL *)
  hw_available : bool;
  lazy_save : bool;
  fast_switch : bool;
  save_threshold : Z
}.

(** [g_rvv_manager && g_rvv_manager->hw_config]: the capability the
    global manager points to, if there is one. *)
Definition manager_hw_config (g_rvv_manager : option fdca_rvv_state_manager)
  : option fdca_rvv_config :=
  match g_rvv_manager with
  | Some mgr => hw_config mgr
  | None => None
  end.

(** Outcome of a call that contains an integer division: the return
    code, or the division by zero the C code does not guard. *)
Inductive outcome : Type :=
| Done (rc : Z)
| DivByZero.

(** [fdca_rvv_csr_validate], reading the global [g_rvv_manager]. *)
Definition fdca_rvv_csr_validate
           (g_rvv_manager : option fdca_rvv_state_manager)
           (csr_ctx : option fdca_rvv_csr_context) : outcome :=
  match csr_ctx with
  | None => Done (- EINVAL)
  | Some c =>
    if vill (parsed c) then Done (- EINVAL)
    else
      let check_vstart :=
        if vstart c >? vl c then Done (- ERANGE) else Done 0 in
      match g_rvv_manager with
      | Some mgr =>
        match hw_config mgr with
        | Some hw =>
          if sew_bits (parsed c) =? 0 then DivByZero
          else
            let max_vl := u32 (vlen hw / sew_bits (parsed c)) in
            if vl c >? max_vl then Done (- ERANGE) else check_vstart
        | None => check_vstart
        end
      | None => check_vstart
      end
  end.

End RvvState.

(** ** fdca_rvv_instr.h / fdca_rvv_instr.c: decoding and hazards *)
Module RvvInstr.

Inductive fdca_rvv_instr_type : Type :=
| FDCA_RVV_INSTR_VMEM
| FDCA_RVV_INSTR_VAMO
| FDCA_RVV_INSTR_VARITH
| FDCA_RVV_INSTR_VSETVLI
| FDCA_RVV_INSTR_INVALID.

Inductive fdca_vmem_type : Type :=
| FDCA_VMEM_UNIT_STRIDE
| FDCA_VMEM_STRIDED
| FDCA_VMEM_INDEXED
| FDCA_VMEM_SEGMENT
| FDCA_VMEM_WHOLE_REG.

Inductive fdca_varith_type : Type :=
| FDCA_VARITH_ADD
| FDCA_VARITH_SUB
| FDCA_VARITH_MUL
| FDCA_VARITH_DIV
| FDCA_VARITH_AND
| FDCA_VARITH_OR
| FDCA_VARITH_XOR
| FDCA_VARITH_SHIFT
| FDCA_VARITH_CMP
| FDCA_VARITH_REDUCE.

(** Enumerator values, as the C compiler numbers them. *)
Definition vmem_code (t : fdca_vmem_type) : Z :=
  match t with
  | FDCA_VMEM_UNIT_STRIDE => 0 | FDCA_VMEM_STRIDED => 1
  | FDCA_VMEM_INDEXED => 2 | FDCA_VMEM_SEGMENT => 3
  | FDCA_VMEM_WHOLE_REG => 4
  end.

Definition varith_code (t : fdca_varith_type) : Z :=
  match t with
  | FDCA_VARITH_ADD => 0 | FDCA_VARITH_SUB => 1 | FDCA_VARITH_MUL => 2
  | FDCA_VARITH_DIV => 3 | FDCA_VARITH_AND => 4 | FDCA_VARITH_OR => 5
  | FDCA_VARITH_XOR => 6 | FDCA_VARITH_SHIFT => 7 | FDCA_VARITH_CMP => 8
  | FDCA_VARITH_REDUCE => 9
  end.

Definition instr_type_eqb (x y : fdca_rvv_instr_type) : bool :=
  match x, y with
  | FDCA_RVV_INSTR_VMEM, FDCA_RVV_INSTR_VMEM
  | FDCA_RVV_INSTR_VAMO, FDCA_RVV_INSTR_VAMO
  | FDCA_RVV_INSTR_VARITH, FDCA_RVV_INSTR_VARITH
  | FDCA_RVV_INSTR_VSETVLI, FDCA_RVV_INSTR_VSETVLI
  | FDCA_RVV_INSTR_INVALID, FDCA_RVV_INSTR_INVALID => true
  | _, _ => false
  end.

(** [struct fdca_rvv_instr].  The anonymous union of [vmem_type] and
    [varith_type] is one storage cell, [subtype], holding the enumerator
    value; the union of [imm], [stride] and [vl_setting] is the cell
    [vl_setting]. *)
Record fdca_rvv_instr : Type := mk_instr {
  opcode : Z;                    (* u32 *)
  type : fdca_rvv_instr_type;
  subtype : Z;                   (* union { vmem_type; varith_type } *)
  vd : Z;                        (* u8 *)
  vs1 : Z;                       (* u8 *)
  vs2 : Z;                       (* u8 *)
  vm : bool;
  vl_setting : Z;                (* union { imm; stride; vl_setting } *)
  uses_mask : bool;
  modifies_vl : bool;
  memory_access : bool;
  latency : Z                    (* u32 *)
}.

Definition RVV_OPCODE_MASK : Z := 0x7F.
Definition RVV_LOAD_FP : Z := 0x07.
Definition RVV_STORE_FP : Z := 0x27.
Definition RVV_MADD : Z := 0x43.
Definition RVV_ARITH : Z := 0x57.

Definition EXTRACT_FUNCT3 (opcode : Z) : Z := Z.land (Z.shiftr opcode 12) 0x7.
Definition EXTRACT_FUNCT6 (opcode : Z) : Z := Z.land (Z.shiftr opcode 26) 0x3F.
Definition EXTRACT_VD (opcode : Z) : Z := Z.land (Z.shiftr opcode 7) 0x1F.
Definition EXTRACT_VS1 (opcode : Z) : Z := Z.land (Z.shiftr opcode 15) 0x1F.
Definition EXTRACT_VS2 (opcode : Z) : Z := Z.land (Z.shiftr opcode 20) 0x1F.
Definition EXTRACT_VM (opcode : Z) : Z := Z.land (Z.shiftr opcode 25) 0x1.

(** [fdca_rvv_decode_instr_type]. *)
Definition fdca_rvv_decode_instr_type (opcode : Z) : fdca_rvv_instr_type :=
  let base_opcode := Z.land opcode RVV_OPCODE_MASK in
  let funct3 := EXTRACT_FUNCT3 opcode in
  if (base_opcode =? RVV_LOAD_FP) || (base_opcode =? RVV_STORE_FP) then
    FDCA_RVV_INSTR_VMEM
  else if base_opcode =? RVV_ARITH then
    match funct3 with
    | 0x0 | 0x1 | 0x2 | 0x3 | 0x4 | 0x5 | 0x6 => FDCA_RVV_INSTR_VARITH
    | 0x7 => FDCA_RVV_INSTR_VSETVLI
    | _ => FDCA_RVV_INSTR_INVALID
    end
  else if base_opcode =? RVV_MADD then
    FDCA_RVV_INSTR_VARITH
  else
    FDCA_RVV_INSTR_INVALID.

(** [fdca_rvv_decode_vmem_type]. *)
Definition fdca_rvv_decode_vmem_type (opcode : Z) : fdca_vmem_type :=
  match EXTRACT_FUNCT3 opcode with
  | 0x0 => FDCA_VMEM_UNIT_STRIDE
  | 0x2 => FDCA_VMEM_STRIDED
  | 0x3 => FDCA_VMEM_INDEXED
  | 0x1 => FDCA_VMEM_SEGMENT
  | 0x4 => FDCA_VMEM_WHOLE_REG
  | _ => FDCA_VMEM_UNIT_STRIDE
  end.

(** [fdca_rvv_decode_varith_type].  The source lists the label
    [case 0x00] a second time, for the reduction; the first label with
    that value is the one a [switch] can reach, so the second is left
    out here. *)
Definition fdca_rvv_decode_varith_type (opcode : Z) : fdca_varith_type :=
  match EXTRACT_FUNCT6 opcode with
  | 0x00 => FDCA_VARITH_ADD
  | 0x02 => FDCA_VARITH_SUB
  | 0x25 => FDCA_VARITH_MUL
  | 0x20 => FDCA_VARITH_DIV
  | 0x24 => FDCA_VARITH_AND
  | 0x28 => FDCA_VARITH_OR
  | 0x2C => FDCA_VARITH_XOR
  | 0x30 | 0x34 | 0x38 => FDCA_VARITH_SHIFT
  | 0x18 | 0x19 | 0x1A | 0x1B => FDCA_VARITH_CMP
  | _ => FDCA_VARITH_ADD
  end.

(** The descriptor after [memset] has zeroed it. *)
Definition instr_zero : fdca_rvv_instr :=
  mk_instr 0 FDCA_RVV_INSTR_VMEM 0 0 0 0 false 0 false false false 0.

(** [fdca_rvv_parse_instr]: the return code and the descriptor behind
    the [instr] pointer after the call. *)
Definition fdca_rvv_parse_instr (opcode : Z) (instr : option fdca_rvv_instr)
  : Z * option fdca_rvv_instr :=
  match instr with
  | None => (- EINVAL, None)
  | Some _ =>
    let ty := fdca_rvv_decode_instr_type opcode in
    if instr_type_eqb ty FDCA_RVV_INSTR_INVALID then
      (- EINVAL,
       Some (mk_instr opcode ty 0 0 0 0 false 0 false false false 0))
    else
      let i_vd := u8 (EXTRACT_VD opcode) in
      let i_vs1 := u8 (EXTRACT_VS1 opcode) in
      let i_vs2 := u8 (EXTRACT_VS2 opcode) in
      let i_vm := c_not (EXTRACT_VM opcode) in
      match ty with
      | FDCA_RVV_INSTR_VMEM =>
        (0, Some (mk_instr opcode ty
                    (vmem_code (fdca_rvv_decode_vmem_type opcode))
                    i_vd i_vs1 i_vs2 i_vm 0 i_vm false true 10))
      | FDCA_RVV_INSTR_VARITH =>
        let sub := varith_code (fdca_rvv_decode_varith_type opcode) in
        (0, Some (mk_instr opcode ty sub i_vd i_vs1 i_vs2 i_vm 0 i_vm false false
                    (if (sub =? varith_code FDCA_VARITH_MUL)
                        || (sub =? varith_code FDCA_VARITH_DIV)
                     then 5 else 2)))
      | FDCA_RVV_INSTR_VSETVLI =>
        (0, Some (mk_instr opcode ty 0 i_vd i_vs1 i_vs2 i_vm
                    (EXTRACT_VS1 opcode) false true false 1))
      | _ =>
        (- EINVAL,
         Some (mk_instr opcode ty 0 i_vd i_vs1 i_vs2 i_vm 0 false false false 0))
      end
  end.

(** [fdca_rvv_validate_instr]. *)
Definition fdca_rvv_validate_instr (instr : option fdca_rvv_instr) : Z :=
  match instr with
  | None => - EINVAL
  | Some i =>
    if (vd i >=? FDCA_RVV_NUM_VREGS) || (vs1 i >=? FDCA_RVV_NUM_VREGS)
       || (vs2 i >=? FDCA_RVV_NUM_VREGS)
    then - ERANGE
    else
      match type i with
      | FDCA_RVV_INSTR_VMEM =>
        if uses_mask i && (vd i =? 0) then - EINVAL else 0
      | FDCA_RVV_INSTR_VARITH =>
        if (subtype i =? varith_code FDCA_VARITH_REDUCE)
           && negb (vd i =? vs1 i)
        then - EINVAL else 0
      | FDCA_RVV_INSTR_VSETVLI =>
        if vl_setting i >? 1024 then - ERANGE else 0
      | _ => - EINVAL
      end
  end.

(** [fdca_rvv_instr_conflicts]. *)
Definition fdca_rvv_instr_conflicts (a b : option fdca_rvv_instr) : bool :=
  match a, b with
  | Some a, Some b =>
    if modifies_vl a || modifies_vl b then true
    else if vd a =? vd b then true
    else if (vd a =? vs1 b) || (vd a =? vs2 b) then true
    else if (vd b =? vs1 a) || (vd b =? vs2 a) then true
    else if (uses_mask a || uses_mask b) && ((vd a =? 0) || (vd b =? 0)) then true
    else if memory_access a && memory_access b then true
    else false
  | _, _ => false
  end.

(** The three register fields of a descriptor are below 32. *)
Definition regs_in_range (i : fdca_rvv_instr) : Prop :=
  vd i < 32 /\ vs1 i < 32 /\ vs2 i < 32.

(** The hazards between two descriptors, as a proposition: one of them
    modifies VL; same destination (WAW); the destination of one is a
    source of the other (RAW, WAR); one of them uses the mask and one of
    them writes register 0; both access memory. *)
Definition hazard (a b : fdca_rvv_instr) : Prop :=
  (modifies_vl a = true \/ modifies_vl b = true) \/
  vd a = vd b \/
  (vd a = vs1 b \/ vd a = vs2 b \/ vd b = vs1 a \/ vd b = vs2 a) \/
  ((uses_mask a = true \/ uses_mask b = true) /\ (vd a = 0 \/ vd b = 0)) \/
  (memory_access a = true /\ memory_access b = true).

End RvvInstr.

(** ** fdca_vrf.c: register allocation bitmap *)
Module Vrf.

(** The part of [struct fdca_vrf_manager] the allocator uses.  The
    bitmap [allocated_regs] is one [unsigned long]; bit [i] is set when
    register [i] is taken. *)
Record fdca_vrf_manager : Type := mk_vrf {
  allocated_regs : Z;
  vrf_num_lanes : Z;
  lane_width : Z;
  reg_allocations : Z;           (* atomic64_t *)
  reg_frees : Z;                 (* atomic64_t *)
  lane_accesses : Z              (* atomic64_t *)
}.

(** linux/bitmap: [find_first_zero_bit(addr, size)] is the index of the
    first clear bit, or [size] when the first [size] bits are all set. *)
Fixpoint find_zero_from (bits : Z) (i : Z) (n : nat) : Z :=
  match n with
  | O => i
  | S n' => if Z.testbit bits i then find_zero_from bits (i + 1) n' else i
  end.

Definition find_first_zero_bit (bits size : Z) : Z :=
  find_zero_from bits 0 (Z.to_nat size).

Definition set_bit (nr bits : Z) : Z := Z.setbit bits nr.
Definition clear_bit (nr bits : Z) : Z := Z.clearbit bits nr.

(** [fdca_vrf_alloc_reg], on the global [vrf_mgr]: the value returned
    and the manager after the call. *)
Definition fdca_vrf_alloc_reg (vrf_mgr : option fdca_vrf_manager)
  : Z * option fdca_vrf_manager :=
  match vrf_mgr with
  | None => (- ENODEV, None)
  | Some m =>
    let reg := find_first_zero_bit (allocated_regs m) FDCA_RVV_NUM_VREGS in
    if reg <? FDCA_RVV_NUM_VREGS then
      (reg, Some (mk_vrf (set_bit reg (allocated_regs m)) (vrf_num_lanes m)
                         (lane_width m) (atomic64_inc (reg_allocations m))
                         (reg_frees m) (lane_accesses m)))
    else
      (- ENOSPC, Some m)
  end.

(** [fdca_vrf_free_reg]. *)
Definition fdca_vrf_free_reg (vrf_mgr : option fdca_vrf_manager) (reg : Z)
  : option fdca_vrf_manager :=
  match vrf_mgr with
  | None => None
  | Some m =>
    if (reg <? 0) || (reg >=? FDCA_RVV_NUM_VREGS) then Some m
    else if Z.testbit (allocated_regs m) reg then
      Some (mk_vrf (clear_bit reg (allocated_regs m)) (vrf_num_lanes m)
                   (lane_width m) (reg_allocations m)
                   (atomic64_inc (reg_frees m)) (lane_accesses m))
    else Some m
  end.

(** [n] successive calls of [fdca_vrf_alloc_reg]: the values returned,
    in call order, and the manager after the last call. *)
Fixpoint alloc_many (n : nat) (vrf_mgr : option fdca_vrf_manager)
  : list Z * option fdca_vrf_manager :=
  match n with
  | O => ([], vrf_mgr)
  | S n' =>
    let '(r, m1) := fdca_vrf_alloc_reg vrf_mgr in
    let '(rs, m2) := alloc_many n' m1 in
    (r :: rs, m2)
  end.

(** All 32 register indices are taken. *)
Definition vrf_full (m : fdca_vrf_manager) : Prop :=
  forall i, 0 <= i < FDCA_RVV_NUM_VREGS -> Z.testbit (allocated_regs m) i = true.

(** Registers [0 .. k-1] are taken. *)
Definition prefix_taken (k : Z) (m : fdca_vrf_manager) : Prop :=
  forall i, 0 <= i < k -> Z.testbit (allocated_regs m) i = true.

(** A value returned by a successful allocation. *)
Definition is_reg_index (r : Z) : Prop := 0 <= r < FDCA_RVV_NUM_VREGS.

End Vrf.

(** ** fdca_vector_mem.c: descriptor-driven vector memory transfers *)
Module VectorMem.
Import RvvInstr.

(** [struct fdca_vector_mem_op]. *)
Record fdca_vector_mem_op : Type := mk_op {
  op_type : fdca_vmem_type;
  base_addr : Z;                 (* u64 *)
  stride : Z;                    (* u32 *)
  indices : option (list Z);     (* u32 *, may be NULL *)
  num_elements : Z;              (* u32 *)
  element_size : Z;              (* u32 *)
  is_load : bool;
  dma_addr : Z;                  (* dma_addr_t *)
  cpu_addr : option Z;           (* void *, NULL when nothing is staged *)
  total_size : Z                 (* size_t *)
}.

Definition set_total_size (op : fdca_vector_mem_op) (n : Z) : fdca_vector_mem_op :=
  mk_op (op_type op) (base_addr op) (stride op) (indices op) (num_elements op)
        (element_size op) (is_load op) (dma_addr op) (cpu_addr op) n.

Definition set_staging (op : fdca_vector_mem_op) (cpu : option Z) (dma : Z)
  : fdca_vector_mem_op :=
  mk_op (op_type op) (base_addr op) (stride op) (indices op) (num_elements op)
        (element_size op) (is_load op) dma cpu (total_size op).

(** What the driver does to its collaborators: the DMA allocator and the
    MMIO window of the vector unit. *)
Inductive hw_event : Type :=
| Ev_dma_alloc (size : Z)
| Ev_dma_free (size cpu dma : Z)
| Ev_memcpy (dst bytes : Z)
| Ev_iowrite64 (val off : Z)
| Ev_iowrite32 (val off : Z)
| Ev_ioread32 (off : Z).

(** The collaborators, as the driver observes them.  [dma_script] holds
    the results of the coming calls of [dma_alloc_coherent] (NULL, or the
    CPU and device address of the buffer); an allocator with nothing
    left to give returns NULL.  [status_script] holds, for each coming
    turn of the polling loop, the status register value read and whether
    [jiffies] is past the deadline on that turn.  [trace] records the
    calls made so far. *)
Record platform : Type := mk_platform {
  dma_script : list (option (Z * Z));
  status_script : list (Z * bool);
  trace : list hw_event
}.

Record machine : Type := mk_machine {
  m_dev : fdca_device;
  m_op : fdca_vector_mem_op;
  m_plat : platform
}.

(** State monad over the machine. *)
Definition M (A : Type) : Type := machine -> A * machine.
Definition ret {A} (a : A) : M A := fun s => (a, s).
Definition bind {A B} (c : M A) (k : A -> M B) : M B :=
  fun s => let '(a, s1) := c s in k a s1.

Declare Scope vm_scope.
Delimit Scope vm_scope with vm.
Notation "x <- c ;; k" := (bind c (fun x => k))
  (at level 61, c at next level, right associativity) : vm_scope.
Notation "c ;;; k" := (bind c (fun _ => k))
  (at level 61, right associativity) : vm_scope.
Local Open Scope vm_scope.

Definition get_machine : M machine := fun s => (s, s).
Definition get_op : M fdca_vector_mem_op := fun s => (m_op s, s).
Definition put_op (op : fdca_vector_mem_op) : M unit :=
  fun s => (tt, mk_machine (m_dev s) op (m_plat s)).
Definition log (e : log_entry) : M unit :=
  fun s => (tt, mk_machine (dev_log (m_dev s) e) (m_op s) (m_plat s)).
Definition emit (e : hw_event) : M unit :=
  fun s => let p := m_plat s in
           (tt, mk_machine (m_dev s) (m_op s)
                  (mk_platform (dma_script p) (status_script p) (trace p ++ [e]))).

(** [dma_alloc_coherent(dev, size, &handle, GFP_KERNEL)]. *)
Definition dma_alloc_coherent (size : Z) : M (option (Z * Z)) :=
  fun s =>
    let p := m_plat s in
    let '(r, rest) := match dma_script p with
                      | [] => (None, [])
                      | r :: rest => (r, rest)
                      end in
    (r, mk_machine (m_dev s) (m_op s)
          (mk_platform rest (status_script p) (trace p ++ [Ev_dma_alloc size]))).

Definition dma_free_coherent (size cpu dma : Z) : M unit :=
  emit (Ev_dma_free size cpu dma).
Definition iowrite64 (val off : Z) : M unit := emit (Ev_iowrite64 val off).
Definition iowrite32 (val off : Z) : M unit := emit (Ev_iowrite32 val off).

(** One turn of the polling loop: [ioread32] of the status register and
    the clock test; [None] when the script has no further turn. *)
Definition poll_status (off : Z) : M (option (Z * bool)) :=
  fun s =>
    let p := m_plat s in
    match status_script p with
    | [] => (None, s)
    | o :: rest =>
      (Some o, mk_machine (m_dev s) (m_op s)
                 (mk_platform (dma_script p) rest (trace p ++ [Ev_ioread32 off])))
    end.

(** [fdca_vector_mem_prepare_dma]. *)
Definition fdca_vector_mem_prepare_dma : M Z :=
  op <- get_op ;;
  match
    match op_type op with
    | FDCA_VMEM_UNIT_STRIDE => Some (u32 (num_elements op * element_size op))
    | FDCA_VMEM_STRIDED => Some (u32 (num_elements op * stride op))
    | FDCA_VMEM_INDEXED => Some (u32 (num_elements op * element_size op))
    | FDCA_VMEM_SEGMENT => Some (u32 (num_elements op * element_size op))
    | FDCA_VMEM_WHOLE_REG => None
    end
  with
  | None => ret (- EINVAL)
  | Some size =>
    put_op (set_total_size op size) ;;;
    r <- dma_alloc_coherent size ;;
    op <- get_op ;;
    match r with
    | None =>
      put_op (set_staging op None (dma_addr op)) ;;;
      log (Err_dma_alloc_failed size) ;;;
      ret (- ENOMEM)
    | Some (cpu, dma) =>
      put_op (set_staging op (Some cpu) dma) ;;;
      ret 0
    end
  end.

(** [fdca_vector_mem_cleanup_dma]. *)
Definition fdca_vector_mem_cleanup_dma : M unit :=
  op <- get_op ;;
  match cpu_addr op with
  | Some cpu =>
    dma_free_coherent (total_size op) cpu (dma_addr op) ;;;
    put_op (set_staging op None (dma_addr op))
  | None => ret tt
  end.

Definition ctrl_word (op : fdca_vector_mem_op) (t : fdca_vmem_type) : Z :=
  Z.lor (if is_load op then BIT 0 else 0) (Z.shiftl (vmem_code t) 4).

(** [fdca_vector_mem_unit_stride]. *)
Definition fdca_vector_mem_unit_stride : M Z :=
  op <- get_op ;;
  iowrite64 (base_addr op) 0x100 ;;;
  iowrite32 (num_elements op) 0x108 ;;;
  iowrite32 (element_size op) 0x10C ;;;
  iowrite64 (dma_addr op) 0x110 ;;;
  iowrite32 (ctrl_word op FDCA_VMEM_UNIT_STRIDE) 0x118 ;;;
  iowrite32 (BIT 0) 0x11C ;;;
  log (Dbg_vmem_started (vmem_code FDCA_VMEM_UNIT_STRIDE)) ;;;
  ret 0.

(** [fdca_vector_mem_strided]. *)
Definition fdca_vector_mem_strided : M Z :=
  op <- get_op ;;
  iowrite64 (base_addr op) 0x120 ;;;
  iowrite32 (stride op) 0x128 ;;;
  iowrite32 (num_elements op) 0x12C ;;;
  iowrite32 (element_size op) 0x130 ;;;
  iowrite64 (dma_addr op) 0x134 ;;;
  iowrite32 (ctrl_word op FDCA_VMEM_STRIDED) 0x138 ;;;
  iowrite32 (BIT 0) 0x13C ;;;
  log (Dbg_vmem_started (vmem_code FDCA_VMEM_STRIDED)) ;;;
  ret 0.

(** [fdca_vector_mem_indexed]. *)
Definition fdca_vector_mem_indexed : M Z :=
  op <- get_op ;;
  let indices_size := u64 (num_elements op * 4) in
  r <- dma_alloc_coherent indices_size ;;
  match r with
  | None => log Err_index_dma_alloc_failed ;;; ret (- ENOMEM)
  | Some (indices_cpu, indices_dma) =>
    emit (Ev_memcpy indices_cpu indices_size) ;;;
    iowrite64 (base_addr op) 0x140 ;;;
    iowrite64 indices_dma 0x148 ;;;
    iowrite32 (num_elements op) 0x150 ;;;
    iowrite32 (element_size op) 0x154 ;;;
    iowrite64 (dma_addr op) 0x158 ;;;
    iowrite32 (ctrl_word op FDCA_VMEM_INDEXED) 0x160 ;;;
    iowrite32 (BIT 0) 0x164 ;;;
    log (Dbg_vmem_started (vmem_code FDCA_VMEM_INDEXED)) ;;;
    dma_free_coherent indices_size indices_cpu indices_dma ;;;
    ret 0
  end.

(** [fdca_vector_mem_segment]. *)
Definition fdca_vector_mem_segment : M Z :=
  op <- get_op ;;
  let num_fields := stride op in
  iowrite64 (base_addr op) 0x180 ;;;
  iowrite32 num_fields 0x188 ;;;
  iowrite32 (num_elements op) 0x18C ;;;
  iowrite32 (element_size op) 0x190 ;;;
  iowrite64 (dma_addr op) 0x194 ;;;
  iowrite32 (ctrl_word op FDCA_VMEM_SEGMENT) 0x198 ;;;
  iowrite32 (BIT 0) 0x19C ;;;
  log (Dbg_vmem_started (vmem_code FDCA_VMEM_SEGMENT)) ;;;
  ret 0.

(** [fdca_vector_mem_wait_completion]: the [do ... while (1)] loop, one
    turn per unit of [fuel]; [None] when the observations run out before
    the loop has returned. *)
Fixpoint fdca_vector_mem_wait_completion (fuel : nat) : M (option Z) :=
  match fuel with
  | O => ret None
  | S fuel' =>
    o <- poll_status 0x1A0 ;;
    match o with
    | None => ret None
    | Some (status, expired) =>
      if negb (Z.land status (BIT 0) =? 0) then
        if negb (Z.land status (BIT 1) =? 0) then
          log (Err_vmem_status status) ;;; ret (Some (- EIO))
        else ret (Some 0)
      else if expired then
        log Err_vmem_timeout ;;; ret (Some (- ETIMEDOUT))
      else fdca_vector_mem_wait_completion fuel'
    end
  end.

(** [fdca_vector_mem_execute] after the staging buffer is prepared: the
    [switch] on the addressing mode, the wait and the [cleanup] label. *)
Definition execute_transfer : M (option Z) :=
  op <- get_op ;;
  match op_type op with
  | FDCA_VMEM_WHOLE_REG =>
    log (Err_unsupported_vmem_type (vmem_code (op_type op))) ;;;
    fdca_vector_mem_cleanup_dma ;;;
    ret (Some (- EINVAL))
  | t =>
    ret1 <- match t with
            | FDCA_VMEM_UNIT_STRIDE => fdca_vector_mem_unit_stride
            | FDCA_VMEM_STRIDED => fdca_vector_mem_strided
            | FDCA_VMEM_INDEXED => fdca_vector_mem_indexed
            | _ => fdca_vector_mem_segment
            end ;;
    if negb (ret1 =? 0) then
      fdca_vector_mem_cleanup_dma ;;; ret (Some ret1)
    else
      s1 <- get_machine ;;
      ret2 <- fdca_vector_mem_wait_completion
                (S (length (status_script (m_plat s1)))) ;;
      fdca_vector_mem_cleanup_dma ;;;
      ret ret2
  end.

(** Body of [fdca_vector_mem_execute] once both pointers are known to
    be valid. *)
Definition execute_body : M (option Z) :=
  s <- get_machine ;;
  if negb (vpu_present (m_dev s)) then
    log Err_vpu_unavailable ;;; ret (Some (- ENODEV))
  else
    ret0 <- fdca_vector_mem_prepare_dma ;;
    if negb (ret0 =? 0) then ret (Some ret0)
    else execute_transfer.

(** [fdca_vector_mem_execute]: the return code (if the call returns
    within the observations given) and the device, descriptor and
    collaborators after the call. *)
Definition fdca_vector_mem_execute
           (fdev : option fdca_device) (op : option fdca_vector_mem_op)
           (plat : platform)
  : option Z * option fdca_device * option fdca_vector_mem_op * platform :=
  match fdev, op with
  | Some d, Some o =>
    let '(r, s) := execute_body (mk_machine d o plat) in
    (r, Some (m_dev s), Some (m_op s), m_plat s)
  | _, _ => (Some (- EINVAL), fdev, op, plat)
  end.

(** [fdca_vector_mem_create_op], when [kzalloc] succeeds. *)
Definition fdca_vector_mem_create_op (t : fdca_vmem_type)
           (base num_elements element_size : Z) (is_load : bool)
  : fdca_vector_mem_op :=
  mk_op t base 0 None num_elements element_size is_load 0 None 0.

(** Components of what [fdca_vector_mem_execute] yields. *)
Definition result_code
           (r : option Z * option fdca_device * option fdca_vector_mem_op * platform)
  : option Z := fst (fst (fst r)).
Definition result_platform
           (r : option Z * option fdca_device * option fdca_vector_mem_op * platform)
  : platform := snd r.

(** The allocator was called: the trace holds an allocation request. *)
Definition is_dma_alloc (e : hw_event) : bool :=
  match e with Ev_dma_alloc _ => true | _ => false end.

Definition dma_alloc_calls (p : platform) : list hw_event :=
  filter is_dma_alloc (trace p).

(** A computation only adds to the record of calls made to the
    collaborators. *)
Definition appends {A} (c : M A) : Prop :=
  forall s, exists l, trace (m_plat (snd (c s))) = trace (m_plat s) ++ l.

(** The next call of [dma_alloc_coherent] returns NULL. *)
Definition next_alloc_fails (p : platform) : Prop :=
  match dma_script p with
  | [] | None :: _ => True
  | Some _ :: _ => False
  end.

End VectorMem.

(** ** Inputs of the scenarios *)
Module Scenarios.
Import RvvState RvvInstr Vrf VectorMem.

(** Capability [{vlen=1024, elen=64, lanes=4}]. *)
Definition capability_1024 : fdca_rvv_config :=
  mk_rvv_config 1024 64 4 128 true true true true
                [1; 1; 1; 1] [5; 35; 3; 2; 4] 1024 8.

Definition device_1024 : fdca_device :=
  mk_device capability_1024 true true [].

Definition manager_1024 : fdca_rvv_state_manager :=
  mk_manager (Some capability_1024) true true true 10.

(** A context whose VTYPE register reads 0. *)
Definition csr_vtype0 : fdca_rvv_csr_context :=
  mk_csr 0 0 0 0 0 0 128 parsed_zero false false 0 0.

(** A context whose VTYPE register has only the illegal bit set, as the
    driver's CSR read returns by default. *)
Definition csr_vill : fdca_rvv_csr_context :=
  mk_csr 0 0 0 0 0 (BIT 63) 128 parsed_zero false false 0 0.

(** A parsed context with SEW = 8 that asks for a vector length far
    above what any capability allows. *)
Definition csr_long_vl : fdca_rvv_csr_context :=
  mk_csr 0 0 0 0 1000000 0 128
         (mk_parsed 0 0 false false false 8 1 1) true false 0 1.

(** [a = {vd=5, vs1=1, vs2=2}], [b = {vd=3, vs1=5, vs2=4}]: two
    unmasked arithmetic instructions. *)
Definition instr_a : fdca_rvv_instr :=
  mk_instr 0 FDCA_RVV_INSTR_VARITH 0 5 1 2 false 0 false false false 2.
Definition instr_b : fdca_rvv_instr :=
  mk_instr 0 FDCA_RVV_INSTR_VARITH 0 3 5 4 false 0 false false false 2.

(** An instruction word with base opcode 0x57 and funct3 = 7. *)
Definition word_vsetvli : Z := 0x7057.
(** An instruction word with base opcode 0x43. *)
Definition word_madd : Z := 0x43.
(** A masked vector load (vm bit clear) into v8 with base register 10. *)
Definition word_masked_load : Z := 0x00050407.

(** A manager with an empty allocation bitmap. *)
Definition vrf_empty : fdca_vrf_manager := mk_vrf 0 4 256 0 0 0.

(** A unit-stride load of zero elements of four bytes. *)
Definition op_no_elements : fdca_vector_mem_op :=
  fdca_vector_mem_create_op FDCA_VMEM_UNIT_STRIDE 0x80000000 0 4 true.

(** Collaborators that grant one buffer and report completion at the
    first poll. *)
Definition platform_ready : platform :=
  mk_platform [Some (0x1000, 0x2000)] [(1, false)] [].

End Scenarios.

(** ** Further kernel helpers *)

Definition s32 (x : Z) : Z := (x + 2 ^ 31) mod 2 ^ 32 - 2 ^ 31.

(** The kernel allocator as the driver sees it.  [alloc_script] tells, for
    each coming call of [kzalloc] / [kcalloc] / [kmalloc], whether it
    returns memory; an allocator with nothing left to say returns NULL.
    [n_alloc] counts the blocks handed out and [n_free] the blocks given
    back, so their difference is the number of live blocks. *)
Module Heap.

Record heap : Type := mk_heap {
  alloc_script : list bool;
  n_alloc : Z;
  n_free : Z
}.

(** One allocation request: whether it is granted, and the heap after. *)
Definition kalloc (h : heap) : bool * heap :=
  match alloc_script h with
  | true :: rest => (true, mk_heap rest (n_alloc h + 1) (n_free h))
  | false :: rest => (false, mk_heap rest (n_alloc h) (n_free h))
  | [] => (false, h)
  end.

(** [kzalloc(size, GFP_KERNEL)] of a byte buffer: NULL, or [size] zero
    bytes. *)
Definition kzalloc (size : Z) (h : heap) : option (list Z) * heap :=
  let '(ok, h') := kalloc h in
  (if ok then Some (repeat 0 (Z.to_nat size)) else None, h').

(** [kfree(p)]: nothing happens for a NULL pointer. *)
Definition kfree {A : Type} (p : option A) (h : heap) : heap :=
  match p with
  | Some _ => mk_heap (alloc_script h) (n_alloc h) (n_free h + 1)
  | None => h
  end.

Definition live_blocks (h : heap) : Z := n_alloc h - n_free h.

End Heap.

(** ** fdca_pci.c: capability detection *)
Module Pci.
Import RvvConfig.

Definition FDCA_RVV_MAX_VLEN : Z := 65536.
Definition FDCA_RVV_MAX_ELEN : Z := 64.
Definition FDCA_MAX_LANES : Z := 16.

(** Messages of [fdca_detect_rvv_capabilities]. *)
Inductive detect_msg : Type :=
| Msg_rvv_unavailable
| Msg_rvv_config (vlen elen lanes : Z)
| Msg_rvv_caps (fp fixpt seg os : bool)
| Msg_err (e : log_entry).

(** [fdca_detect_rvv_capabilities], given the value [rvv_config_reg] that
    [ioread32] returns for the RVV configuration register: the return
    code, the device after the call and the messages printed. *)
Definition fdca_detect_rvv_capabilities (fdev : fdca_device) (rvv_config_reg : Z)
  : Z * fdca_device * list detect_msg :=
  if negb (rvv_available fdev) then (0, fdev, [Msg_rvv_unavailable])
  else
    let c_vlen := u32 (1024 * (Z.land rvv_config_reg 0xF + 1)) in
    let c_elen := u32 (Z.shiftl 8 (Z.land (Z.shiftr rvv_config_reg 4) 0x7)) in
    let c_lanes := u32 (Z.shiftl 1 (Z.land (Z.shiftr rvv_config_reg 8) 0xF)) in
    let c_vlenb := c_vlen / 8 in
    let fp := c_bool (Z.land rvv_config_reg (BIT 16)) in
    let fixpt := c_bool (Z.land rvv_config_reg (BIT 17)) in
    let seg := c_bool (Z.land rvv_config_reg (BIT 18)) in
    let os := c_bool (Z.land rvv_config_reg (BIT 19)) in
    let config :=
      mk_rvv_config c_vlen c_elen c_lanes c_vlenb fp fixpt seg os
                    [0; 1; 1; 1] [5; 3; 2; 1; 0]
                    (u32 (c_vlen * FDCA_RVV_NUM_VREGS) / c_lanes / 8) 8 in
    let fdev' := mk_device config (rvv_available fdev) (vpu_present fdev)
                           (klog fdev) in
    let msgs := [Msg_rvv_config c_vlen c_elen c_lanes; Msg_rvv_caps fp fixpt seg os] in
    if (c_vlen <? 128) || (c_vlen >? FDCA_RVV_MAX_VLEN) then
      (- EINVAL, fdev', msgs ++ [Msg_err (Err_invalid_vlen c_vlen)])
    else if c_elen >? FDCA_RVV_MAX_ELEN then
      (- EINVAL, fdev', msgs ++ [Msg_err (Err_invalid_elen c_elen)])
    else if (c_lanes =? 0) || (c_lanes >? FDCA_MAX_LANES) then
      (- EINVAL, fdev', msgs ++ [Msg_err (Err_invalid_lanes c_lanes)])
    else (0, fdev', msgs).

End Pci.

(** ** fdca_rvv_state.c: CSR save and restore *)
Module RvvCsrIo.
Import RvvState.

Definition FDCA_CSR_VSTART : Z := 0x008.
Definition FDCA_CSR_VXSAT : Z := 0x009.
Definition FDCA_CSR_VXRM : Z := 0x00A.
Definition FDCA_CSR_VCSR : Z := 0x00F.
Definition FDCA_CSR_VL : Z := 0xC20.
Definition FDCA_CSR_VTYPE : Z := 0xC21.
Definition FDCA_CSR_VLENB : Z := 0xC22.

(** [fdca_rvv_read_csr]: the driver's stand-in for the hardware read. *)
Definition fdca_rvv_read_csr (g_rvv_manager : option fdca_rvv_state_manager)
           (csr_addr : Z) : Z :=
  if csr_addr =? FDCA_CSR_VSTART then 0
  else if csr_addr =? FDCA_CSR_VXSAT then 0
  else if csr_addr =? FDCA_CSR_VXRM then 0
  else if csr_addr =? FDCA_CSR_VCSR then 0
  else if csr_addr =? FDCA_CSR_VL then 0
  else if csr_addr =? FDCA_CSR_VTYPE then FDCA_VTYPE_VILL
  else if csr_addr =? FDCA_CSR_VLENB then
    match manager_hw_config g_rvv_manager with
    | Some hw => cfg_vlenb hw
    | None => 128
    end
  else 0.

(** A call of [fdca_rvv_write_csr]: the register and the value. *)
Definition csr_write : Type := (Z * Z)%type.

(** [fdca_rvv_csr_save]; [now] is what [ktime_get_boottime_seconds]
    returns. *)
Definition fdca_rvv_csr_save (g_rvv_manager : option fdca_rvv_state_manager)
           (csr_ctx : option fdca_rvv_csr_context) (now : Z)
  : Z * option fdca_rvv_csr_context :=
  match csr_ctx with
  | None => (- EINVAL, None)
  | Some c =>
    let rd := fdca_rvv_read_csr g_rvv_manager in
    let c1 := mk_csr (rd FDCA_CSR_VSTART) (rd FDCA_CSR_VXSAT) (rd FDCA_CSR_VXRM)
                     (rd FDCA_CSR_VCSR) (rd FDCA_CSR_VL) (rd FDCA_CSR_VTYPE)
                     (rd FDCA_CSR_VLENB)
                     (parsed c) (valid c) (dirty c) (save_time c) (save_count c) in
    let c2 := fdca_rvv_csr_parse_vtype c1 in
    (0, Some (mk_csr (vstart c2) (vxsat c2) (vxrm c2) (vcsr c2) (vl c2) (vtype c2)
                     (vlenb c2) (parsed c2) true false (u64 now)
                     (u32 (save_count c2 + 1))))
  end.

(** [fdca_rvv_csr_restore]: the return code and the calls of
    [fdca_rvv_write_csr] it makes, in order. *)
Definition fdca_rvv_csr_restore (csr_ctx : option fdca_rvv_csr_context)
  : Z * list csr_write :=
  match csr_ctx with
  | None => (- EINVAL, [])
  | Some c =>
    if negb (valid c) then (- EINVAL, [])
    else (0, [(FDCA_CSR_VSTART, vstart c); (FDCA_CSR_VXSAT, vxsat c);
              (FDCA_CSR_VXRM, vxrm c); (FDCA_CSR_VCSR, vcsr c);
              (FDCA_CSR_VL, vl c); (FDCA_CSR_VTYPE, vtype c)])
  end.

End RvvCsrIo.

(** ** fdca_rvv_state.c: register-file state *)
Module RvvRegs.
Import Heap.

(** [struct fdca_rvv_register_state]; a buffer pointer is NULL or the
    bytes it points to. *)
Record fdca_rvv_register_state : Type := mk_regs {
  vregs_data : option (list Z);
  vregs_size : Z;                  (* size_t *)
  num_vregs : Z;                   (* u32 *)
  vmask_data : option (list Z);
  vmask_size : Z;                  (* size_t *)
  allocated : bool;
  saved : bool;
  regs_save_time : Z;              (* u64 save_time *)
  ref_count : Z                    (* atomic_t *)
}.

(** The structure after [memset] has zeroed it. *)
Definition regs_zero : fdca_rvv_register_state :=
  mk_regs None 0 0 None 0 false false 0 0.

(** [memset(p, 0, n)] on a buffer. *)
Definition memset_zero (p : option (list Z)) (n : Z) : option (list Z) :=
  match p with
  | Some data => Some (repeat 0 (Z.to_nat n) ++ skipn (Z.to_nat n) data)
  | None => None
  end.

(** [fdca_rvv_regs_alloc]. *)
Definition fdca_rvv_regs_alloc (reg_state : option fdca_rvv_register_state)
           (config : option fdca_rvv_config) (h : heap)
  : Z * option fdca_rvv_register_state * heap :=
  match reg_state, config with
  | Some r, Some cfg =>
    let sz_vregs := u32 (vlen cfg / 8 * FDCA_RVV_NUM_VREGS) in
    let sz_vmask := vlen cfg / 8 in
    let '(p1, h1) := kzalloc sz_vregs h in
    match p1 with
    | None =>
      (- ENOMEM,
       Some (mk_regs None (vregs_size r) (num_vregs r) (vmask_data r)
                     (vmask_size r) (allocated r) (saved r) (regs_save_time r)
                     (ref_count r)), h1)
    | Some _ =>
      let '(p2, h2) := kzalloc sz_vmask h1 in
      match p2 with
      | None =>
        (- ENOMEM,
         Some (mk_regs None (vregs_size r) (num_vregs r) None
                       (vmask_size r) (allocated r) (saved r) (regs_save_time r)
                       (ref_count r)), kfree p1 h2)
      | Some _ =>
        (0, Some (mk_regs p1 sz_vregs FDCA_RVV_NUM_VREGS p2 sz_vmask
                          true false (regs_save_time r) 1), h2)
      end
    end
  | _, _ => (- EINVAL, reg_state, h)
  end.

(** [fdca_rvv_regs_free]. *)
Definition fdca_rvv_regs_free (reg_state : option fdca_rvv_register_state)
           (h : heap) : option fdca_rvv_register_state * heap :=
  match reg_state with
  | None => (None, h)
  | Some r =>
    if negb (allocated r) then (Some r, h)
    else
      let cnt := s32 (ref_count r - 1) in
      if cnt >? 0 then
        (Some (mk_regs (vregs_data r) (vregs_size r) (num_vregs r) (vmask_data r)
                       (vmask_size r) (allocated r) (saved r) (regs_save_time r)
                       cnt), h)
      else (Some regs_zero, kfree (vregs_data r) (kfree (vmask_data r) h))
  end.

(** [fdca_rvv_regs_save]. *)
Definition fdca_rvv_regs_save (reg_state : option fdca_rvv_register_state)
           (config : option fdca_rvv_config) (now : Z)
  : Z * option fdca_rvv_register_state :=
  match reg_state, config with
  | Some r, Some _ =>
    if negb (allocated r) then (- EINVAL, reg_state)
    else
      (0, Some (mk_regs (memset_zero (vregs_data r) (vregs_size r))
                        (vregs_size r) (num_vregs r)
                        (memset_zero (vmask_data r) (vmask_size r))
                        (vmask_size r) (allocated r) true (u64 now)
                        (ref_count r)))
  | _, _ => (- EINVAL, reg_state)
  end.

(** [fdca_rvv_regs_restore]. *)
Definition fdca_rvv_regs_restore (reg_state : option fdca_rvv_register_state)
           (config : option fdca_rvv_config) : Z :=
  match reg_state, config with
  | Some r, Some _ =>
    if negb (allocated r) || negb (saved r) then - EINVAL else 0
  | _, _ => - EINVAL
  end.

End RvvRegs.

(** ** fdca_rvv_state.c: per-process vector context *)
Module RvvContext.
Import Heap RvvState RvvCsrIo RvvRegs.

(** [struct fdca_rvv_context], without its mutex. *)
Record fdca_rvv_context : Type := mk_ctx {
  csr : fdca_rvv_csr_context;
  regs : fdca_rvv_register_state;
  active : bool;
  preempted : bool;
  stat_save_count : Z;             (* atomic64_t stats.save_count *)
  stat_restore_count : Z;          (* atomic64_t stats.restore_count *)
  total_save_time : Z;             (* u64 *)
  total_restore_time : Z;          (* u64 *)
  owner_pid : Z;
  comm : list Z;                   (* char comm[TASK_COMM_LEN] *)
  create_time : Z;
  last_use_time : Z
}.

Definition TASK_COMM_LEN : Z := 16.

(** The clock readings of one save or restore: the two values of
    [ktime_get_ns] around the work and the values of
    [ktime_get_boottime_seconds] taken by the CSR save, the register save
    and the context itself. *)
Record clock : Type := mk_clock {
  start_ns : Z;
  end_ns : Z;
  csr_sec : Z;
  regs_sec : Z;
  ctx_sec : Z
}.

(** [fdca_rvv_context_create] for the task with the given pid and name:
    an error pointer or the new context, and the heap after the call.
    The messages the function prints are not part of the model. *)
Definition fdca_rvv_context_create (fdev : option fdca_device)
           (pid : Z) (name : list Z) (now : Z) (h : heap)
  : (Z + fdca_rvv_context) * heap :=
  match fdev with
  | None => (inl (- ENODEV), h)
  | Some d =>
    if negb (rvv_available d) then (inl (- ENODEV), h)
    else
      let '(ok, h1) := kalloc h in
      if negb ok then (inl (- ENOMEM), h1)
      else
        let '(ret, r, h2) :=
            fdca_rvv_regs_alloc (Some regs_zero) (Some (rvv_config d)) h1 in
        if negb (ret =? 0) then (inl ret, kfree (Some tt) h2)
        else
          match r with
          | Some r' =>
            (inr (mk_ctx csr_zero r' false false 0 0 0 0 pid
                         (firstn (Z.to_nat (TASK_COMM_LEN - 1)) name)
                         (u64 now) (u64 now)), h2)
          | None => (inl ret, kfree (Some tt) h2)
          end
  end.

(** [fdca_rvv_context_destroy]: the heap after the call. *)
Definition fdca_rvv_context_destroy (ctx : option fdca_rvv_context) (h : heap)
  : heap :=
  match ctx with
  | None => h
  | Some c =>
    let '(_, h1) := fdca_rvv_regs_free (Some (regs c)) h in
    kfree (Some tt) h1
  end.

(** [fdca_rvv_context_save]. *)
Definition fdca_rvv_context_save (g_rvv_manager : option fdca_rvv_state_manager)
           (ctx : option fdca_rvv_context) (t : clock)
  : Z * option fdca_rvv_context :=
  match ctx with
  | None => (- EINVAL, None)
  | Some c =>
    let '(ret, csr') := fdca_rvv_csr_save g_rvv_manager (Some (csr c)) (csr_sec t) in
    let c1 := mk_ctx (match csr' with Some x => x | None => csr c end)
                     (regs c) (active c) (preempted c)
                     (stat_save_count c) (stat_restore_count c)
                     (total_save_time c) (total_restore_time c)
                     (owner_pid c) (comm c) (create_time c) (last_use_time c) in
    if negb (ret =? 0) then (ret, Some c1)
    else
      let '(ret2, regs') :=
          match manager_hw_config g_rvv_manager with
          | Some hw => fdca_rvv_regs_save (Some (regs c1)) (Some hw) (regs_sec t)
          | None => (0, Some (regs c1))
          end in
      let c2 := mk_ctx (csr c1) (match regs' with Some x => x | None => regs c1 end)
                       (active c1) (preempted c1)
                       (stat_save_count c1) (stat_restore_count c1)
                       (total_save_time c1) (total_restore_time c1)
                       (owner_pid c1) (comm c1) (create_time c1) (last_use_time c1) in
      if negb (ret2 =? 0) then (ret2, Some c2)
      else
        (0, Some (mk_ctx (csr c2) (regs c2) false (preempted c2)
                         (atomic64_inc (stat_save_count c2)) (stat_restore_count c2)
                         (u64 (total_save_time c2 + u64 (end_ns t - start_ns t)))
                         (total_restore_time c2)
                         (owner_pid c2) (comm c2) (create_time c2) (u64 (ctx_sec t))))
  end.

(** [fdca_rvv_context_restore]: the return code, the context after the
    call and the CSR writes made. *)
Definition fdca_rvv_context_restore (g_rvv_manager : option fdca_rvv_state_manager)
           (ctx : option fdca_rvv_context) (t : clock)
  : Z * option fdca_rvv_context * list csr_write :=
  match ctx with
  | None => (- EINVAL, None, [])
  | Some c =>
    let '(ret, writes) := fdca_rvv_csr_restore (Some (csr c)) in
    if negb (ret =? 0) then (ret, Some c, writes)
    else
      let ret2 :=
          match manager_hw_config g_rvv_manager with
          | Some hw => fdca_rvv_regs_restore (Some (regs c)) (Some hw)
          | None => 0
          end in
      if negb (ret2 =? 0) then (ret2, Some c, writes)
      else
        (0, Some (mk_ctx (csr c) (regs c) true false
                         (stat_save_count c) (atomic64_inc (stat_restore_count c))
                         (total_save_time c)
                         (u64 (total_restore_time c + u64 (end_ns t - start_ns t)))
                         (owner_pid c) (comm c) (create_time c) (u64 (ctx_sec t))),
         writes)
  end.

(** [fdca_rvv_state_manager_init]: the return code, the global
    [g_rvv_manager] and the heap after the call.  The three allocations
    are the manager and the two arrays of its buffer pool.  The manager
    keeps a pointer to the capability of the device; the model gives it
    the capability the device has at that moment. *)
Definition fdca_rvv_state_manager_init (fdev : option fdca_device)
           (g_rvv_manager : option fdca_rvv_state_manager) (h : heap)
  : Z * option fdca_rvv_state_manager * heap :=
  match fdev with
  | None => (- EINVAL, g_rvv_manager, h)
  | Some d =>
    let '(ok, h1) := kalloc h in
    if negb ok then (- ENOMEM, g_rvv_manager, h1)
    else
      let '(ok_buffers, h2) := kalloc h1 in
      let '(ok_used, h3) := kalloc h2 in
      if negb ok_buffers || negb ok_used then
        (- ENOMEM, g_rvv_manager,
         kfree (Some tt)
               (kfree (if ok_used then Some tt else None)
                      (kfree (if ok_buffers then Some tt else None) h3)))
      else
        (0, Some (mk_manager (Some (rvv_config d)) (rvv_available d) true true 10),
         h3)
  end.

End RvvContext.

(** ** fdca_vrf.c: manager set-up and lane access *)
Module VrfLanes.
Import Heap Vrf.

(** The allocator state of [struct fdca_vrf_manager] together with its
    [lane_bases] array of 16 MMIO addresses (0 is NULL). *)
Record lane_file : Type := mk_lanes {
  mgr : fdca_vrf_manager;
  lane_bases : list Z
}.

(** A call returns, or runs into a division by zero or an access outside
    the [lane_bases] array. *)
Inductive result (A : Type) : Type :=
| Ok (a : A)
| Fault.
Arguments Ok {A} a.
Arguments Fault {A}.

(** The bytes behind the MMIO window, by address. *)
Definition mmio : Type := Z -> Z.

(** [memcpy_toio(dst, buf, size)]. *)
Definition memcpy_toio (dst : Z) (buf : list Z) (size : Z) (m : mmio) : mmio :=
  fun a => if (dst <=? a) && (a <? dst + size)
           then nth (Z.to_nat (a - dst)) buf 0 else m a.

(** [memcpy_fromio(buf, src, size)]: the bytes copied into the buffer. *)
Definition memcpy_fromio (src : Z) (size : Z) (m : mmio) : list Z :=
  map (fun i => m (src + Z.of_nat i)) (seq 0 (Z.to_nat size)).

(** [fdca_vrf_init], with [mmio_base] the MMIO base of the vector unit:
    the return code, the global [vrf_mgr] and the heap after the call. *)
Definition fdca_vrf_init (fdev : fdca_device) (mmio_base : Z)
           (vrf_mgr : option lane_file) (h : heap)
  : result (Z * option lane_file * heap) :=
  let '(ok, h1) := kalloc h in
  if negb ok then Ok (- ENOMEM, vrf_mgr, h1)
  else
    let n := num_lanes (rvv_config fdev) in
    if n =? 0 then Fault
    else if n >? 16 then Fault
    else
      let width := vlen (rvv_config fdev) / n in
      let bases := map (fun i => mmio_base + Z.of_nat i * 0x1000)
                       (seq 0 (Z.to_nat n))
                   ++ repeat 0 (Z.to_nat (16 - n)) in
      Ok (0, Some (mk_lanes (mk_vrf 0 n width 0 0 0) bases), h1).

(** The address a lane access uses, after its argument checks. *)
Definition lane_address (vrf_mgr : option lane_file) (reg lane : Z)
  : result (Z + Z) :=
  match vrf_mgr with
  | None => Ok (inl (- EINVAL))
  | Some f =>
    if (reg <? 0) || (reg >=? FDCA_RVV_NUM_VREGS)
       || (u32 lane >=? vrf_num_lanes (mgr f))
    then Ok (inl (- EINVAL))
    else
      if lane <? 0 then Fault
      else
        match nth_error (lane_bases f) (Z.to_nat lane) with
        | None => Fault
        | Some lane_base =>
          if lane_base =? 0 then Ok (inl (- ENODEV))
          else Ok (inr (lane_base + u32 (reg * lane_width (mgr f)) / 8))
        end
  end.

Definition count_access (f : lane_file) : lane_file :=
  mk_lanes (mk_vrf (allocated_regs (mgr f)) (vrf_num_lanes (mgr f))
                   (lane_width (mgr f)) (reg_allocations (mgr f))
                   (reg_frees (mgr f)) (atomic64_inc (lane_accesses (mgr f))))
           (lane_bases f).

(** [fdca_vrf_read_lane]: the return code, the bytes copied into the
    buffer (none on an error) and the manager after the call. *)
Definition fdca_vrf_read_lane (vrf_mgr : option lane_file) (reg lane : Z)
           (size : Z) (m : mmio)
  : result (Z * option (list Z) * option lane_file) :=
  match lane_address vrf_mgr reg lane with
  | Fault => Fault
  | Ok (inl err) => Ok (err, None, vrf_mgr)
  | Ok (inr addr) =>
    Ok (0, Some (memcpy_fromio addr size m),
        match vrf_mgr with Some f => Some (count_access f) | None => None end)
  end.

(** [fdca_vrf_write_lane]: the return code, the MMIO contents and the
    manager after the call. *)
Definition fdca_vrf_write_lane (vrf_mgr : option lane_file) (reg lane : Z)
           (buffer : list Z) (size : Z) (m : mmio)
  : result (Z * mmio * option lane_file) :=
  match lane_address vrf_mgr reg lane with
  | Fault => Fault
  | Ok (inl err) => Ok (err, m, vrf_mgr)
  | Ok (inr addr) =>
    Ok (0, memcpy_toio addr buffer size m,
        match vrf_mgr with Some f => Some (count_access f) | None => None end)
  end.

End VrfLanes.

(** ** fdca_vector_mem.c: descriptor set-up *)
Module VectorMemOps.
Import Heap RvvInstr VectorMem.

(** [fdca_vector_mem_set_stride]. *)
Definition fdca_vector_mem_set_stride (op : option fdca_vector_mem_op) (s : Z)
  : option fdca_vector_mem_op :=
  match op with
  | Some o =>
    Some (mk_op (op_type o) (base_addr o) s (indices o) (num_elements o)
                (element_size o) (is_load o) (dma_addr o) (cpu_addr o)
                (total_size o))
  | None => None
  end.

Definition set_indices_field (o : fdca_vector_mem_op) (ix : option (list Z)) (n : Z)
  : fdca_vector_mem_op :=
  mk_op (op_type o) (base_addr o) (stride o) ix n
        (element_size o) (is_load o) (dma_addr o) (cpu_addr o) (total_size o).

(** [fdca_vector_mem_set_indices]: the return code, the descriptor and
    the heap after the call. *)
Definition fdca_vector_mem_set_indices (op : option fdca_vector_mem_op)
           (new_indices : option (list Z)) (count : Z) (h : heap)
  : Z * option fdca_vector_mem_op * heap :=
  match op, new_indices with
  | Some o, Some src =>
    let h1 := kfree (indices o) h in
    let '(ok, h2) := kalloc h1 in
    if negb ok then
      (- ENOMEM, Some (set_indices_field o None (num_elements o)), h2)
    else
      (0, Some (set_indices_field o (Some (firstn (Z.to_nat count) src)) count), h2)
  | _, _ => (- EINVAL, op, h)
  end.

(** [fdca_vector_mem_destroy_op]: the heap after the call. *)
Definition fdca_vector_mem_destroy_op (op : option fdca_vector_mem_op) (h : heap)
  : heap :=
  match op with
  | Some o => kfree (Some tt) (kfree (indices o) h)
  | None => h
  end.

(** Numbers of buffers the DMA allocator has granted in a script prefix
    and of buffers given back in a trace. *)
Definition is_granted (r : option (Z * Z)) : bool :=
  match r with Some _ => true | None => false end.
Definition is_dma_free (e : hw_event) : bool :=
  match e with Ev_dma_free _ _ _ => true | _ => false end.
Definition is_status_read (e : hw_event) : bool :=
  match e with Ev_ioread32 _ => true | _ => false end.
Definition is_mmio_write (e : hw_event) : bool :=
  match e with Ev_iowrite64 _ _ | Ev_iowrite32 _ _ => true | _ => false end.

(** A poll is a value read from the status register and whether the
    deadline has passed when it is looked at.  [poll_done]: the completion
    bit is set.  [poll_decides]: the poll ends the wait, because the
    completion bit is set or the deadline has passed. *)
Definition poll_done (o : Z * bool) : bool := negb (Z.land (fst o) (BIT 0) =? 0).
Definition poll_decides (o : Z * bool) : bool := poll_done o || snd o.

(** The value the wait returns at a deciding poll. *)
Definition poll_verdict (o : Z * bool) : Z :=
  if poll_done o then
    if negb (Z.land (fst o) (BIT 1) =? 0) then - EIO else 0
  else - ETIMEDOUT.

(** The descriptor [fdca_vector_mem_execute] leaves behind. *)
Definition result_op
           (r : option Z * option fdca_device * option fdca_vector_mem_op * platform)
  : option fdca_vector_mem_op := snd (fst r).

(** Number of staging buffers a machine state holds: one when the
    descriptor points to a staging buffer. *)
Definition held (s : machine) : nat :=
  match cpu_addr (m_op s) with Some _ => 1%nat | None => 0%nat end.

(** Between two machine states the DMA buffers are accounted for: the
    buffers granted in between, plus the one held before, are the buffers
    given back in between, plus the one held after. *)
Definition conserved (s s' : machine) : Prop :=
  exists consumed events,
    dma_script (m_plat s) = consumed ++ dma_script (m_plat s') /\
    trace (m_plat s') = trace (m_plat s) ++ events /\
    (length (filter is_granted consumed) + held s
     = length (filter is_dma_free events) + held s')%nat.

Definition conserves {A} (c : M A) : Prop :=
  forall s, conserved s (snd (c s)).

(** A computation does not poll: the observations still to come of the
    status register are as before. *)
Definition keeps_status {A} (c : M A) : Prop :=
  forall s, status_script (m_plat (snd (c s))) = status_script (m_plat s).

(** A computation always yields the value [a]. *)
Definition yields {A} (a : A) (c : M A) : Prop :=
  forall s, fst (c s) = a.

(** A computation ends with no staging buffer held. *)
Definition releases {A} (c : M A) : Prop :=
  forall s, cpu_addr (m_op (snd (c s))) = None.

End VectorMemOps.

(** * Properties *)

(** ** Bit-level facts shared by the decoders *)

Lemma land_bit_eqb (v n : Z) :
  0 <= n -> (Z.land v (BIT n) =? 0) = negb (Z.testbit v n).
Proof.
  intros Hn. unfold BIT. rewrite Z.shiftl_1_l.
  destruct (Z.testbit v n) eqn:Hb; simpl.
  - apply Z.eqb_neq. intros H0.
    assert (Ht : Z.testbit (Z.land v (2 ^ n)) n = true).
    { rewrite Z.land_spec, Hb, Z.pow2_bits_true; auto. }
    rewrite H0, Z.bits_0 in Ht. discriminate.
  - apply Z.eqb_eq. apply Z.bits_inj'. intros i Hi.
    rewrite Z.land_spec, Z.bits_0.
    destruct (Z.eq_dec n i) as [->|Hne].
    + rewrite Hb. reflexivity.
    + rewrite (Z.pow2_bits_false n i) by auto. apply andb_false_r.
Qed.

Lemma c_bool_bit (v n : Z) :
  0 <= n -> c_bool (Z.land v (BIT n)) = Z.testbit v n.
Proof.
  intros Hn. unfold c_bool. rewrite land_bit_eqb by assumption.
  apply negb_involutive.
Qed.

Lemma land_low_bits (v k : Z) :
  0 <= k -> Z.land v (2 ^ k - 1) = v mod 2 ^ k.
Proof.
  intros Hk. rewrite <- Z.land_ones by assumption.
  rewrite Z.ones_equiv. f_equal; lia.
Qed.

Lemma field_range (v s k : Z) :
  0 <= k -> 0 <= Z.land (Z.shiftr v s) (2 ^ k - 1) < 2 ^ k.
Proof.
  intros Hk. rewrite land_low_bits by assumption.
  apply Z.mod_pos_bound. apply Z.pow_pos_nonneg; lia.
Qed.

Lemma u32_small (x : Z) : 0 <= x < 2 ^ 32 -> u32 x = x.
Proof. intros H. unfold u32. apply Z.mod_small. exact H. Qed.

Lemma u8_small (x : Z) : 0 <= x < 2 ^ 8 -> u8 x = x.
Proof. intros H. unfold u8. apply Z.mod_small. exact H. Qed.

(** ** Capability validation *)
Section ConfigValidation.
Import RvvConfig.

Lemma config_validate_frame (fdev : fdca_device) :
  let fdev' := snd (fdca_rvv_config_validate fdev) in
  rvv_config fdev' = rvv_config fdev /\
  rvv_available fdev' = rvv_available fdev /\
  vpu_present fdev' = vpu_present fdev.
Proof.
  unfold fdca_rvv_config_validate.
  repeat match goal with
         | |- context [if ?b then _ else _] => destruct b
         end; simpl; auto.
Qed.

(** C1: capability validation returns 0 exactly when
    128 <= vlen <= 65536, elen <= 64 and 1 <= num_lanes <= 16; when a
    bound is violated it returns -EINVAL; and the configuration of the
    device after the call is the configuration before it. *)
Theorem config_validate_bounds (fdev : fdca_device)
        (Hwf : config_wf (rvv_config fdev)) :
  let c := rvv_config fdev in
  let rc := fst (fdca_rvv_config_validate fdev) in
  let bounds := 128 <= vlen c <= 65536 /\ elen c <= 64 /\ 1 <= num_lanes c <= 16 in
  (rc = 0 <-> bounds) /\
  (~ bounds -> rc = - EINVAL) /\
  rvv_config (snd (fdca_rvv_config_validate fdev)) = c.
Proof.
  destruct Hwf as (Hv & He & Hl).
  cbv zeta. split; [|split].
  - unfold fdca_rvv_config_validate, EINVAL.
    destruct (Z.ltb_spec (vlen (rvv_config fdev)) 128);
      destruct (Z.gtb_spec (vlen (rvv_config fdev)) 65536);
      destruct (Z.gtb_spec (elen (rvv_config fdev)) 64);
      destruct (Z.eqb_spec (num_lanes (rvv_config fdev)) 0);
      destruct (Z.gtb_spec (num_lanes (rvv_config fdev)) 16);
      simpl; split; intros; try lia.
  - unfold fdca_rvv_config_validate, EINVAL.
    destruct (Z.ltb_spec (vlen (rvv_config fdev)) 128);
      destruct (Z.gtb_spec (vlen (rvv_config fdev)) 65536);
      destruct (Z.gtb_spec (elen (rvv_config fdev)) 64);
      destruct (Z.eqb_spec (num_lanes (rvv_config fdev)) 0);
      destruct (Z.gtb_spec (num_lanes (rvv_config fdev)) 16);
      simpl; intros; try reflexivity; exfalso; lia.
  - apply config_validate_frame.
Qed.

End ConfigValidation.

Lemma config_validate_bounds_witness :
  RvvConfig.config_wf (rvv_config Scenarios.device_1024) /\
  (fst (RvvConfig.fdca_rvv_config_validate Scenarios.device_1024) = 0 <->
   128 <= 1024 <= 65536 /\ 64 <= 64 /\ 1 <= 4 <= 16).
Proof.
  assert (Hwf : RvvConfig.config_wf (rvv_config Scenarios.device_1024)).
  { unfold RvvConfig.config_wf; simpl; lia. }
  split; [exact Hwf|].
  exact (proj1 (config_validate_bounds Scenarios.device_1024 Hwf)).
Defined.

(** ** VTYPE decoding *)
Section VtypeParsing.
Import RvvState.

Lemma vill_bit (v : Z) : c_bool (Z.land v FDCA_VTYPE_VILL) = Z.testbit v 63.
Proof. apply c_bool_bit. lia. Qed.

Lemma vlmul_field (v : Z) :
  u32 (Z.land (Z.shiftr v FDCA_VTYPE_VLMUL_SHIFT) FDCA_VTYPE_VLMUL_MASK) = v mod 8.
Proof.
  unfold FDCA_VTYPE_VLMUL_SHIFT, FDCA_VTYPE_VLMUL_MASK.
  rewrite Z.shiftr_0_r. change 0x7 with (2 ^ 3 - 1).
  rewrite land_low_bits by lia. change (2 ^ 3) with 8.
  apply u32_small. pose proof (Z.mod_pos_bound v 8). lia.
Qed.

Lemma vsew_field (v : Z) :
  u32 (Z.land (Z.shiftr v FDCA_VTYPE_VSEW_SHIFT)
              (Z.shiftr FDCA_VTYPE_VSEW_MASK FDCA_VTYPE_VSEW_SHIFT))
  = (v / 8) mod 8.
Proof.
  unfold FDCA_VTYPE_VSEW_SHIFT, FDCA_VTYPE_VSEW_MASK.
  change (Z.shiftr 0x38 3) with (2 ^ 3 - 1).
  rewrite land_low_bits by lia. rewrite Z.shiftr_div_pow2 by lia.
  change (2 ^ 3) with 8.
  apply u32_small. pose proof (Z.mod_pos_bound (v / 8) 8). lia.
Qed.

Lemma sew_bits_value (vsew : Z) :
  0 <= vsew < 8 -> fdca_rvv_get_sew_bits vsew = 8 * 2 ^ vsew.
Proof.
  intros H. unfold fdca_rvv_get_sew_bits.
  assert (E : vsew = 0 \/ vsew = 1 \/ vsew = 2 \/ vsew = 3 \/
              vsew = 4 \/ vsew = 5 \/ vsew = 6 \/ vsew = 7) by lia.
  repeat (destruct E as [-> | E]; [reflexivity|]). subst. reflexivity.
Qed.

Lemma lmul_fraction_value (vlmul : Z) :
  0 <= vlmul < 8 ->
  fdca_rvv_get_lmul_fraction vlmul =
  if vlmul <=? 3 then (2 ^ vlmul, 1)
  else if vlmul =? 4 then (1, 1)
  else (1, 2 ^ (8 - vlmul)).
Proof.
  intros H.
  assert (E : vlmul = 0 \/ vlmul = 1 \/ vlmul = 2 \/ vlmul = 3 \/
              vlmul = 4 \/ vlmul = 5 \/ vlmul = 6 \/ vlmul = 7) by lia.
  repeat (destruct E as [-> | E]; [reflexivity|]). subst. reflexivity.
Qed.

(** The parsed view after a decode that found the illegal bit clear. *)
Lemma parse_vtype_legal (c : fdca_rvv_csr_context) :
  Z.testbit (vtype c) 63 = false ->
  parsed (fdca_rvv_csr_parse_vtype c) =
  let vlmul := vtype c mod 8 in
  let vsew := (vtype c / 8) mod 8 in
  let lm := fdca_rvv_get_lmul_fraction vlmul in
  mk_parsed vlmul vsew (Z.testbit (vtype c) 6) (Z.testbit (vtype c) 7) false
            (fdca_rvv_get_sew_bits vsew) (fst lm) (snd lm).
Proof.
  intros Hb. unfold fdca_rvv_csr_parse_vtype.
  cbn [set_parsed set_vill parsed vill].
  rewrite vill_bit, Hb, vlmul_field, vsew_field.
  unfold FDCA_VTYPE_VTA, FDCA_VTYPE_VMA.
  rewrite !c_bool_bit by lia.
  cbv zeta. destruct (fdca_rvv_get_lmul_fraction (vtype c mod 8)); reflexivity.
Qed.

(** The context after a decode that found the illegal bit set: only
    [vill] has changed. *)
Lemma parse_vtype_illegal (c : fdca_rvv_csr_context) :
  Z.testbit (vtype c) 63 = true ->
  fdca_rvv_csr_parse_vtype c = set_parsed c (set_vill (parsed c) true).
Proof.
  intros Hb. unfold fdca_rvv_csr_parse_vtype.
  cbn [set_parsed set_vill parsed vill]. rewrite vill_bit, Hb. reflexivity.
Qed.

(** C2: [parse_vtype] sets [vill] from bit 63 of VTYPE; when the bit is
    set it returns with every other field of the context as it was;
    when it is clear, [vlmul] and [vsew] are the two 3-bit fields,
    [sew_bits = 8 << vsew], and the LMUL ratio is [2^vlmul / 1] for
    vlmul 0..3, [1 / 2^(8-vlmul)] for vlmul 5..7 and [1 / 1] for the
    reserved value 4.  VTYPE = 0 gives vlmul = 0, vsew = 0 and the flags
    vta, vma, vill all clear. *)
Theorem parse_vtype_decodes (c : fdca_rvv_csr_context) :
  let c' := fdca_rvv_csr_parse_vtype c in
  let p := parsed c' in
  vill p = Z.testbit (vtype c) 63 /\
  (Z.testbit (vtype c) 63 = true ->
   c' = set_parsed c (set_vill (parsed c) true)) /\
  (Z.testbit (vtype c) 63 = false ->
   c' = set_parsed c p /\
   vlmul p = vtype c mod 8 /\
   vsew p = (vtype c / 8) mod 8 /\
   vta p = Z.testbit (vtype c) 6 /\
   vma p = Z.testbit (vtype c) 7 /\
   sew_bits p = 8 * 2 ^ vsew p /\
   (0 <= vlmul p <= 3 -> lmul_mul p = 2 ^ vlmul p /\ lmul_div p = 1) /\
   (5 <= vlmul p <= 7 -> lmul_mul p = 1 /\ lmul_div p = 2 ^ (8 - vlmul p)) /\
   (vlmul p = 4 -> lmul_mul p = 1 /\ lmul_div p = 1)) /\
  (vtype c = 0 ->
   vlmul p = 0 /\ vsew p = 0 /\ vta p = false /\ vma p = false /\ vill p = false /\
   sew_bits p = 8 /\ lmul_mul p = 1 /\ lmul_div p = 1).
Proof.
  cbv zeta.
  split; [|split; [apply parse_vtype_illegal|split]].
  - destruct (Z.testbit (vtype c) 63) eqn:Hb.
    + rewrite parse_vtype_illegal by assumption. reflexivity.
    + rewrite parse_vtype_legal by assumption. reflexivity.
  - intros Hb.
    pose proof (Z.mod_pos_bound (vtype c) 8 ltac:(lia)) as Hl.
    pose proof (Z.mod_pos_bound (vtype c / 8) 8 ltac:(lia)) as Hs.
    split.
    { unfold fdca_rvv_csr_parse_vtype.
      cbn [set_parsed set_vill parsed vill]. rewrite vill_bit, Hb.
      destruct (fdca_rvv_get_lmul_fraction _); reflexivity. }
    rewrite parse_vtype_legal by assumption.
    cbn [vlmul vsew vta vma sew_bits lmul_mul lmul_div].
    rewrite sew_bits_value, lmul_fraction_value by lia.
    repeat split; try reflexivity; intros;
      repeat match goal with
             | |- context [if ?b then _ else _] =>
               let E := fresh in destruct b eqn:E
             end; simpl; try reflexivity; exfalso; lia.
  - intros H0.
    assert (Hb : Z.testbit (vtype c) 63 = false) by (rewrite H0; reflexivity).
    rewrite parse_vtype_legal by assumption. rewrite H0.
    repeat split.
Qed.

End VtypeParsing.

Lemma parse_vtype_decodes_witness :
  RvvState.vill (RvvState.parsed
                   (RvvState.fdca_rvv_csr_parse_vtype Scenarios.csr_vtype0)) = false /\
  RvvState.sew_bits (RvvState.parsed
                   (RvvState.fdca_rvv_csr_parse_vtype Scenarios.csr_vtype0)) = 8 /\
  RvvState.fdca_rvv_csr_parse_vtype Scenarios.csr_vill =
  RvvState.set_parsed Scenarios.csr_vill
    (RvvState.set_vill (RvvState.parsed Scenarios.csr_vill) true).
Proof.
  pose proof (parse_vtype_decodes Scenarios.csr_vtype0) as H0.
  pose proof (parse_vtype_decodes Scenarios.csr_vill) as H1.
  cbv zeta in H0, H1.
  destruct H0 as (_ & _ & _ & Hz). destruct H1 as (_ & Hi & _).
  specialize (Hz eq_refl). specialize (Hi eq_refl).
  destruct Hz as (_ & _ & _ & _ & Hv & Hs & _).
  split; [exact Hv|split; [exact Hs|exact Hi]].
Defined.

(** ** Instruction decoding *)
Section Decoding.
Import RvvInstr.

Lemma funct3_cases (opcode : Z) :
  let f := EXTRACT_FUNCT3 opcode in
  f = 0 \/ f = 1 \/ f = 2 \/ f = 3 \/ f = 4 \/ f = 5 \/ f = 6 \/ f = 7.
Proof.
  cbv zeta. unfold EXTRACT_FUNCT3.
  pose proof (field_range opcode 12 3 ltac:(lia)) as H.
  change (2 ^ 3 - 1) with 0x7 in H. change (2 ^ 3) with 8 in H. lia.
Qed.

Lemma decode_invalid_rejected (opcode : Z) (instr : fdca_rvv_instr) :
  fdca_rvv_decode_instr_type opcode = FDCA_RVV_INSTR_INVALID ->
  fst (fdca_rvv_parse_instr opcode (Some instr)) = - EINVAL.
Proof.
  intros H. unfold fdca_rvv_parse_instr. rewrite H. reflexivity.
Qed.

(** C4, as the code has it: the 7-bit base opcode selects the class.
    0x07 and 0x27 give VMEM; 0x57 gives VSETVLI when funct3 = 7 and
    VARITH for every other funct3; 0x43 gives VARITH whatever funct3 is;
    every other base opcode gives INVALID, and the parser returns
    -EINVAL for a word that decodes to INVALID. *)
Theorem decode_instr_type_classes (opcode : Z) :
  let base := Z.land opcode RVV_OPCODE_MASK in
  let funct3 := EXTRACT_FUNCT3 opcode in
  let ty := fdca_rvv_decode_instr_type opcode in
  (base = RVV_LOAD_FP \/ base = RVV_STORE_FP -> ty = FDCA_RVV_INSTR_VMEM) /\
  (base = RVV_ARITH -> funct3 = 7 -> ty = FDCA_RVV_INSTR_VSETVLI) /\
  (base = RVV_ARITH -> funct3 <> 7 -> ty = FDCA_RVV_INSTR_VARITH) /\
  (base = RVV_MADD -> ty = FDCA_RVV_INSTR_VARITH) /\
  (base <> RVV_LOAD_FP -> base <> RVV_STORE_FP -> base <> RVV_ARITH ->
   base <> RVV_MADD -> ty = FDCA_RVV_INSTR_INVALID) /\
  (ty = FDCA_RVV_INSTR_INVALID ->
   forall instr, fst (fdca_rvv_parse_instr opcode (Some instr)) = - EINVAL).
Proof.
  cbv zeta. unfold fdca_rvv_decode_instr_type.
  repeat split.
  - intros [H | H]; rewrite H; reflexivity.
  - intros H H7. rewrite H, H7. reflexivity.
  - intros H H7. rewrite H. cbn [Z.eqb orb].
    change (RVV_ARITH =? RVV_LOAD_FP) with false.
    change (RVV_ARITH =? RVV_STORE_FP) with false.
    change (RVV_ARITH =? RVV_ARITH) with true. cbn [orb].
    destruct (funct3_cases opcode) as
        [E | [E | [E | [E | [E | [E | [E | E]]]]]]];
      rewrite E in *; try reflexivity. congruence.
  - intros H. rewrite H. reflexivity.
  - intros H1 H2 H3 H4.
    apply Z.eqb_neq in H1, H2, H3, H4. rewrite H1, H2, H3, H4. reflexivity.
  - intros H instr. apply decode_invalid_rejected. exact H.
Qed.

Lemma Some_inj {A} (x y : A) : Some x = Some y -> x = y.
Proof. intros H. injection H. auto. Qed.

Lemma extract_vm_bit (opcode : Z) :
  c_not (EXTRACT_VM opcode) = negb (Z.testbit opcode 25).
Proof.
  unfold c_not, EXTRACT_VM.
  change 0x1 with (BIT 0). rewrite land_bit_eqb by lia.
  rewrite Z.shiftr_spec by lia. reflexivity.
Qed.

(** C10: when the parser accepts a word as VMEM or VARITH, the [vm] and
    [uses_mask] flags of the descriptor are both the inverse of bit 25
    of the word: true exactly when the bit is 0. *)
Theorem parse_instr_mask_flag (opcode : Z) (instr d : fdca_rvv_instr) :
  fdca_rvv_parse_instr opcode (Some instr) = (0, Some d) ->
  type d = FDCA_RVV_INSTR_VMEM \/ type d = FDCA_RVV_INSTR_VARITH ->
  vm d = negb (Z.testbit opcode 25) /\
  uses_mask d = negb (Z.testbit opcode 25) /\
  (vm d = true <-> Z.testbit opcode 25 = false).
Proof.
  unfold fdca_rvv_parse_instr. intros Hp Hty.
  assert (Hflags : vm d = negb (Z.testbit opcode 25) /\
                   uses_mask d = negb (Z.testbit opcode 25)).
  { apply (f_equal snd) in Hp.
    destruct (fdca_rvv_decode_instr_type opcode);
      cbv beta iota zeta delta [instr_type_eqb snd] in Hp;
      apply Some_inj in Hp; subst d; cbn [vm uses_mask type] in *;
        try (split; apply extract_vm_bit);
        destruct Hty; discriminate. }
  destruct Hflags as [Hvm Hum]. repeat split; auto.
  - rewrite Hvm. destruct (Z.testbit opcode 25); simpl; congruence.
  - rewrite Hvm. intros ->. reflexivity.
Qed.

(** Every word of the two classes is accepted, so the statement above
    speaks of every such word. *)
Lemma parse_instr_accepts (opcode : Z) (instr : fdca_rvv_instr) :
  fdca_rvv_decode_instr_type opcode = FDCA_RVV_INSTR_VMEM \/
  fdca_rvv_decode_instr_type opcode = FDCA_RVV_INSTR_VARITH ->
  exists d, fdca_rvv_parse_instr opcode (Some instr) = (0, Some d) /\
            type d = fdca_rvv_decode_instr_type opcode.
Proof.
  unfold fdca_rvv_parse_instr.
  intros [H | H]; rewrite H; cbv beta iota zeta delta [instr_type_eqb];
    eexists; split; reflexivity.
Qed.

End Decoding.

Lemma decode_instr_type_classes_witness :
  RvvInstr.fdca_rvv_decode_instr_type Scenarios.word_vsetvli
  = RvvInstr.FDCA_RVV_INSTR_VSETVLI /\
  RvvInstr.fdca_rvv_decode_instr_type Scenarios.word_madd
  = RvvInstr.FDCA_RVV_INSTR_VARITH.
Proof.
  split.
  - exact (proj1 (proj2 (decode_instr_type_classes Scenarios.word_vsetvli))
                 eq_refl eq_refl).
  - exact (proj1 (proj2 (proj2 (proj2
             (decode_instr_type_classes Scenarios.word_madd)))) eq_refl).
Defined.

(** C4, as stated, fails at base opcode 0x43: it is none of the load,
    store and arithmetic base opcodes the claim names, yet it decodes to
    VARITH and the parser accepts it. *)
Lemma decode_madd_is_recognized :
  let opcode := Scenarios.word_madd in
  let base := Z.land opcode RvvInstr.RVV_OPCODE_MASK in
  base <> RvvInstr.RVV_LOAD_FP /\ base <> RvvInstr.RVV_STORE_FP /\
  base <> RvvInstr.RVV_ARITH /\
  RvvInstr.fdca_rvv_decode_instr_type opcode <> RvvInstr.FDCA_RVV_INSTR_INVALID /\
  RvvInstr.fdca_rvv_decode_instr_type opcode = RvvInstr.FDCA_RVV_INSTR_VARITH /\
  fst (RvvInstr.fdca_rvv_parse_instr opcode (Some RvvInstr.instr_zero)) = 0.
Proof.
  cbv zeta. repeat split; try discriminate.
Qed.

Lemma parse_instr_mask_flag_witness :
  exists d,
    RvvInstr.fdca_rvv_parse_instr Scenarios.word_masked_load
                                  (Some RvvInstr.instr_zero) = (0, Some d) /\
    RvvInstr.type d = RvvInstr.FDCA_RVV_INSTR_VMEM /\
    RvvInstr.vm d = true /\ RvvInstr.uses_mask d = true.
Proof.
  eexists. split; [reflexivity|]. split; [reflexivity|].
  pose proof (parse_instr_mask_flag Scenarios.word_masked_load
                RvvInstr.instr_zero _ eq_refl (or_introl eq_refl)) as H.
  destruct H as (Hvm & Hum & _). split; [exact Hvm | exact Hum].
Defined.

(** ** Descriptor validation *)
Section InstrValidation.
Import RvvInstr.

Lemma validate_range_check (i : fdca_rvv_instr) :
  ((vd i >=? FDCA_RVV_NUM_VREGS) || (vs1 i >=? FDCA_RVV_NUM_VREGS)
   || (vs2 i >=? FDCA_RVV_NUM_VREGS)) = false <-> regs_in_range i.
Proof.
  unfold regs_in_range, FDCA_RVV_NUM_VREGS.
  destruct (Z.geb_spec (vd i) 32); destruct (Z.geb_spec (vs1 i) 32);
    destruct (Z.geb_spec (vs2 i) 32); simpl; split; intros;
      try discriminate; try reflexivity; lia.
Qed.

(** C5, as the code has it: the checks are made in order.  A register
    field of 32 or more gives -ERANGE.  With the three fields in range:
    a VMEM descriptor that uses the mask and writes register 0 gives
    -EINVAL; a VARITH reduction with vd <> vs1 gives -EINVAL; a VSETVLI
    descriptor asking for more than 1024 elements gives -ERANGE; a
    descriptor of any other type (VAMO, INVALID) gives -EINVAL; every
    remaining descriptor gives 0. *)
Theorem validate_instr_cases (i : fdca_rvv_instr) :
  let rc := fdca_rvv_validate_instr (Some i) in
  (32 <= vd i \/ 32 <= vs1 i \/ 32 <= vs2 i -> rc = - ERANGE) /\
  (regs_in_range i ->
   (type i = FDCA_RVV_INSTR_VMEM ->
    (uses_mask i = true /\ vd i = 0 -> rc = - EINVAL) /\
    (~ (uses_mask i = true /\ vd i = 0) -> rc = 0)) /\
   (type i = FDCA_RVV_INSTR_VARITH ->
    (subtype i = varith_code FDCA_VARITH_REDUCE /\ vd i <> vs1 i -> rc = - EINVAL) /\
    (~ (subtype i = varith_code FDCA_VARITH_REDUCE /\ vd i <> vs1 i) -> rc = 0)) /\
   (type i = FDCA_RVV_INSTR_VSETVLI ->
    (vl_setting i > 1024 -> rc = - ERANGE) /\
    (vl_setting i <= 1024 -> rc = 0)) /\
   (type i = FDCA_RVV_INSTR_VAMO \/ type i = FDCA_RVV_INSTR_INVALID ->
    rc = - EINVAL)).
Proof.
  cbv zeta. unfold fdca_rvv_validate_instr. split.
  - intros H.
    destruct ((vd i >=? FDCA_RVV_NUM_VREGS) || (vs1 i >=? FDCA_RVV_NUM_VREGS)
              || (vs2 i >=? FDCA_RVV_NUM_VREGS)) eqn:E; [reflexivity|].
    apply validate_range_check in E. unfold regs_in_range in E. lia.
  - intros Hr. apply validate_range_check in Hr. rewrite Hr.
    repeat split.
    + intros [Hm H0]. rewrite H, Hm, H0. reflexivity.
    + intros Hn. rewrite H.
      destruct (uses_mask i); [|reflexivity].
      destruct (Z.eqb_spec (vd i) 0); [|reflexivity].
      exfalso. apply Hn. split; auto.
    + intros [Hs Hne]. rewrite H, Hs.
      apply Z.eqb_neq in Hne. rewrite Hne. reflexivity.
    + intros Hn. rewrite H.
      destruct (Z.eqb_spec (subtype i) (varith_code FDCA_VARITH_REDUCE));
        [|reflexivity].
      destruct (Z.eqb_spec (vd i) (vs1 i)); [reflexivity|].
      exfalso. apply Hn. split; auto.
    + intros Hv. rewrite H.
      destruct (Z.gtb_spec (vl_setting i) 1024); [reflexivity|lia].
    + intros Hv. rewrite H.
      destruct (Z.gtb_spec (vl_setting i) 1024); [lia|reflexivity].
    + intros [H | H]; rewrite H; reflexivity.
Qed.

End InstrValidation.

(** The descriptor a failed parse leaves behind has type INVALID and
    zeroed operands: validation of it returns -EINVAL although none of
    the four failure conditions of C5 holds, so "succeeds otherwise" is
    false there. *)
Lemma validate_rejects_unclassified :
  let i := RvvInstr.mk_instr 0 RvvInstr.FDCA_RVV_INSTR_INVALID 0 0 0 0
                             false 0 false false false 0 in
  snd (RvvInstr.fdca_rvv_parse_instr 0 (Some RvvInstr.instr_zero)) = Some i /\
  RvvInstr.vd i < 32 /\ RvvInstr.vs1 i < 32 /\ RvvInstr.vs2 i < 32 /\
  RvvInstr.type i <> RvvInstr.FDCA_RVV_INSTR_VMEM /\
  RvvInstr.type i <> RvvInstr.FDCA_RVV_INSTR_VARITH /\
  RvvInstr.type i <> RvvInstr.FDCA_RVV_INSTR_VSETVLI /\
  RvvInstr.fdca_rvv_validate_instr (Some i) = - Errno.EINVAL /\
  RvvInstr.fdca_rvv_validate_instr (Some i) <> 0.
Proof.
  cbv zeta. cbn. repeat split; try reflexivity; discriminate.
Qed.

Lemma validate_instr_cases_witness :
  RvvInstr.regs_in_range Scenarios.instr_a /\
  RvvInstr.fdca_rvv_validate_instr (Some Scenarios.instr_a) = 0.
Proof.
  assert (Hr : RvvInstr.regs_in_range Scenarios.instr_a).
  { unfold RvvInstr.regs_in_range; simpl; lia. }
  split; [exact Hr|].
  pose proof (validate_instr_cases Scenarios.instr_a) as H. cbv zeta in H.
  destruct H as [_ H]. destruct (H Hr) as (_ & Ha & _).
  apply (Ha eq_refl). intros [Hs _]. discriminate Hs.
Defined.

(** ** Hazard detection *)
Section Hazards.
Import RvvInstr.

Lemma conflicts_as_disjunction (a b : fdca_rvv_instr) :
  fdca_rvv_instr_conflicts (Some a) (Some b) =
  (modifies_vl a || modifies_vl b)
  || (vd a =? vd b)
  || ((vd a =? vs1 b) || (vd a =? vs2 b))
  || ((vd b =? vs1 a) || (vd b =? vs2 a))
  || ((uses_mask a || uses_mask b) && ((vd a =? 0) || (vd b =? 0)))
  || (memory_access a && memory_access b).
Proof.
  unfold fdca_rvv_instr_conflicts.
  destruct (modifies_vl a || modifies_vl b); [reflexivity|].
  destruct (vd a =? vd b); [reflexivity|].
  destruct ((vd a =? vs1 b) || (vd a =? vs2 b)); [reflexivity|].
  destruct ((vd b =? vs1 a) || (vd b =? vs2 a)); [reflexivity|].
  destruct ((uses_mask a || uses_mask b) && ((vd a =? 0) || (vd b =? 0)));
    [reflexivity|].
  destruct (memory_access a && memory_access b); reflexivity.
Qed.

Lemma conflicts_reflects (a b : fdca_rvv_instr) :
  fdca_rvv_instr_conflicts (Some a) (Some b) = true <-> hazard a b.
Proof.
  rewrite conflicts_as_disjunction. unfold hazard.
  rewrite !orb_true_iff, !andb_true_iff, !orb_true_iff, !Z.eqb_eq. tauto.
Qed.

(** C3: on two descriptors the predicate is true exactly when one of
    them modifies VL, or they have the same destination, or the
    destination of one is one of the two sources of the other, or one of
    them uses the mask while one of them writes register 0, or both
    access memory.  For a = {vd=5, vs1=1, vs2=2} and
    b = {vd=3, vs1=5, vs2=4} with no VL change, no memory access and no
    mask it is true. *)
Theorem conflicts_exactly_hazards :
  (forall a b : fdca_rvv_instr,
      fdca_rvv_instr_conflicts (Some a) (Some b) = true <-> hazard a b) /\
  (forall a b : fdca_rvv_instr,
      vd a = 5 -> vs1 a = 1 -> vs2 a = 2 ->
      vd b = 3 -> vs1 b = 5 -> vs2 b = 4 ->
      modifies_vl a = false -> modifies_vl b = false ->
      memory_access a = false -> memory_access b = false ->
      uses_mask a = false -> uses_mask b = false ->
      fdca_rvv_instr_conflicts (Some a) (Some b) = true).
Proof.
  split.
  - exact conflicts_reflects.
  - intros a b Hd _ _ _ Hs _ _ _ _ _ _ _.
    apply conflicts_reflects. unfold hazard. rewrite Hd, Hs. tauto.
Qed.

(** C8: the predicate gives the same answer in both argument orders;
    when the destination of [a] is the first source of [b] it is true in
    both orders, whatever the first source of [a] and the destination of
    [b] are. *)
Theorem conflicts_symmetric :
  (forall a b : option fdca_rvv_instr,
      fdca_rvv_instr_conflicts a b = fdca_rvv_instr_conflicts b a) /\
  (forall a b : fdca_rvv_instr,
      vd a = vs1 b ->
      fdca_rvv_instr_conflicts (Some a) (Some b) = true /\
      fdca_rvv_instr_conflicts (Some b) (Some a) = true).
Proof.
  split.
  - intros [a|] [b|]; try reflexivity.
    apply eq_true_iff_eq. rewrite !conflicts_reflects.
    unfold hazard. intuition congruence.
  - intros a b H. split; apply conflicts_reflects; unfold hazard;
      rewrite H; tauto.
Qed.

End Hazards.

Lemma conflicts_exactly_hazards_witness :
  RvvInstr.fdca_rvv_instr_conflicts (Some Scenarios.instr_a)
                                    (Some Scenarios.instr_b) = true.
Proof.
  exact (proj2 conflicts_exactly_hazards Scenarios.instr_a Scenarios.instr_b
               eq_refl eq_refl eq_refl eq_refl eq_refl eq_refl
               eq_refl eq_refl eq_refl eq_refl eq_refl eq_refl).
Defined.

Lemma conflicts_symmetric_witness :
  RvvInstr.vs1 Scenarios.instr_a <> RvvInstr.vd Scenarios.instr_b /\
  RvvInstr.fdca_rvv_instr_conflicts (Some Scenarios.instr_a)
                                    (Some Scenarios.instr_b) = true /\
  RvvInstr.fdca_rvv_instr_conflicts (Some Scenarios.instr_b)
                                    (Some Scenarios.instr_a) = true.
Proof.
  split; [discriminate|].
  exact (proj2 conflicts_symmetric Scenarios.instr_a Scenarios.instr_b eq_refl).
Defined.

(** ** CSR validation *)
Section CsrValidation.
Import RvvState.

Lemma max_vl_fits (v s : Z) :
  0 <= v < 2 ^ 32 -> 0 < s -> u32 (v / s) = v / s.
Proof.
  intros Hv Hs. apply u32_small. split.
  - apply Z.div_pos; lia.
  - apply Z.le_lt_trans with v; [|lia].
    apply Z.div_le_upper_bound; nia.
Qed.

(** C6, as the code has it.  A context whose parsed [vill] flag is set
    is rejected with -EINVAL.  With [vill] clear and a nonzero
    [sew_bits]: when the state manager and its hardware configuration
    are present, the result is -ERANGE if vl > vlen / sew_bits or
    vstart > vl, and 0 if vl <= vlen / sew_bits and vstart <= vl; when
    there is no manager or no hardware configuration the bound on vl is
    not checked, and the result is -ERANGE if vstart > vl and 0
    otherwise. *)
Theorem csr_validate_cases (g : option fdca_rvv_state_manager)
        (c : fdca_rvv_csr_context) :
  let rc := fdca_rvv_csr_validate g (Some c) in
  (vill (parsed c) = true -> rc = Done (- EINVAL)) /\
  (vill (parsed c) = false ->
   (forall hw, manager_hw_config g = Some hw ->
               0 <= vlen hw < 2 ^ 32 -> 0 < sew_bits (parsed c) ->
               let max_vl := vlen hw / sew_bits (parsed c) in
               (vl c > max_vl \/ vstart c > vl c -> rc = Done (- ERANGE)) /\
               (vl c <= max_vl -> vstart c <= vl c -> rc = Done 0)) /\
   (manager_hw_config g = None ->
    (vstart c > vl c -> rc = Done (- ERANGE)) /\
    (vstart c <= vl c -> rc = Done 0))).
Proof.
  cbv zeta. unfold fdca_rvv_csr_validate. split.
  - intros ->. reflexivity.
  - intros ->. split.
    + intros hw Hg Hv Hs.
      assert (E : match g with
                  | Some mgr => hw_config mgr
                  | None => None
                  end = Some hw) by exact Hg.
      destruct g as [mgr|]; [|discriminate]. rewrite E.
      destruct (Z.eqb_spec (sew_bits (parsed c)) 0); [lia|].
      rewrite max_vl_fits by assumption.
      destruct (Z.gtb_spec (vl c) (vlen hw / sew_bits (parsed c)));
        destruct (Z.gtb_spec (vstart c) (vl c));
        split; intros; try reflexivity; lia.
    + intros Hg.
      assert (E : match g with
                  | Some mgr => hw_config mgr
                  | None => None
                  end = None) by exact Hg.
      destruct g as [mgr|]; [rewrite E|];
        destruct (Z.gtb_spec (vstart c) (vl c));
        split; intros; try reflexivity; lia.
Qed.

(** The division the code does not guard: a context that was zeroed
    and never parsed has [vill] clear and [sew_bits = 0]. *)
Lemma csr_validate_zeroed_context (mgr : fdca_rvv_state_manager)
      (hw : fdca_rvv_config) :
  hw_config mgr = Some hw ->
  fdca_rvv_csr_validate (Some mgr) (Some csr_zero) = DivByZero.
Proof. intros H. unfold fdca_rvv_csr_validate. rewrite H. reflexivity. Qed.

(** A context produced by [parse_vtype] with the illegal bit clear has
    [sew_bits >= 8], so the division is defined for it. *)
Lemma parsed_sew_bits_positive (c : fdca_rvv_csr_context) :
  vill (parsed (fdca_rvv_csr_parse_vtype c)) = false ->
  8 <= sew_bits (parsed (fdca_rvv_csr_parse_vtype c)).
Proof.
  destruct (Z.testbit (vtype c) 63) eqn:Hb.
  - rewrite parse_vtype_illegal by assumption. cbn. discriminate.
  - intros _. rewrite parse_vtype_legal by assumption.
    cbn [sew_bits].
    pose proof (Z.mod_pos_bound (vtype c / 8) 8 ltac:(lia)).
    rewrite sew_bits_value by lia.
    assert (1 <= 2 ^ ((vtype c / 8) mod 8)); [|lia].
    change 1 with (2 ^ 0). apply Z.pow_le_mono_r; lia.
Qed.

End CsrValidation.

(** C6, as stated, fails when the state manager is not initialised: the
    context below has [vill] clear and a vector length above
    vlen / sew_bits for every capability with vlen <= 65536, yet
    validation returns 0. *)
Lemma csr_validate_skips_vl_bound :
  let c := Scenarios.csr_long_vl in
  RvvState.vill (RvvState.parsed c) = false /\
  (forall hw : fdca_rvv_config,
      vlen hw <= 65536 ->
      RvvState.vl c > vlen hw / RvvState.sew_bits (RvvState.parsed c)) /\
  RvvState.fdca_rvv_csr_validate None (Some c) = RvvState.Done 0.
Proof.
  cbv zeta. split; [reflexivity|]. split; [|reflexivity].
  intros hw H. cbn.
  assert (vlen hw / 8 <= 65536 / 8) by (apply Z.div_le_mono; lia).
  change (65536 / 8) with 8192 in *. lia.
Qed.

Lemma csr_validate_cases_witness :
  RvvState.fdca_rvv_csr_validate (Some Scenarios.manager_1024)
                                 (Some Scenarios.csr_long_vl)
  = RvvState.Done (- Errno.ERANGE) /\
  RvvState.fdca_rvv_csr_validate (Some Scenarios.manager_1024)
    (Some (RvvState.fdca_rvv_csr_parse_vtype Scenarios.csr_vtype0))
  = RvvState.Done 0.
Proof.
  split.
  - pose proof (csr_validate_cases (Some Scenarios.manager_1024)
                                   Scenarios.csr_long_vl) as H.
    cbv zeta in H. destruct H as [_ H].
    destruct (H eq_refl) as [Hhw _].
    specialize (Hhw Scenarios.capability_1024 eq_refl).
    assert (Hv : 0 <= vlen Scenarios.capability_1024 < 2 ^ 32) by (simpl; lia).
    assert (Hs : 0 < RvvState.sew_bits (RvvState.parsed Scenarios.csr_long_vl))
      by (simpl; lia).
    destruct (Hhw Hv Hs) as [Hr _]. apply Hr. left. cbn. lia.
  - pose proof (csr_validate_cases (Some Scenarios.manager_1024)
                  (RvvState.fdca_rvv_csr_parse_vtype Scenarios.csr_vtype0)) as H.
    cbv zeta in H. destruct H as [_ H].
    destruct (H eq_refl) as [Hhw _].
    specialize (Hhw Scenarios.capability_1024 eq_refl).
    assert (Hv : 0 <= vlen Scenarios.capability_1024 < 2 ^ 32) by (simpl; lia).
    assert (Hs : 0 < RvvState.sew_bits (RvvState.parsed
                  (RvvState.fdca_rvv_csr_parse_vtype Scenarios.csr_vtype0)))
      by (cbn; lia).
    destruct (Hhw Hv Hs) as [_ Hok]. apply Hok; cbn; lia.
Defined.

(** ** VRF register allocation *)
Section VrfAllocation.
Import Vrf.

Lemma find_zero_from_spec (bits : Z) (n : nat) : forall i,
  let r := find_zero_from bits i n in
  i <= r <= i + Z.of_nat n /\
  (forall j, i <= j < r -> Z.testbit bits j = true) /\
  (r < i + Z.of_nat n -> Z.testbit bits r = false).
Proof.
  induction n as [|n IH]; intros i; cbn [find_zero_from].
  - cbv zeta. repeat split; intros; lia.
  - destruct (Z.testbit bits i) eqn:Hb.
    + specialize (IH (i + 1)). cbv zeta in IH |- *.
      destruct IH as (Hr & Hlow & Hclear).
      repeat split; try lia.
      * intros j Hj. destruct (Z.eq_dec j i) as [->|Hne]; [exact Hb|].
        apply Hlow. lia.
      * intros Hlt. apply Hclear. lia.
    + cbv zeta. repeat split; intros; try lia. exact Hb.
Qed.

Lemma find_first_zero_bit_spec (bits : Z) :
  let r := find_first_zero_bit bits FDCA_RVV_NUM_VREGS in
  0 <= r <= 32 /\
  (forall j, 0 <= j < r -> Z.testbit bits j = true) /\
  (r < 32 -> Z.testbit bits r = false).
Proof.
  unfold find_first_zero_bit, FDCA_RVV_NUM_VREGS.
  pose proof (find_zero_from_spec bits (Z.to_nat 32) 0) as H.
  cbv zeta in H |- *. rewrite Z2Nat.id in H by lia. exact H.
Qed.

(** A call on a full bitmap fails with -ENOSPC and changes nothing. *)
Lemma alloc_reg_full (m : fdca_vrf_manager) :
  vrf_full m -> fdca_vrf_alloc_reg (Some m) = (- ENOSPC, Some m).
Proof.
  intros Hfull. unfold fdca_vrf_alloc_reg.
  pose proof (find_first_zero_bit_spec (allocated_regs m)) as H.
  cbv zeta in H. destruct H as (Hr & _ & Hclear).
  destruct (Z.ltb_spec (find_first_zero_bit (allocated_regs m) FDCA_RVV_NUM_VREGS)
                       FDCA_RVV_NUM_VREGS) as [Hlt|Hge]; [|reflexivity].
  unfold FDCA_RVV_NUM_VREGS in Hlt, Hr, Hclear.
  rewrite Hfull in Hclear by (unfold FDCA_RVV_NUM_VREGS; lia).
  specialize (Hclear Hlt). discriminate.
Qed.

(** A call on a bitmap that is not full returns the lowest free index
    and marks it taken. *)
Lemma alloc_reg_cases (m : fdca_vrf_manager) :
  (vrf_full m /\ fdca_vrf_alloc_reg (Some m) = (- ENOSPC, Some m)) \/
  (exists r m',
      fdca_vrf_alloc_reg (Some m) = (r, Some m') /\
      is_reg_index r /\
      Z.testbit (allocated_regs m) r = false /\
      prefix_taken r m /\
      allocated_regs m' = Z.setbit (allocated_regs m) r).
Proof.
  pose proof (find_first_zero_bit_spec (allocated_regs m)) as H.
  cbv zeta in H. destruct H as (Hr & Hlow & Hclear).
  unfold fdca_vrf_alloc_reg.
  destruct (Z.ltb_spec (find_first_zero_bit (allocated_regs m) FDCA_RVV_NUM_VREGS)
                       FDCA_RVV_NUM_VREGS) as [Hlt|Hge];
    unfold FDCA_RVV_NUM_VREGS in *.
  - right. eexists. eexists. split; [reflexivity|].
    unfold is_reg_index, prefix_taken, FDCA_RVV_NUM_VREGS.
    repeat split; auto; lia.
  - left.
    assert (Hfull : vrf_full m).
    { intros i Hi. apply Hlow. unfold FDCA_RVV_NUM_VREGS in Hi. lia. }
    split; [exact Hfull|reflexivity].
Qed.

Lemma prefix_taken_after_alloc (m m' : fdca_vrf_manager) (r : Z) :
  0 <= r -> prefix_taken r m ->
  allocated_regs m' = Z.setbit (allocated_regs m) r ->
  prefix_taken (r + 1) m'.
Proof.
  intros Hr Hp Hm' i Hi. rewrite Hm', Z.setbit_eqb by lia.
  destruct (Z.eqb_spec r i); [reflexivity|]. simpl. apply Hp. lia.
Qed.

(** From any state, at most [d] successful calls fill the bitmap when
    the first [32 - d] registers are already taken. *)
Lemma alloc_until_full (d : nat) : forall (k : Z) (m : fdca_vrf_manager),
  0 <= k -> prefix_taken k m -> 32 - k <= Z.of_nat d ->
  exists (n : nat) (rs : list Z) (m' : fdca_vrf_manager),
    (n <= d)%nat /\
    alloc_many n (Some m) = (rs, Some m') /\
    length rs = n /\ Forall is_reg_index rs /\ vrf_full m'.
Proof.
  induction d as [|d IH]; intros k m Hk Hp Hd.
  - exists O, [], m. repeat split; auto.
    intros i Hi. apply Hp. unfold FDCA_RVV_NUM_VREGS in Hi. lia.
  - destruct (alloc_reg_cases m) as [[Hfull _] | (r & m1 & Ha & Hidx & Hfree & Hlow & Hset)].
    + exists O, [], m. repeat split; auto. lia.
    + assert (Hkr : k <= r).
      { destruct (Z.le_gt_cases k r) as [|Hlt]; [assumption|].
        rewrite Hp in Hfree by (unfold is_reg_index in Hidx; lia).
        discriminate. }
      unfold is_reg_index, FDCA_RVV_NUM_VREGS in Hidx.
      destruct (IH (r + 1) m1) as (n & rs & m' & Hn & Hm & Hlen & Hall & Hfull).
      * lia.
      * eapply prefix_taken_after_alloc; eauto. lia.
      * lia.
      * exists (S n), (r :: rs), m'. repeat split; auto.
        -- lia.
        -- cbn [alloc_many]. rewrite Ha, Hm. reflexivity.
        -- simpl. congruence.
Qed.

(** Freeing a taken register and allocating again returns a register
    that was free after the release. *)
Lemma free_then_alloc (m : fdca_vrf_manager) (r : Z) :
  is_reg_index r -> Z.testbit (allocated_regs m) r = true ->
  exists m1 i m2,
    fdca_vrf_free_reg (Some m) r = Some m1 /\
    Z.testbit (allocated_regs m1) r = false /\
    fdca_vrf_alloc_reg (Some m1) = (i, Some m2) /\
    is_reg_index i /\
    Z.testbit (allocated_regs m1) i = false /\
    Z.testbit (allocated_regs m2) i = true /\
    (vrf_full m -> i = r).
Proof.
  intros Hidx Hb. unfold is_reg_index, FDCA_RVV_NUM_VREGS in Hidx.
  unfold fdca_vrf_free_reg.
  destruct (Z.ltb_spec r 0); [lia|].
  destruct (Z.geb_spec r FDCA_RVV_NUM_VREGS) as [Hge|_];
    [unfold FDCA_RVV_NUM_VREGS in Hge; lia|].
  cbn [orb]. rewrite Hb.
  set (m1 := mk_vrf _ _ _ _ _ _).
  assert (Hclr : Z.testbit (allocated_regs m1) r = false).
  { subst m1. cbn [allocated_regs]. unfold clear_bit.
    rewrite Z.clearbit_eqb, Z.eqb_refl. apply andb_false_r. }
  destruct (alloc_reg_cases m1) as [[Hfull _] | (i & m2 & Ha & Hi & Hfree & Hlow & Hset)].
  - rewrite Hfull in Hclr by (unfold FDCA_RVV_NUM_VREGS; lia). discriminate.
  - exists m1, i, m2. repeat split; auto.
    + apply Hi.
    + apply Hi.
    + rewrite Hset, Z.setbit_eqb, Z.eqb_refl by (apply Hi). reflexivity.
    + intros Hfull. destruct (Z.eq_dec i r) as [|Hne]; [assumption|].
      exfalso. subst m1. cbn [allocated_regs] in Hfree. unfold clear_bit in Hfree.
      rewrite Z.clearbit_eqb in Hfree.
      rewrite Hfull in Hfree by (apply Hi).
      destruct (Z.eqb_spec r i); [congruence|discriminate].
Qed.

(** C9: from any state of the allocator, some run of at most 32
    successful allocations takes all 32 register indices; the next call
    then fails with -ENOSPC and leaves the bitmap as it is; and after
    freeing any one register of the full file the next call succeeds
    and returns that register, the only free index.  In any state,
    freeing a taken register makes the next allocation succeed with an
    index that was free. *)
Theorem vrf_exhaustion_and_reuse (m : fdca_vrf_manager) :
  (exists (n : nat) (rs : list Z) (m_full : fdca_vrf_manager),
      (n <= 32)%nat /\
      alloc_many n (Some m) = (rs, Some m_full) /\
      length rs = n /\ Forall is_reg_index rs /\
      vrf_full m_full /\
      fdca_vrf_alloc_reg (Some m_full) = (- ENOSPC, Some m_full) /\
      (forall r, is_reg_index r ->
                 exists m1 m2,
                   fdca_vrf_free_reg (Some m_full) r = Some m1 /\
                   Z.testbit (allocated_regs m1) r = false /\
                   fdca_vrf_alloc_reg (Some m1) = (r, Some m2))) /\
  (forall r, is_reg_index r -> Z.testbit (allocated_regs m) r = true ->
             exists m1 i m2,
               fdca_vrf_free_reg (Some m) r = Some m1 /\
               fdca_vrf_alloc_reg (Some m1) = (i, Some m2) /\
               is_reg_index i /\
               Z.testbit (allocated_regs m1) i = false /\
               Z.testbit (allocated_regs m2) i = true).
Proof.
  split.
  - destruct (alloc_until_full 32 0 m) as (n & rs & mf & Hn & Hm & Hlen & Hall & Hfull).
    + lia.
    + intros i Hi. lia.
    + lia.
    + exists n, rs, mf.
      split; [exact Hn|]. split; [exact Hm|]. split; [exact Hlen|].
      split; [exact Hall|]. split; [exact Hfull|].
      split; [apply alloc_reg_full; exact Hfull|].
      intros r Hr.
      {
        destruct (free_then_alloc mf r Hr (Hfull r Hr))
          as (m1 & i & m2 & Hf & Hc & Ha & _ & _ & _ & Hir).
        exists m1, m2. rewrite (Hir Hfull) in Ha. auto. }
  - intros r Hr Hb.
    destruct (free_then_alloc m r Hr Hb)
      as (m1 & i & m2 & Hf & _ & Ha & Hi & Hfree & Hset & _).
    exists m1, i, m2. auto.
Qed.

(** On the empty bitmap the run is the 32 indices in increasing order,
    and the 33rd call fails. *)
Example alloc_all_from_empty :
  fst (alloc_many 33 (Some Scenarios.vrf_empty)) =
  [0; 1; 2; 3; 4; 5; 6; 7; 8; 9; 10; 11; 12; 13; 14; 15; 16; 17; 18; 19;
   20; 21; 22; 23; 24; 25; 26; 27; 28; 29; 30; 31; - ENOSPC].
Proof. vm_compute. reflexivity. Qed.

End VrfAllocation.

Lemma vrf_exhaustion_and_reuse_witness :
  exists (n : nat) (rs : list Z) (m_full : Vrf.fdca_vrf_manager),
    Vrf.alloc_many n (Some Scenarios.vrf_empty) = (rs, Some m_full) /\
    Vrf.fdca_vrf_alloc_reg (Some m_full) = (- Errno.ENOSPC, Some m_full) /\
    exists m1 m2,
      Vrf.fdca_vrf_free_reg (Some m_full) 7 = Some m1 /\
      Vrf.fdca_vrf_alloc_reg (Some m1) = (7, Some m2).
Proof.
  destruct (vrf_exhaustion_and_reuse Scenarios.vrf_empty) as [H _].
  destruct H as (n & rs & mf & _ & Hm & _ & _ & _ & Hfail & Hreuse).
  exists n, rs, mf. split; [exact Hm|]. split; [exact Hfail|].
  assert (H7 : Vrf.is_reg_index 7)
    by (unfold Vrf.is_reg_index, FDCA_RVV_NUM_VREGS; lia).
  destruct (Hreuse 7 H7) as (m1 & m2 & Hf & _ & Ha).
  exists m1, m2. split; [exact Hf|exact Ha].
Defined.

(** ** Vector memory transfers *)
Section VectorMemExecute.
Import RvvInstr VectorMem.

Lemma appends_ret {A} (a : A) : appends (ret a).
Proof. intros s. exists []. cbn. symmetry. apply app_nil_r. Qed.

Lemma appends_bind {A B} (c : M A) (k : A -> M B) :
  appends c -> (forall a, appends (k a)) -> appends (bind c k).
Proof.
  intros Hc Hk s. unfold bind.
  destruct (Hc s) as [l1 H1]. destruct (c s) as [a s1]. cbn [snd] in H1.
  destruct (Hk a s1) as [l2 H2].
  exists (l1 ++ l2). rewrite H2, H1. symmetry. apply app_assoc.
Qed.

Lemma appends_get_machine : appends get_machine.
Proof. intros s. exists []. cbn. symmetry. apply app_nil_r. Qed.

Lemma appends_get_op : appends get_op.
Proof. intros s. exists []. cbn. symmetry. apply app_nil_r. Qed.

Lemma appends_put_op (op : fdca_vector_mem_op) : appends (put_op op).
Proof. intros s. exists []. cbn. symmetry. apply app_nil_r. Qed.

Lemma appends_log (e : log_entry) : appends (log e).
Proof. intros s. exists []. cbn. symmetry. apply app_nil_r. Qed.

Lemma appends_emit (e : hw_event) : appends (emit e).
Proof. intros s. exists [e]. reflexivity. Qed.

Lemma appends_dma_alloc (size : Z) : appends (dma_alloc_coherent size).
Proof.
  intros s. exists [Ev_dma_alloc size]. unfold dma_alloc_coherent.
  destruct (dma_script (m_plat s)); reflexivity.
Qed.

Lemma appends_poll_status (off : Z) : appends (poll_status off).
Proof.
  intros s. unfold poll_status.
  destruct (status_script (m_plat s)).
  - exists []. cbn. symmetry. apply app_nil_r.
  - exists [Ev_ioread32 off]. reflexivity.
Qed.

Create HintDb vm_appends.
Hint Resolve appends_ret appends_get_machine appends_get_op appends_put_op
     appends_log appends_emit appends_dma_alloc appends_poll_status
  : vm_appends.

Ltac appends_step :=
  match goal with
  | |- appends (bind _ _) => apply appends_bind; [|intro]
  | |- appends (match ?x with _ => _ end) => destruct x
  | |- appends (dma_free_coherent _ _ _) => unfold dma_free_coherent
  | |- appends (iowrite64 _ _) => unfold iowrite64
  | |- appends (iowrite32 _ _) => unfold iowrite32
  | |- appends _ => solve [auto with vm_appends]
  end.

Lemma appends_cleanup_dma : appends fdca_vector_mem_cleanup_dma.
Proof. unfold fdca_vector_mem_cleanup_dma. repeat appends_step. Qed.

Lemma appends_unit_stride : appends fdca_vector_mem_unit_stride.
Proof. unfold fdca_vector_mem_unit_stride. repeat appends_step. Qed.

Lemma appends_strided : appends fdca_vector_mem_strided.
Proof. unfold fdca_vector_mem_strided. repeat appends_step. Qed.

Lemma appends_indexed : appends fdca_vector_mem_indexed.
Proof. unfold fdca_vector_mem_indexed. repeat appends_step. Qed.

Lemma appends_segment : appends fdca_vector_mem_segment.
Proof. unfold fdca_vector_mem_segment. repeat appends_step. Qed.

Lemma appends_wait_completion (fuel : nat) :
  appends (fdca_vector_mem_wait_completion fuel).
Proof.
  induction fuel as [|fuel IH]; cbn [fdca_vector_mem_wait_completion].
  - auto with vm_appends.
  - repeat appends_step.
Qed.

Hint Resolve appends_cleanup_dma appends_unit_stride appends_strided
     appends_indexed appends_segment appends_wait_completion : vm_appends.

Lemma appends_execute_transfer : appends execute_transfer.
Proof. unfold execute_transfer. repeat appends_step. Qed.

(** With no elements, preparing the staging buffer asks the allocator
    for zero bytes. *)
Lemma prepare_dma_no_elements (s : machine) :
  num_elements (m_op s) = 0 ->
  op_type (m_op s) <> FDCA_VMEM_WHOLE_REG ->
  let r := fdca_vector_mem_prepare_dma s in
  trace (m_plat (snd r)) = trace (m_plat s) ++ [Ev_dma_alloc 0] /\
  (next_alloc_fails (m_plat s) -> fst r = - ENOMEM) /\
  (~ next_alloc_fails (m_plat s) -> fst r = 0).
Proof.
  intros Hn Ht. cbv zeta.
  unfold fdca_vector_mem_prepare_dma, bind, get_op.
  assert (Hsz : forall x, u32 (num_elements (m_op s) * x) = 0).
  { intros x. rewrite Hn. reflexivity. }
  unfold next_alloc_fails.
  destruct (op_type (m_op s)); try congruence; rewrite Hsz;
    unfold put_op, dma_alloc_coherent; cbn [m_plat m_op m_dev];
      destruct (dma_script (m_plat s)) as [|[[cpu dma]|] rest];
      cbn; repeat split; intros; try reflexivity; tauto.
Qed.

(** C7, as the code has it: [execute] does not look at the element
    count.  With no elements it returns before any DMA allocation only
    when the vector unit is absent (-ENODEV) or the addressing mode is
    whole-register (-EINVAL).  With the unit present and one of the four
    supported modes, the first thing it does to its collaborators is to
    ask the DMA allocator for a buffer of 0 bytes; if that request is
    refused it returns -ENOMEM and does nothing else. *)
Theorem execute_no_elements (d : fdca_device) (o : fdca_vector_mem_op)
        (p : platform) :
  num_elements o = 0 ->
  let r := fdca_vector_mem_execute (Some d) (Some o) p in
  (vpu_present d = false ->
   result_code r = Some (- ENODEV) /\ trace (result_platform r) = trace p) /\
  (vpu_present d = true -> op_type o = FDCA_VMEM_WHOLE_REG ->
   result_code r = Some (- EINVAL) /\ trace (result_platform r) = trace p) /\
  (vpu_present d = true -> op_type o <> FDCA_VMEM_WHOLE_REG ->
   (exists rest, trace (result_platform r) = trace p ++ Ev_dma_alloc 0 :: rest) /\
   (next_alloc_fails p ->
    result_code r = Some (- ENOMEM) /\
    trace (result_platform r) = trace p ++ [Ev_dma_alloc 0])).
Proof.
  intros Hn. cbv zeta.
  unfold fdca_vector_mem_execute, result_code, result_platform.
  unfold execute_body, bind, get_machine. cbn [m_dev].
  split; [|split].
  - intros Hv. rewrite Hv. cbn. split; reflexivity.
  - intros Hv Ht. rewrite Hv. cbn [negb].
    unfold fdca_vector_mem_prepare_dma, bind, get_op. cbn [m_op].
    rewrite Ht. cbn. split; reflexivity.
  - intros Hv Ht. rewrite Hv. cbn [negb].
    pose proof (prepare_dma_no_elements (mk_machine d o p) Hn Ht) as H.
    cbv zeta in H. cbn [m_plat] in H.
    destruct (fdca_vector_mem_prepare_dma (mk_machine d o p)) as [ret0 s1].
    cbn [fst snd] in H. destruct H as (Htr & Hfail & Hok).
    split.
    + destruct (negb (ret0 =? 0)).
      * exists []. cbn. exact Htr.
      * destruct (appends_execute_transfer s1) as [l Hl].
        destruct (execute_transfer s1) as [r2 s2]. cbn [snd] in Hl |- *.
        exists l. rewrite Hl, Htr, <- app_assoc. reflexivity.
    + intros Hnf. rewrite (Hfail Hnf). cbn. split; [reflexivity|exact Htr].
Qed.

End VectorMemExecute.

(** C7, as stated, fails on a unit-stride load of zero elements: the DMA
    allocator is called (for 0 bytes), and with collaborators that grant
    the buffer and report completion the call returns 0. *)
Lemma execute_no_elements_reaches_allocator :
  let r := VectorMem.fdca_vector_mem_execute
             (Some Scenarios.device_1024) (Some Scenarios.op_no_elements)
             Scenarios.platform_ready in
  VectorMem.num_elements Scenarios.op_no_elements = 0 /\
  VectorMem.result_code r = Some 0 /\
  VectorMem.dma_alloc_calls (VectorMem.result_platform r)
  = [VectorMem.Ev_dma_alloc 0].
Proof. vm_compute. repeat split. Qed.

Lemma execute_no_elements_witness :
  VectorMem.num_elements Scenarios.op_no_elements = 0 /\
  exists rest,
    VectorMem.trace
      (VectorMem.result_platform
         (VectorMem.fdca_vector_mem_execute
            (Some Scenarios.device_1024) (Some Scenarios.op_no_elements)
            Scenarios.platform_ready))
    = VectorMem.trace Scenarios.platform_ready ++ VectorMem.Ev_dma_alloc 0 :: rest.
Proof.
  split; [reflexivity|].
  pose proof (execute_no_elements Scenarios.device_1024 Scenarios.op_no_elements
                                  Scenarios.platform_ready eq_refl) as H.
  cbv zeta in H. destruct H as (_ & _ & H).
  assert (Ht : VectorMem.op_type Scenarios.op_no_elements
               <> RvvInstr.FDCA_VMEM_WHOLE_REG) by discriminate.
  exact (proj1 (H eq_refl Ht)).
Defined.

(** ** Capability detection *)
Section CapabilityDetection.
Import RvvConfig Pci.

Lemma reg_field (reg s w : Z) :
  0 <= s -> 0 <= w ->
  Z.land (Z.shiftr reg s) (2 ^ w - 1) = (reg / 2 ^ s) mod 2 ^ w.
Proof.
  intros Hs Hw. rewrite land_low_bits by assumption.
  rewrite Z.shiftr_div_pow2 by assumption. reflexivity.
Qed.

Lemma detect_vlen_value (reg : Z) :
  u32 (1024 * (Z.land reg 0xF + 1)) = 1024 * (reg mod 16 + 1).
Proof.
  change 0xF with (2 ^ 4 - 1). rewrite land_low_bits by lia.
  change (2 ^ 4) with 16. pose proof (Z.mod_pos_bound reg 16 ltac:(lia)).
  apply u32_small. lia.
Qed.

Lemma detect_elen_value (reg : Z) :
  u32 (Z.shiftl 8 (Z.land (Z.shiftr reg 4) 0x7)) = 8 * 2 ^ ((reg / 16) mod 8).
Proof.
  change 0x7 with (2 ^ 3 - 1). rewrite reg_field by lia.
  change (2 ^ 4) with 16. change (2 ^ 3) with 8.
  pose proof (Z.mod_pos_bound (reg / 16) 8 ltac:(lia)) as H.
  assert (E : (reg / 16) mod 8 = 0 \/ (reg / 16) mod 8 = 1 \/ (reg / 16) mod 8 = 2 \/
              (reg / 16) mod 8 = 3 \/ (reg / 16) mod 8 = 4 \/ (reg / 16) mod 8 = 5 \/
              (reg / 16) mod 8 = 6 \/ (reg / 16) mod 8 = 7) by lia.
  repeat (destruct E as [-> | E]; [reflexivity|]). rewrite E. reflexivity.
Qed.

Lemma detect_lanes_value (reg : Z) :
  u32 (Z.shiftl 1 (Z.land (Z.shiftr reg 8) 0xF)) = 2 ^ ((reg / 256) mod 16).
Proof.
  change 0xF with (2 ^ 4 - 1). rewrite reg_field by lia.
  change (2 ^ 8) with 256. change (2 ^ 4) with 16.
  pose proof (Z.mod_pos_bound (reg / 256) 16 ltac:(lia)) as H.
  rewrite Z.shiftl_1_l. apply u32_small. split.
  - apply Z.pow_nonneg. lia.
  - apply Z.pow_lt_mono_r; lia.
Qed.

Lemma pow2_le_iff (n a : Z) : 0 <= n -> 0 <= a -> (2 ^ n <= 2 ^ a <-> n <= a).
Proof.
  intros Hn Ha. split.
  - intros H. destruct (Z.le_gt_cases n a) as [|Hlt]; [assumption|].
    assert (2 ^ a < 2 ^ n) by (apply Z.pow_lt_mono_r; lia). lia.
  - intros H. apply Z.pow_le_mono_r; lia.
Qed.

(** X1: with RVV available, detection stores vlen = 1024 * (k + 1),
    elen = 8 * 2^e and num_lanes = 2^n for the register fields k (bits
    3..0), e (bits 6..4) and n (bits 11..8), and vlenb = vlen / 8.  It
    returns 0 exactly when e <= 3 and n <= 4 and -EINVAL otherwise: the
    vlen test can never fail, since 1024 <= vlen <= 16384. *)
Theorem detect_rvv_outcome (fdev : fdca_device) (reg : Z) :
  rvv_available fdev = true ->
  let k := reg mod 16 in
  let e := (reg / 16) mod 8 in
  let n := (reg / 256) mod 16 in
  let rc := fst (fst (fdca_detect_rvv_capabilities fdev reg)) in
  let c := rvv_config (snd (fst (fdca_detect_rvv_capabilities fdev reg))) in
  vlen c = 1024 * (k + 1) /\ 1024 <= vlen c <= 16384 /\
  elen c = 8 * 2 ^ e /\ num_lanes c = 2 ^ n /\ cfg_vlenb c * 8 = vlen c /\
  (rc = 0 <-> e <= 3 /\ n <= 4) /\
  (rc = 0 \/ rc = - EINVAL).
Proof.
  intros Hav. cbv zeta.
  pose proof (Z.mod_pos_bound reg 16 ltac:(lia)) as Hk.
  pose proof (Z.mod_pos_bound (reg / 16) 8 ltac:(lia)) as He.
  pose proof (Z.mod_pos_bound (reg / 256) 16 ltac:(lia)) as Hn.
  unfold fdca_detect_rvv_capabilities. rewrite Hav. cbn [negb].
  rewrite detect_vlen_value, detect_elen_value, detect_lanes_value.
  unfold FDCA_RVV_MAX_VLEN, FDCA_RVV_MAX_ELEN, FDCA_MAX_LANES.
  assert (Hv1 : (1024 * (reg mod 16 + 1) <? 128) = false) by (apply Z.ltb_ge; lia).
  assert (Hv2 : (1024 * (reg mod 16 + 1) >? 65536) = false).
  { rewrite Z.gtb_ltb. apply Z.ltb_ge. lia. }
  rewrite Hv1, Hv2. cbn [orb].
  assert (Hl0 : (2 ^ ((reg / 256) mod 16) =? 0) = false).
  { apply Z.eqb_neq. pose proof (Z.pow_pos_nonneg 2 ((reg / 256) mod 16)). lia. }
  rewrite Hl0. cbn [orb].
  assert (Hel : 8 * 2 ^ ((reg / 16) mod 8) <= 64 <-> (reg / 16) mod 8 <= 3).
  { change 64 with (8 * 2 ^ 3).
    rewrite <- (pow2_le_iff ((reg / 16) mod 8) 3) by lia. lia. }
  assert (Hln : 2 ^ ((reg / 256) mod 16) <= 16 <-> (reg / 256) mod 16 <= 4).
  { change 16 with (2 ^ 4) at 2.
    rewrite <- (pow2_le_iff ((reg / 256) mod 16) 4) by lia. lia. }
  assert (Hvb : 1024 * (reg mod 16 + 1) / 8 * 8 = 1024 * (reg mod 16 + 1)).
  { replace (1024 * (reg mod 16 + 1)) with (128 * (reg mod 16 + 1) * 8) by lia.
    rewrite Z.div_mul by lia. reflexivity. }
  destruct (Z.gtb_spec (8 * 2 ^ ((reg / 16) mod 8)) 64);
    destruct (Z.gtb_spec (2 ^ ((reg / 256) mod 16)) 16);
    cbn [fst snd rvv_config vlen elen num_lanes cfg_vlenb];
    unfold EINVAL;
    (repeat split; try reflexivity; try exact Hvb; try lia; auto).
Qed.

(** X2: a capability that detection accepts also passes
    [fdca_rvv_config_validate]; its lane count divides vlen, and the
    per-lane VRF size times the lane count is the 4 * vlen bytes of the 32
    registers. *)
Theorem detect_then_validate (fdev : fdca_device) (reg : Z) :
  rvv_available fdev = true ->
  fst (fst (fdca_detect_rvv_capabilities fdev reg)) = 0 ->
  let fdev' := snd (fst (fdca_detect_rvv_capabilities fdev reg)) in
  let c := rvv_config fdev' in
  fst (fdca_rvv_config_validate fdev') = 0 /\
  vlen c mod num_lanes c = 0 /\
  vrf_size_per_lane c * num_lanes c = 4 * vlen c.
Proof.
  intros Hav Hrc. cbv zeta.
  pose proof (Z.mod_pos_bound reg 16 ltac:(lia)) as Hk.
  pose proof (Z.mod_pos_bound (reg / 16) 8 ltac:(lia)) as He.
  pose proof (Z.mod_pos_bound (reg / 256) 16 ltac:(lia)) as Hn.
  revert Hrc.
  unfold fdca_detect_rvv_capabilities. rewrite Hav. cbn [negb].
  rewrite detect_vlen_value, detect_elen_value, detect_lanes_value.
  unfold FDCA_RVV_MAX_VLEN, FDCA_RVV_MAX_ELEN, FDCA_MAX_LANES, FDCA_RVV_NUM_VREGS.
  assert (Hv1 : (1024 * (reg mod 16 + 1) <? 128) = false) by (apply Z.ltb_ge; lia).
  assert (Hv2 : (1024 * (reg mod 16 + 1) >? 65536) = false).
  { rewrite Z.gtb_ltb. apply Z.ltb_ge. lia. }
  rewrite Hv1, Hv2. cbn [orb].
  assert (Hl0 : (2 ^ ((reg / 256) mod 16) =? 0) = false).
  { apply Z.eqb_neq. pose proof (Z.pow_pos_nonneg 2 ((reg / 256) mod 16)). lia. }
  rewrite Hl0. cbn [orb].
  destruct (8 * 2 ^ ((reg / 16) mod 8) >? 64) eqn:E1;
    [cbn; unfold EINVAL; discriminate|].
  destruct (2 ^ ((reg / 256) mod 16) >? 16) eqn:E2;
    [cbn; unfold EINVAL; discriminate|].
  intros _. cbn [fst snd rvv_config vlen elen num_lanes vrf_size_per_lane].
  split.
  - unfold fdca_rvv_config_validate.
    cbn [rvv_config vlen elen num_lanes].
    rewrite Hv1, Hv2, E1, Hl0, E2. reflexivity.
  - assert (Hn4 : (reg / 256) mod 16 <= 4).
    { rewrite Z.gtb_ltb in E2. apply Z.ltb_ge in E2.
      change 16 with (2 ^ 4) in E2 at 2.
      apply (pow2_le_iff ((reg / 256) mod 16) 4) in E2; lia. }
    rewrite u32_small by lia.
    set (k := reg mod 16) in *.
    assert (En : (reg / 256) mod 16 = 0 \/ (reg / 256) mod 16 = 1 \/
                 (reg / 256) mod 16 = 2 \/ (reg / 256) mod 16 = 3 \/
                 (reg / 256) mod 16 = 4) by lia.
    destruct En as [-> | [-> | [-> | [-> | ->]]]];
      match goal with
      | |- context [2 ^ ?n] =>
        let v := eval cbv in (2 ^ n) in change (2 ^ n) with v
      end.
    + split; [apply Z.mod_1_r|]. rewrite Z.div_1_r.
      replace (1024 * (k + 1) * 32) with (4096 * (k + 1) * 8) by lia.
      rewrite Z.div_mul by lia. lia.
    + replace (1024 * (k + 1)) with (512 * (k + 1) * 2) by lia.
      split; [apply Z.mod_mul; lia|].
      replace (512 * (k + 1) * 2 * 32) with (512 * (k + 1) * 32 * 2) by lia.
      rewrite Z.div_mul by lia.
      replace (512 * (k + 1) * 32) with (2048 * (k + 1) * 8) by lia.
      rewrite Z.div_mul by lia. lia.
    + replace (1024 * (k + 1)) with (256 * (k + 1) * 4) by lia.
      split; [apply Z.mod_mul; lia|].
      replace (256 * (k + 1) * 4 * 32) with (256 * (k + 1) * 32 * 4) by lia.
      rewrite Z.div_mul by lia.
      replace (256 * (k + 1) * 32) with (1024 * (k + 1) * 8) by lia.
      rewrite Z.div_mul by lia. lia.
    + replace (1024 * (k + 1)) with (128 * (k + 1) * 8) by lia.
      split; [apply Z.mod_mul; lia|].
      replace (128 * (k + 1) * 8 * 32) with (128 * (k + 1) * 32 * 8) by lia.
      rewrite Z.div_mul by lia.
      replace (128 * (k + 1) * 32) with (512 * (k + 1) * 8) by lia.
      rewrite Z.div_mul by lia. lia.
    + replace (1024 * (k + 1)) with (64 * (k + 1) * 16) by lia.
      split; [apply Z.mod_mul; lia|].
      replace (64 * (k + 1) * 16 * 32) with (64 * (k + 1) * 32 * 16) by lia.
      rewrite Z.div_mul by lia.
      replace (64 * (k + 1) * 32) with (256 * (k + 1) * 8) by lia.
      rewrite Z.div_mul by lia. lia.
Qed.

End CapabilityDetection.

Lemma detect_rvv_outcome_witness :
  rvv_available Scenarios.device_1024 = true /\
  fst (fst (Pci.fdca_detect_rvv_capabilities Scenarios.device_1024 0x230)) = 0 /\
  vlen (rvv_config (snd (fst (Pci.fdca_detect_rvv_capabilities
                                Scenarios.device_1024 0x230)))) = 1024.
Proof.
  split; [reflexivity|].
  pose proof (detect_rvv_outcome Scenarios.device_1024 0x230 eq_refl) as H.
  cbv zeta in H. destruct H as (Hv & _ & _ & _ & _ & Hrc & _).
  split; [apply Hrc; split; discriminate | exact Hv].
Defined.

Lemma detect_then_validate_witness :
  rvv_available Scenarios.device_1024 = true /\
  fst (RvvConfig.fdca_rvv_config_validate
         (snd (fst (Pci.fdca_detect_rvv_capabilities
                      Scenarios.device_1024 0x230)))) = 0.
Proof.
  split; [reflexivity|].
  exact (proj1 (detect_then_validate Scenarios.device_1024 0x230 eq_refl eq_refl)).
Defined.

(** ** VTYPE decoding, continued *)
Section VtypeInvariants.
Import RvvState.

Lemma parse_vtype_frame (c : fdca_rvv_csr_context) :
  fdca_rvv_csr_parse_vtype c = set_parsed c (parsed (fdca_rvv_csr_parse_vtype c)).
Proof.
  unfold fdca_rvv_csr_parse_vtype. cbn [set_parsed set_vill parsed vill].
  destruct (c_bool (Z.land (vtype c) FDCA_VTYPE_VILL)); [reflexivity|].
  destruct (fdca_rvv_get_lmul_fraction _); reflexivity.
Qed.

Lemma parse_vtype_keeps_vtype (c : fdca_rvv_csr_context) :
  vtype (fdca_rvv_csr_parse_vtype c) = vtype c.
Proof. rewrite parse_vtype_frame. reflexivity. Qed.

(** X3: decoding VTYPE a second time changes nothing. *)
Theorem parse_vtype_idempotent (c : fdca_rvv_csr_context) :
  fdca_rvv_csr_parse_vtype (fdca_rvv_csr_parse_vtype c)
  = fdca_rvv_csr_parse_vtype c.
Proof.
  destruct (Z.testbit (vtype c) 63) eqn:Hb.
  - rewrite (parse_vtype_illegal c) by assumption.
    rewrite parse_vtype_illegal by exact Hb. reflexivity.
  - rewrite (parse_vtype_frame (fdca_rvv_csr_parse_vtype c)).
    rewrite (parse_vtype_legal (fdca_rvv_csr_parse_vtype c))
      by (rewrite parse_vtype_keeps_vtype; exact Hb).
    rewrite parse_vtype_keeps_vtype.
    rewrite (parse_vtype_frame c).
    rewrite (parse_vtype_legal c) by exact Hb. reflexivity.
Qed.

(** X4: after a decode that finds the illegal bit clear, the derived
    fields are in range: vlmul and vsew are below 8, sew_bits is between 8
    and 1024, the LMUL multiplier and divisor are between 1 and 8, and
    one of the two is 1. *)
Theorem parse_vtype_ranges (c : fdca_rvv_csr_context) :
  Z.testbit (vtype c) 63 = false ->
  let p := parsed (fdca_rvv_csr_parse_vtype c) in
  0 <= vlmul p < 8 /\ 0 <= vsew p < 8 /\
  8 <= sew_bits p <= 1024 /\
  1 <= lmul_mul p <= 8 /\ 1 <= lmul_div p <= 8 /\
  (lmul_mul p = 1 \/ lmul_div p = 1).
Proof.
  intros Hb. cbv zeta. rewrite parse_vtype_legal by assumption.
  cbn [vlmul vsew sew_bits lmul_mul lmul_div].
  pose proof (Z.mod_pos_bound (vtype c) 8 ltac:(lia)) as Hl.
  pose proof (Z.mod_pos_bound (vtype c / 8) 8 ltac:(lia)) as Hs.
  split; [exact Hl|]. split; [exact Hs|].
  split.
  - assert (E : (vtype c / 8) mod 8 = 0 \/ (vtype c / 8) mod 8 = 1 \/
                (vtype c / 8) mod 8 = 2 \/ (vtype c / 8) mod 8 = 3 \/
                (vtype c / 8) mod 8 = 4 \/ (vtype c / 8) mod 8 = 5 \/
                (vtype c / 8) mod 8 = 6 \/ (vtype c / 8) mod 8 = 7) by lia.
    repeat (destruct E as [-> | E]; [cbv; split; discriminate|]).
    rewrite E. cbv; split; discriminate.
  - assert (E : vtype c mod 8 = 0 \/ vtype c mod 8 = 1 \/ vtype c mod 8 = 2 \/
                vtype c mod 8 = 3 \/ vtype c mod 8 = 4 \/ vtype c mod 8 = 5 \/
                vtype c mod 8 = 6 \/ vtype c mod 8 = 7) by lia.
    repeat (destruct E as [-> | E];
            [cbn; repeat split; try discriminate; auto|]).
    rewrite E. cbn; repeat split; try discriminate; auto.
Qed.

End VtypeInvariants.

Lemma parse_vtype_ranges_witness :
  Z.testbit (RvvState.vtype Scenarios.csr_vtype0) 63 = false /\
  8 <= RvvState.sew_bits
         (RvvState.parsed (RvvState.fdca_rvv_csr_parse_vtype Scenarios.csr_vtype0))
    <= 1024.
Proof.
  split; [reflexivity|].
  pose proof (parse_vtype_ranges Scenarios.csr_vtype0 eq_refl) as H.
  cbv zeta in H. exact (proj1 (proj2 (proj2 H))).
Defined.

(** ** CSR save and restore *)
Section CsrSaveRestore.
Import RvvState RvvCsrIo.

Lemma csr_save_result (g : option fdca_rvv_state_manager)
      (c : fdca_rvv_csr_context) (now : Z) :
  fdca_rvv_csr_save g (Some c) now =
  (0, Some (mk_csr 0 0 0 0 0 (BIT 63)
                   (fdca_rvv_read_csr g FDCA_CSR_VLENB)
                   (set_vill (parsed c) true) true false (u64 now)
                   (u32 (save_count c + 1)))).
Proof.
  unfold fdca_rvv_csr_save.
  change (fdca_rvv_read_csr g FDCA_CSR_VSTART) with 0.
  change (fdca_rvv_read_csr g FDCA_CSR_VXSAT) with 0.
  change (fdca_rvv_read_csr g FDCA_CSR_VXRM) with 0.
  change (fdca_rvv_read_csr g FDCA_CSR_VCSR) with 0.
  change (fdca_rvv_read_csr g FDCA_CSR_VL) with 0.
  change (fdca_rvv_read_csr g FDCA_CSR_VTYPE) with (BIT 63).
  cbv zeta. rewrite parse_vtype_illegal by reflexivity. reflexivity.
Qed.

(** X5: the CSR read of the driver reports VTYPE with the illegal bit
    set, so every CSR save yields a valid, clean context whose parsed
    [vill] flag is set while the other derived fields keep their old
    values; CSR validation of a saved context therefore returns -EINVAL,
    whatever the state manager is, and never reaches the division. *)
Theorem csr_save_then_validate (g g' : option fdca_rvv_state_manager)
        (c : fdca_rvv_csr_context) (now : Z) :
  exists c',
    fdca_rvv_csr_save g (Some c) now = (0, Some c') /\
    valid c' = true /\ dirty c' = false /\
    vtype c' = 2 ^ 63 /\ vl c' = 0 /\ vstart c' = 0 /\
    parsed c' = set_vill (parsed c) true /\
    save_count c' = (save_count c + 1) mod 2 ^ 32 /\
    fdca_rvv_csr_validate g' (Some c') = Done (- EINVAL).
Proof.
  eexists. split; [apply csr_save_result|].
  repeat split.
Qed.

(** X6: restoring a context that is not valid returns -EINVAL and writes
    no CSR.  Restoring right after a save returns 0 and writes the six
    registers VSTART, VXSAT, VXRM, VCSR, VL, VTYPE, in this order, each
    with the value the save read; VLENB is not written. *)
Theorem csr_restore_after_save (g : option fdca_rvv_state_manager)
        (c : fdca_rvv_csr_context) (now : Z) :
  (valid c = false -> fdca_rvv_csr_restore (Some c) = (- EINVAL, [])) /\
  fdca_rvv_csr_restore (snd (fdca_rvv_csr_save g (Some c) now)) =
  (0, map (fun a => (a, fdca_rvv_read_csr g a))
          [FDCA_CSR_VSTART; FDCA_CSR_VXSAT; FDCA_CSR_VXRM; FDCA_CSR_VCSR;
           FDCA_CSR_VL; FDCA_CSR_VTYPE]) /\
  ~ In FDCA_CSR_VLENB
      (map fst (snd (fdca_rvv_csr_restore (snd (fdca_rvv_csr_save g (Some c) now))))).
Proof.
  split; [|split].
  - intros Hv. unfold fdca_rvv_csr_restore. rewrite Hv. reflexivity.
  - rewrite csr_save_result. reflexivity.
  - rewrite csr_save_result. cbn. unfold FDCA_CSR_VLENB.
    intros H. repeat (destruct H as [H | H]; [discriminate H|]). exact H.
Qed.

End CsrSaveRestore.

Lemma csr_restore_after_save_witness :
  RvvCsrIo.fdca_rvv_csr_restore (Some RvvState.csr_zero) = (- Errno.EINVAL, []) /\
  fst (RvvCsrIo.fdca_rvv_csr_restore
         (snd (RvvCsrIo.fdca_rvv_csr_save (Some Scenarios.manager_1024)
                                          (Some RvvState.csr_zero) 42))) = 0.
Proof.
  pose proof (csr_restore_after_save (Some Scenarios.manager_1024)
                                     RvvState.csr_zero 42) as H.
  destruct H as (Hbad & Hok & _).
  split; [exact (Hbad eq_refl)|]. rewrite Hok. reflexivity.
Defined.

(** ** Register-file state *)
Section RegisterState.
Import Heap RvvRegs.

Lemma kalloc_cases (h : heap) :
  (exists rest, alloc_script h = true :: rest /\
                kalloc h = (true, mk_heap rest (n_alloc h + 1) (n_free h))) \/
  (fst (kalloc h) = false /\ live_blocks (snd (kalloc h)) = live_blocks h).
Proof.
  unfold kalloc. destruct (alloc_script h) as [|[|] rest].
  - right. split; reflexivity.
  - left. exists rest. split; reflexivity.
  - right. split; reflexivity.
Qed.

Lemma regs_sizes (v : Z) :
  0 <= v < 2 ^ 30 -> u32 (v / 8 * FDCA_RVV_NUM_VREGS) = v / 8 * 32.
Proof.
  intros H. unfold FDCA_RVV_NUM_VREGS. apply u32_small.
  assert (0 <= v / 8) by (apply Z.div_pos; lia).
  assert (v / 8 < 2 ^ 27).
  { apply Z.div_lt_upper_bound; [lia|]. change (8 * 2 ^ 27) with (2 ^ 30). lia. }
  change (2 ^ 32) with (2 ^ 27 * 32). lia.
Qed.

(** X7: register storage allocation.  When both allocations are granted
    it returns 0 with a zeroed vector buffer of vlen/8 * 32 bytes and a
    zeroed mask buffer of vlen/8 bytes, [allocated] set, [saved] clear and
    one reference, and two more blocks are live.  When the first or the
    second allocation is refused it returns -ENOMEM, the vector buffer
    pointer is NULL, [allocated] is as before and no block stays live:
    the vector buffer is given back when the mask buffer cannot be had. *)
Theorem regs_alloc_outcomes (r : fdca_rvv_register_state) (cfg : fdca_rvv_config)
        (h : heap) :
  0 <= vlen cfg < 2 ^ 30 ->
  let res := fdca_rvv_regs_alloc (Some r) (Some cfg) h in
  let rc := fst (fst res) in
  let h' := snd res in
  (exists rest, alloc_script h = true :: true :: rest) /\
  rc = 0 /\
  snd (fst res) =
  Some (mk_regs (Some (repeat 0 (Z.to_nat (vlen cfg / 8 * 32)))) (vlen cfg / 8 * 32) 32
                (Some (repeat 0 (Z.to_nat (vlen cfg / 8)))) (vlen cfg / 8)
                true false (regs_save_time r) 1) /\
  live_blocks h' = live_blocks h + 2
  \/
  (forall rest, alloc_script h <> true :: true :: rest) /\
  rc = - ENOMEM /\
  live_blocks h' = live_blocks h /\
  exists r', snd (fst res) = Some r' /\ vregs_data r' = None /\
             allocated r' = allocated r /\ ref_count r' = ref_count r.
Proof.
  intros Hv. cbv zeta. unfold fdca_rvv_regs_alloc, kzalloc, kalloc.
  rewrite regs_sizes by assumption.
  destruct (alloc_script h) as [|[|] [|[|] rest]]; cbn;
    unfold live_blocks; cbn;
    first [ left; split; [eexists; reflexivity|];
            split; [reflexivity|]; split; [reflexivity|]; lia
          | right; split; [congruence|];
            split; [reflexivity|]; split; [lia|];
            eexists; repeat split ].
Qed.

(** X8: reference counting on release.  A state that is not allocated is
    left alone.  An allocated state with more than one reference only
    loses a reference: buffers and heap stay as they are.  With the last
    reference the two buffers are freed and the structure is zeroed, so a
    further release does nothing. *)
Theorem regs_free_refcount (r : fdca_rvv_register_state) (h : heap) :
  (allocated r = false -> fdca_rvv_regs_free (Some r) h = (Some r, h)) /\
  (allocated r = true -> 1 < ref_count r < 2 ^ 31 ->
   exists r', fdca_rvv_regs_free (Some r) h = (Some r', h) /\
              ref_count r' = ref_count r - 1 /\ allocated r' = true /\
              vregs_data r' = vregs_data r /\ vmask_data r' = vmask_data r) /\
  (allocated r = true -> ref_count r = 1 ->
   forall d1 d2, vregs_data r = Some d1 -> vmask_data r = Some d2 ->
   exists h', fdca_rvv_regs_free (Some r) h = (Some regs_zero, h') /\
              live_blocks h' = live_blocks h - 2 /\
              fdca_rvv_regs_free (Some regs_zero) h' = (Some regs_zero, h')).
Proof.
  unfold fdca_rvv_regs_free. split; [|split].
  - intros ->. reflexivity.
  - intros -> Hc. cbn [negb].
    assert (Hs : s32 (ref_count r - 1) = ref_count r - 1).
    { unfold s32. rewrite Z.mod_small by lia. lia. }
    rewrite Hs. destruct (Z.gtb_spec (ref_count r - 1) 0); [|lia].
    eexists. split; [reflexivity|]. repeat split.
  - intros -> Hc d1 d2 H1 H2. cbn [negb]. rewrite Hc, H1, H2.
    eexists. split; [reflexivity|]. split; [|reflexivity].
    unfold live_blocks, kfree; cbn. lia.
Qed.

(** X9: a register state can be restored only once it has been saved.
    Right after a successful allocation a restore returns -EINVAL; a save
    returns 0, keeps the buffer sizes and the reference count, and a
    restore after it returns 0. *)
Theorem regs_restore_needs_save (r0 r : fdca_rvv_register_state)
        (cfg : fdca_rvv_config) (h h' : heap) (now : Z) :
  fdca_rvv_regs_alloc (Some r0) (Some cfg) h = (0, Some r, h') ->
  fdca_rvv_regs_restore (Some r) (Some cfg) = - EINVAL /\
  exists r',
    fdca_rvv_regs_save (Some r) (Some cfg) now = (0, Some r') /\
    vregs_size r' = vregs_size r /\ vmask_size r' = vmask_size r /\
    ref_count r' = ref_count r /\
    fdca_rvv_regs_restore (Some r') (Some cfg) = 0.
Proof.
  unfold fdca_rvv_regs_alloc, kzalloc, kalloc.
  destruct (alloc_script h) as [|[|] [|[|] rest]]; cbn; intros H;
    try (unfold ENOMEM in H; discriminate H).
  apply (f_equal (fun x => snd (fst x))) in H. cbn in H.
  apply Some_inj in H. subst r. split; [reflexivity|].
  eexists. split; [reflexivity|]. repeat split.
Qed.

End RegisterState.


Lemma regs_alloc_outcomes_witness :
  0 <= vlen Scenarios.capability_1024 < 2 ^ 30 /\
  exists r h',
    RvvRegs.fdca_rvv_regs_alloc (Some RvvRegs.regs_zero)
                                (Some Scenarios.capability_1024)
                                (Heap.mk_heap [true; true] 0 0)
    = (0, Some r, h') /\
    RvvRegs.vregs_size r = 4096 /\ RvvRegs.vmask_size r = 128 /\
    Heap.live_blocks h' = 2.
Proof.
  assert (Hv : 0 <= vlen Scenarios.capability_1024 < 2 ^ 30) by (simpl; lia).
  split; [exact Hv|].
  pose proof (regs_alloc_outcomes RvvRegs.regs_zero Scenarios.capability_1024
                                  (Heap.mk_heap [true; true] 0 0) Hv) as H.
  cbv zeta in H.
  destruct H as [(_ & Hrc & Hr & Hl) | (Hno & _)].
  - destruct (RvvRegs.fdca_rvv_regs_alloc _ _ _) as [[rc r] h'].
    cbn [fst snd] in Hrc, Hr, Hl. subst rc r.
    eexists. exists h'. split; [reflexivity|].
    split; [reflexivity|]. split; [reflexivity|]. exact Hl.
  - exfalso. exact (Hno [] eq_refl).
Defined.

Lemma regs_free_refcount_witness :
  exists r h',
    RvvRegs.allocated r = true /\ RvvRegs.ref_count r = 1 /\
    RvvRegs.fdca_rvv_regs_free (Some r) (Heap.mk_heap [] 2 0)
    = (Some RvvRegs.regs_zero, h') /\
    Heap.live_blocks h' = 0.
Proof.
  exists (RvvRegs.mk_regs (Some [0]) 1 32 (Some [0]) 1 true false 0 1).
  destruct (proj2 (proj2 (regs_free_refcount
              (RvvRegs.mk_regs (Some [0]) 1 32 (Some [0]) 1 true false 0 1)
              (Heap.mk_heap [] 2 0))) eq_refl eq_refl [0] [0] eq_refl eq_refl)
    as (h' & Hf & Hl & _).
  exists h'. split; [reflexivity|]. split; [reflexivity|].
  split; [exact Hf | exact Hl].
Defined.

Lemma regs_restore_needs_save_witness :
  exists r h',
    RvvRegs.fdca_rvv_regs_alloc (Some RvvRegs.regs_zero)
                                (Some Scenarios.capability_1024)
                                (Heap.mk_heap [true; true] 0 0)
    = (0, Some r, h') /\
    RvvRegs.fdca_rvv_regs_restore (Some r) (Some Scenarios.capability_1024)
    = - Errno.EINVAL.
Proof.
  eexists. eexists.
  assert (E : RvvRegs.fdca_rvv_regs_alloc (Some RvvRegs.regs_zero)
                (Some Scenarios.capability_1024) (Heap.mk_heap [true; true] 0 0)
              = (0, Some (RvvRegs.mk_regs (Some (repeat 0 4096)) 4096 32
                                          (Some (repeat 0 128)) 128 true false 0 1),
                 Heap.mk_heap [] 2 0)) by reflexivity.
  split; [exact E|].
  exact (proj1 (regs_restore_needs_save _ _ _ _ _ 0 E)).
Defined.

(** ** Vector contexts *)
Section Contexts.
Import Heap RvvState RvvCsrIo RvvRegs RvvContext.

(** X10: context creation.  Without a device, or on a device without
    RVV, it returns -ENODEV and asks for no memory.  If the context, the
    vector buffer or the mask buffer cannot be allocated it returns
    -ENOMEM with every block it obtained given back.  Otherwise the new
    context is inactive and not preempted, its CSR part is zeroed and not
    valid, its register state is allocated with one reference and not
    saved, and three blocks are live. *)
Theorem context_create_outcomes (d : fdca_device) (pid : Z) (name : list Z)
        (now : Z) (h : heap) :
  0 <= vlen (rvv_config d) < 2 ^ 30 ->
  fdca_rvv_context_create None pid name now h = (inl (- ENODEV), h) /\
  (rvv_available d = false ->
   fdca_rvv_context_create (Some d) pid name now h = (inl (- ENODEV), h)) /\
  (rvv_available d = true ->
   let res := fdca_rvv_context_create (Some d) pid name now h in
   (fst res = inl (- ENOMEM) /\ live_blocks (snd res) = live_blocks h /\
    forall rest, alloc_script h <> true :: true :: true :: rest)
   \/
   (exists c, fst res = inr c /\
              live_blocks (snd res) = live_blocks h + 3 /\
              (exists rest, alloc_script h = true :: true :: true :: rest) /\
              csr c = csr_zero /\ valid (csr c) = false /\
              active c = false /\ preempted c = false /\
              allocated (regs c) = true /\ saved (regs c) = false /\
              ref_count (regs c) = 1 /\
              vregs_size (regs c) = vlen (rvv_config d) / 8 * 32 /\
              vmask_size (regs c) = vlen (rvv_config d) / 8 /\
              owner_pid c = pid)).
Proof.
  intros Hv. split; [reflexivity|]. split.
  - intros Ha. unfold fdca_rvv_context_create. rewrite Ha. reflexivity.
  - intros Ha. cbv zeta. unfold fdca_rvv_context_create. rewrite Ha. cbn [negb].
    unfold fdca_rvv_regs_alloc, kzalloc, kalloc.
    rewrite regs_sizes by assumption.
    destruct (alloc_script h) as [|[|] [|[|] [|[|] rest]]]; cbn;
      unfold live_blocks; cbn;
      first [ left; split; [reflexivity|]; split; [lia|]; congruence
            | right; eexists; split; [reflexivity|]; split; [lia|];
              split; [eexists; reflexivity|]; repeat split ].
Qed.

(** X11: a context that was created but never saved cannot be restored:
    the call returns -EINVAL, writes no CSR and leaves the context as it
    was, inactive and with its counters untouched. *)
Theorem context_restore_fresh (g : option fdca_rvv_state_manager)
        (d : fdca_device) (pid : Z) (name : list Z) (now : Z) (h h' : heap)
        (c : fdca_rvv_context) (t : clock) :
  fdca_rvv_context_create (Some d) pid name now h = (inr c, h') ->
  fdca_rvv_context_restore g (Some c) t = (- EINVAL, Some c, []) /\
  active c = false.
Proof.
  unfold fdca_rvv_context_create.
  destruct (negb (rvv_available d)); [discriminate|].
  destruct (kalloc h) as [[|] h1]; cbn [negb]; [|discriminate].
  destruct (fdca_rvv_regs_alloc _ _ h1) as [[ret r] h2].
  destruct (negb (ret =? 0)); [discriminate|].
  destruct r as [r'|]; [|discriminate].
  intros H. apply (f_equal fst) in H. cbn [fst] in H.
  assert (Hc : c = mk_ctx csr_zero r' false false 0 0 0 0 pid
                          (firstn (Z.to_nat (TASK_COMM_LEN - 1)) name)
                          (u64 now) (u64 now)) by congruence.
  subst c. split; reflexivity.
Qed.


(** X13: a context that was saved while no hardware configuration was
    reachable has its CSR part saved but its registers not: once a state
    manager with a hardware configuration exists, restoring it makes the
    CSR writes, then returns -EINVAL, and the context stays inactive. *)
Theorem context_saved_without_manager (c c1 : fdca_rvv_context)
        (mgr : fdca_rvv_state_manager) (hw : fdca_rvv_config) (t1 t2 : clock) :
  saved (regs c) = false ->
  hw_config mgr = Some hw ->
  fdca_rvv_context_save None (Some c) t1 = (0, Some c1) ->
  valid (csr c1) = true /\
  fdca_rvv_context_restore (Some mgr) (Some c1) t2 =
  (- EINVAL, Some c1,
   snd (fdca_rvv_csr_restore (Some (csr c1)))) /\
  active c1 = false.
Proof.
  intros Hs Hhw. unfold fdca_rvv_context_save. rewrite csr_save_result.
  cbn -[atomic64_inc u64 u32 BIT]. intros H.
  apply (f_equal snd) in H. cbn [snd] in H. apply Some_inj in H. subst c1.
  split; [reflexivity|]. split; [|reflexivity].
  unfold fdca_rvv_context_restore, manager_hw_config.
  cbn -[atomic64_inc u64 u32 BIT]. rewrite Hhw.
  unfold fdca_rvv_regs_restore. rewrite Hs, orb_true_r. reflexivity.
Qed.

(** X14: destroying a context right after its creation gives back the
    three blocks the creation obtained. *)
Theorem context_create_destroy_balance (d : fdca_device) (pid : Z)
        (name : list Z) (now : Z) (h h' : heap) (c : fdca_rvv_context) :
  fdca_rvv_context_create (Some d) pid name now h = (inr c, h') ->
  live_blocks h' = live_blocks h + 3 /\
  live_blocks (fdca_rvv_context_destroy (Some c) h') = live_blocks h.
Proof.
  unfold fdca_rvv_context_create.
  destruct (negb (rvv_available d)); [discriminate|].
  unfold fdca_rvv_regs_alloc, kzalloc, kalloc.
  destruct (alloc_script h) as [|[|] [|[|] [|[|] rest]]]; cbn;
    try discriminate.
  intros H.
  assert (Hc : inr c = fst (@inr Z _ c, h')) by reflexivity.
  rewrite <- H in Hc. cbn [fst] in Hc.
  assert (Hh : h' = snd (@inr Z fdca_rvv_context c, h')) by reflexivity.
  rewrite <- H in Hh. cbn [snd] in Hh.
  injection Hc as Hc. subst c h'.
  unfold live_blocks; cbn. split; lia.
Qed.

(** X15: state manager set-up.  Without a device it returns -EINVAL; if
    one of its three allocations is refused it returns -ENOMEM, leaves
    the global manager as it was and gives back what it obtained.  When
    it succeeds the manager points to the capability of the device, with
    lazy save and fast switch on and a threshold of 10, and from then on
    CSR validation enforces the vector length bound: a context with
    [vill] clear, nonzero [sew_bits] and vl above vlen / sew_bits is
    refused with -ERANGE. *)
Theorem manager_init_outcomes (d : fdca_device)
        (g : option fdca_rvv_state_manager) (h : heap) :
  fdca_rvv_state_manager_init None g h = (- EINVAL, g, h) /\
  let res := fdca_rvv_state_manager_init (Some d) g h in
  ((forall rest, alloc_script h <> true :: true :: true :: rest) /\
   fst (fst res) = - ENOMEM /\ snd (fst res) = g /\
   live_blocks (snd res) = live_blocks h)
  \/
  ((exists rest, alloc_script h = true :: true :: true :: rest) /\
   fst (fst res) = 0 /\
   snd (fst res) = Some (mk_manager (Some (rvv_config d)) (rvv_available d)
                                    true true 10) /\
   live_blocks (snd res) = live_blocks h + 3 /\
   forall c : fdca_rvv_csr_context,
     vill (parsed c) = false -> 0 < sew_bits (parsed c) ->
     0 <= vlen (rvv_config d) < 2 ^ 32 ->
     vl c > vlen (rvv_config d) / sew_bits (parsed c) ->
     fdca_rvv_csr_validate (snd (fst res)) (Some c) = Done (- ERANGE)).
Proof.
  split; [reflexivity|]. cbv zeta.
  unfold fdca_rvv_state_manager_init, kalloc.
  destruct (alloc_script h) as [|[|] [|[|] [|[|] rest]]]; cbn;
    unfold live_blocks; cbn;
    first [ left; split; [congruence|]; split; [reflexivity|];
            split; [reflexivity|]; lia
          | right; split; [eexists; reflexivity|]; split; [reflexivity|];
            split; [reflexivity|]; split; [lia|] ].
  intros c Hvill Hsew Hvl Hgt.
  unfold fdca_rvv_csr_validate. cbn [hw_config]. rewrite Hvill.
  destruct (Z.eqb_spec (sew_bits (parsed c)) 0); [lia|].
  rewrite max_vl_fits by assumption.
  destruct (Z.gtb_spec (vl c) (vlen (rvv_config d) / sew_bits (parsed c)));
    [reflexivity|lia].
Qed.

End Contexts.

Lemma context_create_outcomes_witness :
  0 <= vlen (rvv_config Scenarios.device_1024) < 2 ^ 30 /\
  exists c,
    fst (RvvContext.fdca_rvv_context_create (Some Scenarios.device_1024) 7 [] 0
           (Heap.mk_heap [true; true; true] 0 0)) = inr c /\
    RvvRegs.vregs_size (RvvContext.regs c) = 4096.
Proof.
  assert (Hv : 0 <= vlen (rvv_config Scenarios.device_1024) < 2 ^ 30)
    by (simpl; lia).
  split; [exact Hv|].
  destruct (context_create_outcomes Scenarios.device_1024 7 [] 0
              (Heap.mk_heap [true; true; true] 0 0) Hv) as (_ & _ & H).
  destruct (H eq_refl) as [(_ & _ & Hno) | (c & Hc & _ & _ & _ & _ & _ & _ & _ & _ & _ & Hsz & _)].
  - exfalso. exact (Hno [] eq_refl).
  - exists c. split; [exact Hc | exact Hsz].
Defined.

Lemma context_restore_fresh_witness :
  exists c h',
    RvvContext.fdca_rvv_context_create (Some Scenarios.device_1024) 7 [] 0
      (Heap.mk_heap [true; true; true] 0 0) = (inr c, h') /\
    RvvContext.fdca_rvv_context_restore (Some Scenarios.manager_1024) (Some c)
      (RvvContext.mk_clock 0 5 1 1 1) = (- Errno.EINVAL, Some c, []).
Proof.
  eexists. eexists.
  assert (E : RvvContext.fdca_rvv_context_create (Some Scenarios.device_1024) 7 [] 0
                (Heap.mk_heap [true; true; true] 0 0)
              = (inr (RvvContext.mk_ctx RvvState.csr_zero
                        (RvvRegs.mk_regs (Some (repeat 0 4096)) 4096 32
                                         (Some (repeat 0 128)) 128 true false 0 1)
                        false false 0 0 0 0 7 [] 0 0),
                 Heap.mk_heap [] 3 0)) by reflexivity.
  split; [exact E|].
  exact (proj1 (context_restore_fresh (Some Scenarios.manager_1024) _ _ _ _ _ _ _
                                      (RvvContext.mk_clock 0 5 1 1 1) E)).
Defined.


Lemma context_saved_without_manager_witness :
  exists c1,
    RvvContext.fdca_rvv_context_save None
      (Some (RvvContext.mk_ctx RvvState.csr_zero
               (RvvRegs.mk_regs (Some [7]) 1 32 (Some [9]) 1 true false 0 1)
               true false 0 0 0 0 7 [] 0 0))
      (RvvContext.mk_clock 0 5 1 1 1) = (0, Some c1) /\
    fst (fst (RvvContext.fdca_rvv_context_restore (Some Scenarios.manager_1024)
                (Some c1) (RvvContext.mk_clock 6 9 2 2 2))) = - Errno.EINVAL.
Proof.
  eexists.
  assert (E : RvvContext.fdca_rvv_context_save None
                (Some (RvvContext.mk_ctx RvvState.csr_zero
                         (RvvRegs.mk_regs (Some [7]) 1 32 (Some [9]) 1 true false 0 1)
                         true false 0 0 0 0 7 [] 0 0))
                (RvvContext.mk_clock 0 5 1 1 1)
              = (0, Some (RvvContext.mk_ctx
                            (RvvState.mk_csr 0 0 0 0 0 (BIT 63) 128
                               (RvvState.set_vill RvvState.parsed_zero true)
                               true false 1 1)
                            (RvvRegs.mk_regs (Some [7]) 1 32 (Some [9]) 1
                                             true false 0 1)
                            false false 1 0 5 0 7 [] 0 1))) by reflexivity.
  split; [exact E|].
  destruct (context_saved_without_manager
              (RvvContext.mk_ctx RvvState.csr_zero
                 (RvvRegs.mk_regs (Some [7]) 1 32 (Some [9]) 1 true false 0 1)
                 true false 0 0 0 0 7 [] 0 0)
              _ Scenarios.manager_1024
              Scenarios.capability_1024 (RvvContext.mk_clock 0 5 1 1 1)
              (RvvContext.mk_clock 6 9 2 2 2)
              eq_refl eq_refl E) as (_ & Hr & _).
  rewrite Hr. reflexivity.
Defined.

Lemma context_create_destroy_balance_witness :
  exists c h',
    RvvContext.fdca_rvv_context_create (Some Scenarios.device_1024) 7 [] 0
      (Heap.mk_heap [true; true; true] 0 0) = (inr c, h') /\
    Heap.live_blocks (RvvContext.fdca_rvv_context_destroy (Some c) h') = 0.
Proof.
  eexists. eexists.
  assert (E : RvvContext.fdca_rvv_context_create (Some Scenarios.device_1024) 7 [] 0
                (Heap.mk_heap [true; true; true] 0 0)
              = (inr (RvvContext.mk_ctx RvvState.csr_zero
                        (RvvRegs.mk_regs (Some (repeat 0 4096)) 4096 32
                                         (Some (repeat 0 128)) 128 true false 0 1)
                        false false 0 0 0 0 7 [] 0 0),
                 Heap.mk_heap [] 3 0)) by reflexivity.
  split; [exact E|].
  exact (proj2 (context_create_destroy_balance _ _ _ _ _ _ _ E)).
Defined.

Lemma manager_init_outcomes_witness :
  fst (fst (RvvContext.fdca_rvv_state_manager_init (Some Scenarios.device_1024) None
              (Heap.mk_heap [true; true; true] 0 0))) = 0 /\
  RvvState.fdca_rvv_csr_validate
    (snd (fst (RvvContext.fdca_rvv_state_manager_init (Some Scenarios.device_1024)
                 None (Heap.mk_heap [true; true; true] 0 0))))
    (Some Scenarios.csr_long_vl) = RvvState.Done (- Errno.ERANGE).
Proof.
  destruct (manager_init_outcomes Scenarios.device_1024 None
              (Heap.mk_heap [true; true; true] 0 0)) as [_ H].
  cbv zeta in H.
  destruct H as [(Hno & _) | (_ & Hrc & _ & _ & Hval)].
  - exfalso. exact (Hno [] eq_refl).
  - split; [exact Hrc|]. apply Hval.
    + reflexivity.
    + cbn; lia.
    + cbn; lia.
    + cbn; lia.
Defined.

(** ** Parsing, continued *)
Section ParsedDescriptors.
Import RvvInstr.

Lemma field5_range (opcode s : Z) :
  0 <= Z.land (Z.shiftr opcode s) 0x1F < 32.
Proof.
  change 0x1F with (2 ^ 5 - 1). change 32 with (2 ^ 5).
  apply field_range. lia.
Qed.

Lemma u8_field5 (opcode s : Z) :
  u8 (Z.land (Z.shiftr opcode s) 0x1F) = Z.land (Z.shiftr opcode s) 0x1F.
Proof.
  apply u8_small. pose proof (field5_range opcode s). change (2 ^ 8) with 256. lia.
Qed.

Lemma decode_never_vamo (opcode : Z) :
  fdca_rvv_decode_instr_type opcode <> FDCA_RVV_INSTR_VAMO.
Proof.
  unfold fdca_rvv_decode_instr_type.
  destruct ((Z.land opcode RVV_OPCODE_MASK =? RVV_LOAD_FP)
            || (Z.land opcode RVV_OPCODE_MASK =? RVV_STORE_FP)); [discriminate|].
  destruct (Z.land opcode RVV_OPCODE_MASK =? RVV_ARITH).
  - destruct (funct3_cases opcode) as
        [E | [E | [E | [E | [E | [E | [E | E]]]]]]]; rewrite E; discriminate.
  - destruct (Z.land opcode RVV_OPCODE_MASK =? RVV_MADD); discriminate.
Qed.


(** The descriptor the parser writes for a word it accepts. *)
Lemma parse_instr_fields (opcode : Z) (instr d : fdca_rvv_instr) :
  fdca_rvv_parse_instr opcode (Some instr) = (0, Some d) ->
  type d = fdca_rvv_decode_instr_type opcode /\
  vd d = EXTRACT_VD opcode /\ vs1 d = EXTRACT_VS1 opcode /\
  vs2 d = EXTRACT_VS2 opcode /\
  vm d = negb (Z.testbit opcode 25) /\
  (type d = FDCA_RVV_INSTR_VMEM ->
   uses_mask d = vm d /\ memory_access d = true /\ modifies_vl d = false /\
   latency d = 10) /\
  (type d = FDCA_RVV_INSTR_VARITH ->
   uses_mask d = vm d /\ memory_access d = false /\ modifies_vl d = false /\
   subtype d = varith_code (fdca_rvv_decode_varith_type opcode)) /\
  (type d = FDCA_RVV_INSTR_VSETVLI ->
   uses_mask d = false /\ memory_access d = false /\ modifies_vl d = true /\
   vl_setting d = EXTRACT_VS1 opcode /\ latency d = 1).
Proof.
  unfold fdca_rvv_parse_instr. intros Hp.
  pose proof (decode_never_vamo opcode) as Hv.
  assert (Hrc := f_equal fst Hp). apply (f_equal snd) in Hp.
  revert Hrc Hp.
  unfold EXTRACT_VD, EXTRACT_VS1, EXTRACT_VS2. rewrite !u8_field5.
  rewrite extract_vm_bit.
  destruct (fdca_rvv_decode_instr_type opcode);
    cbv beta iota zeta delta [instr_type_eqb fst snd];
    intros Hrc Hp; try (exfalso; unfold EINVAL in Hrc; discriminate Hrc);
      apply Some_inj in Hp; subst d;
        cbn [type vd vs1 vs2 vm uses_mask memory_access modifies_vl latency
                  subtype vl_setting];
        repeat split; intros; try reflexivity; try discriminate.
Qed.

Lemma parse_instr_field_ranges (opcode : Z) (instr d : fdca_rvv_instr) :
  fdca_rvv_parse_instr opcode (Some instr) = (0, Some d) ->
  0 <= vd d < 32 /\ 0 <= vs1 d < 32 /\ 0 <= vs2 d < 32 /\
  0 <= vl_setting d < 32.
Proof.
  intros Hp.
  destruct (parse_instr_fields opcode instr d Hp)
    as (Hty & Hvd & Hvs1 & Hvs2 & _ & _ & _ & Hset).
  pose proof (field5_range opcode 7) as R1.
  pose proof (field5_range opcode 15) as R2.
  pose proof (field5_range opcode 20) as R3.
  fold (EXTRACT_VD opcode) in R1. fold (EXTRACT_VS1 opcode) in R2.
  fold (EXTRACT_VS2 opcode) in R3.
  rewrite <- Hvd in R1. rewrite <- Hvs1 in R2. rewrite <- Hvs2 in R3.
  assert (Hvl : 0 <= vl_setting d < 32).
  { pose proof (decode_never_vamo opcode) as Hv. revert Hp.
    unfold fdca_rvv_parse_instr.
    destruct (fdca_rvv_decode_instr_type opcode);
      cbv beta iota zeta delta [instr_type_eqb]; intros Hp;
        apply (f_equal snd) in Hp; cbn [snd] in Hp; apply Some_inj in Hp;
          subst d; cbn [vl_setting]; try lia;
            pose proof (field5_range opcode 15); unfold EXTRACT_VS1; lia. }
  repeat split; lia.
Qed.

(** X16: every descriptor the parser accepts has its three register
    fields and its VL setting in the range 0..31, so the range test of
    the validator cannot fail on it. *)
Theorem parse_instr_regs_in_range (opcode : Z) (instr d : fdca_rvv_instr) :
  fdca_rvv_parse_instr opcode (Some instr) = (0, Some d) ->
  0 <= vd d < 32 /\ 0 <= vs1 d < 32 /\ 0 <= vs2 d < 32 /\
  0 <= vl_setting d < 32 /\
  fdca_rvv_validate_instr (Some d) <> - ERANGE.
Proof.
  intros Hp.
  destruct (parse_instr_field_ranges opcode instr d Hp) as (R1 & R2 & R3 & Hvl).
  repeat split; try lia.
  unfold fdca_rvv_validate_instr, FDCA_RVV_NUM_VREGS.
  destruct (Z.geb_spec (vd d) 32); [lia|].
  destruct (Z.geb_spec (vs1 d) 32); [lia|].
  destruct (Z.geb_spec (vs2 d) 32); [lia|].
  cbn [orb]. unfold ERANGE, EINVAL.
  destruct (type d);
    repeat match goal with
           | |- context [if ?b then _ else _] => destruct b eqn:?
           end; try discriminate.
  exfalso. apply Z.gtb_lt in Heqb. lia.
Qed.


(** X18: the parser accepts a word exactly when its base opcode is 0x07,
    0x27, 0x57 or 0x43, and returns -EINVAL for every other word; what it
    writes does not depend on the previous contents of the descriptor. *)
Theorem parse_instr_acceptance (opcode : Z) (i1 i2 : fdca_rvv_instr) :
  let base := Z.land opcode RVV_OPCODE_MASK in
  (fst (fdca_rvv_parse_instr opcode (Some i1)) = 0 <->
   base = RVV_LOAD_FP \/ base = RVV_STORE_FP \/ base = RVV_ARITH \/ base = RVV_MADD) /\
  (fst (fdca_rvv_parse_instr opcode (Some i1)) = 0 \/
   fst (fdca_rvv_parse_instr opcode (Some i1)) = - EINVAL) /\
  fdca_rvv_parse_instr opcode (Some i1) = fdca_rvv_parse_instr opcode (Some i2).
Proof.
  cbv zeta.
  assert (Hd : fdca_rvv_decode_instr_type opcode <> FDCA_RVV_INSTR_INVALID <->
               (Z.land opcode RVV_OPCODE_MASK = RVV_LOAD_FP \/
                Z.land opcode RVV_OPCODE_MASK = RVV_STORE_FP \/
                Z.land opcode RVV_OPCODE_MASK = RVV_ARITH \/
                Z.land opcode RVV_OPCODE_MASK = RVV_MADD)).
  { unfold fdca_rvv_decode_instr_type.
    destruct (Z.eqb_spec (Z.land opcode RVV_OPCODE_MASK) RVV_LOAD_FP);
      [cbn [orb]; split; [auto|discriminate]|].
    destruct (Z.eqb_spec (Z.land opcode RVV_OPCODE_MASK) RVV_STORE_FP);
      [cbn [orb]; split; [auto|discriminate]|].
    cbn [orb].
    destruct (Z.eqb_spec (Z.land opcode RVV_OPCODE_MASK) RVV_ARITH).
    - split; [auto|]. intros _.
      destruct (funct3_cases opcode) as
          [E | [E | [E | [E | [E | [E | [E | E]]]]]]]; rewrite E; discriminate.
    - destruct (Z.eqb_spec (Z.land opcode RVV_OPCODE_MASK) RVV_MADD).
      + split; [auto|discriminate].
      + split; [congruence|tauto]. }
  pose proof (decode_never_vamo opcode) as Hv.
  split; [|split].
  - rewrite <- Hd. unfold fdca_rvv_parse_instr.
    destruct (fdca_rvv_decode_instr_type opcode);
      cbv beta iota zeta delta [instr_type_eqb fst]; unfold EINVAL;
        split; intros; try reflexivity; try discriminate; congruence.
  - unfold fdca_rvv_parse_instr.
    destruct (fdca_rvv_decode_instr_type opcode);
      cbv beta iota zeta delta [instr_type_eqb fst]; auto.
  - reflexivity.
Qed.

(** X19: hazards of parsed instructions.  A parsed configuration
    instruction conflicts with every descriptor, in both argument orders;
    two parsed memory instructions always conflict; and every descriptor
    conflicts with itself. *)
Theorem parsed_instr_conflicts (wa wb : Z) (ia ib a b : fdca_rvv_instr) :
  fdca_rvv_parse_instr wa (Some ia) = (0, Some a) ->
  fdca_rvv_parse_instr wb (Some ib) = (0, Some b) ->
  (type a = FDCA_RVV_INSTR_VSETVLI ->
   forall x, fdca_rvv_instr_conflicts (Some a) (Some x) = true /\
             fdca_rvv_instr_conflicts (Some x) (Some a) = true) /\
  (type a = FDCA_RVV_INSTR_VMEM -> type b = FDCA_RVV_INSTR_VMEM ->
   fdca_rvv_instr_conflicts (Some a) (Some b) = true) /\
  (forall x, fdca_rvv_instr_conflicts (Some x) (Some x) = true).
Proof.
  intros Ha Hb.
  destruct (parse_instr_fields wa ia a Ha) as (_ & _ & _ & _ & _ & Hma & _ & Hsa).
  destruct (parse_instr_fields wb ib b Hb) as (_ & _ & _ & _ & _ & Hmb & _ & _).
  split; [|split].
  - intros Ht x. destruct (Hsa Ht) as (_ & _ & Hvl & _).
    split; apply conflicts_reflects; unfold hazard; rewrite Hvl; tauto.
  - intros Hta Htb. destruct (Hma Hta) as (_ & Ha1 & _).
    destruct (Hmb Htb) as (_ & Hb1 & _).
    apply conflicts_reflects. unfold hazard. rewrite Ha1, Hb1. tauto.
  - intros x. apply conflicts_reflects. unfold hazard. tauto.
Qed.

End ParsedDescriptors.

Lemma parse_instr_regs_in_range_witness :
  exists d,
    RvvInstr.fdca_rvv_parse_instr Scenarios.word_masked_load
                                  (Some RvvInstr.instr_zero) = (0, Some d) /\
    0 <= RvvInstr.vd d < 32.
Proof.
  eexists.
  assert (E : RvvInstr.fdca_rvv_parse_instr Scenarios.word_masked_load
                (Some RvvInstr.instr_zero)
              = (0, Some (RvvInstr.mk_instr Scenarios.word_masked_load
                            RvvInstr.FDCA_RVV_INSTR_VMEM 0 8 10 0 true 0
                            true false true 10))) by reflexivity.
  split; [exact E|].
  exact (proj1 (parse_instr_regs_in_range _ _ _ E)).
Defined.


Lemma parse_instr_acceptance_witness :
  fst (RvvInstr.fdca_rvv_parse_instr Scenarios.word_madd
                                     (Some RvvInstr.instr_zero)) = 0.
Proof.
  apply (proj1 (parse_instr_acceptance Scenarios.word_madd RvvInstr.instr_zero
                                       RvvInstr.instr_zero)).
  right. right. right. reflexivity.
Defined.

Lemma parsed_instr_conflicts_witness :
  exists a b,
    RvvInstr.fdca_rvv_parse_instr Scenarios.word_masked_load
                                  (Some RvvInstr.instr_zero) = (0, Some a) /\
    RvvInstr.fdca_rvv_parse_instr 0x02058007
                                  (Some RvvInstr.instr_zero) = (0, Some b) /\
    RvvInstr.fdca_rvv_instr_conflicts (Some a) (Some b) = true.
Proof.
  eexists. eexists.
  assert (Ea : RvvInstr.fdca_rvv_parse_instr Scenarios.word_masked_load
                (Some RvvInstr.instr_zero)
              = (0, Some (RvvInstr.mk_instr Scenarios.word_masked_load
                            RvvInstr.FDCA_RVV_INSTR_VMEM 0 8 10 0 true 0
                            true false true 10))) by reflexivity.
  assert (Eb : RvvInstr.fdca_rvv_parse_instr 0x02058007
                (Some RvvInstr.instr_zero)
              = (0, Some (RvvInstr.mk_instr 0x02058007
                            RvvInstr.FDCA_RVV_INSTR_VMEM 0 0 11 0 false 0
                            false false true 10))) by reflexivity.
  split; [exact Ea|]. split; [exact Eb|].
  exact (proj1 (proj2 (parsed_instr_conflicts _ _ _ _ _ _ Ea Eb)) eq_refl eq_refl).
Defined.

(** ** VRF allocation, continued *)
Section VrfAllocator.
Import Vrf.

(** What a successful call of the allocator has done. *)
Lemma alloc_reg_granted (m m' : fdca_vrf_manager) (r : Z) :
  fdca_vrf_alloc_reg (Some m) = (r, Some m') -> 0 <= r ->
  r = find_first_zero_bit (allocated_regs m) FDCA_RVV_NUM_VREGS /\
  r < 32 /\
  allocated_regs m' = Z.setbit (allocated_regs m) r /\
  reg_allocations m' = atomic64_inc (reg_allocations m) /\
  reg_frees m' = reg_frees m.
Proof.
  intros Ha Hr. revert Ha. unfold fdca_vrf_alloc_reg.
  destruct (Z.ltb_spec (find_first_zero_bit (allocated_regs m) FDCA_RVV_NUM_VREGS)
                       FDCA_RVV_NUM_VREGS) as [Hlt|Hge]; intros Ha.
  - assert (Er := f_equal fst Ha). cbn [fst] in Er.
    apply (f_equal snd) in Ha. cbn [snd] in Ha. apply Some_inj in Ha.
    subst m'. cbn [allocated_regs reg_allocations reg_frees]. unfold set_bit.
    rewrite Er in *. unfold FDCA_RVV_NUM_VREGS in Hlt.
    repeat split; auto; lia.
  - assert (Er := f_equal fst Ha). cbn [fst] in Er. unfold ENOSPC in Er. lia.
Qed.

(** X20: a successful allocation is first-fit.  The index returned is
    the lowest register that was free; afterwards that register is taken
    and every other register is as before; the allocation counter has
    advanced by one and the release counter has not moved. *)
Theorem alloc_reg_first_fit (m m' : fdca_vrf_manager) (r : Z) :
  fdca_vrf_alloc_reg (Some m) = (r, Some m') -> 0 <= r ->
  is_reg_index r /\
  Z.testbit (allocated_regs m) r = false /\
  prefix_taken r m /\
  (forall j, 0 <= j ->
             Z.testbit (allocated_regs m') j = (j =? r) || Z.testbit (allocated_regs m) j) /\
  reg_allocations m' = atomic64_inc (reg_allocations m) /\
  reg_frees m' = reg_frees m.
Proof.
  intros Ha Hr.
  destruct (alloc_reg_granted m m' r Ha Hr) as (Er & Hlt & Hset & Hal & Hfr).
  pose proof (find_first_zero_bit_spec (allocated_regs m)) as H.
  cbv zeta in H. rewrite <- Er in H. destruct H as (Hrange & Hlow & Hclear).
  unfold is_reg_index, prefix_taken, FDCA_RVV_NUM_VREGS.
  repeat split; auto; try lia.
  intros j Hj. rewrite Hset, Z.setbit_eqb by lia. rewrite (Z.eqb_sym j r). reflexivity.
Qed.

Lemma clearbit_setbit (b r : Z) :
  0 <= r -> Z.testbit b r = false -> Z.clearbit (Z.setbit b r) r = b.
Proof.
  intros Hr Hb. apply Z.bits_inj'. intros n Hn.
  rewrite Z.clearbit_eqb, Z.setbit_eqb by lia.
  destruct (Z.eqb_spec r n) as [->|Hne]; cbn.
  - rewrite Hb. reflexivity.
  - apply andb_true_r.
Qed.

(** X21: allocating a register and freeing it again restores the
    allocation bitmap; the release is counted once. *)
Theorem alloc_then_free_restores (m m1 : fdca_vrf_manager) (r : Z) :
  fdca_vrf_alloc_reg (Some m) = (r, Some m1) -> 0 <= r ->
  exists m2,
    fdca_vrf_free_reg (Some m1) r = Some m2 /\
    allocated_regs m2 = allocated_regs m /\
    reg_frees m2 = atomic64_inc (reg_frees m).
Proof.
  intros Ha Hr.
  destruct (alloc_reg_granted m m1 r Ha Hr) as (Er & Hlt & Hset & _ & Hfr).
  pose proof (find_first_zero_bit_spec (allocated_regs m)) as H.
  cbv zeta in H. rewrite <- Er in H. destruct H as (_ & _ & Hclear).
  specialize (Hclear Hlt).
  unfold fdca_vrf_free_reg.
  destruct (Z.ltb_spec r 0); [lia|].
  destruct (Z.geb_spec r FDCA_RVV_NUM_VREGS) as [Hge|_];
    [unfold FDCA_RVV_NUM_VREGS in Hge; lia|].
  cbn [orb]. rewrite Hset, Z.setbit_eqb, Z.eqb_refl by exact Hr. cbn [orb].
  eexists. split; [reflexivity|].
  cbn [allocated_regs reg_frees]. unfold clear_bit.
  rewrite clearbit_setbit, Hfr by assumption. split; reflexivity.
Qed.

(** X22: a release that names no taken register changes nothing: an
    index below 0 or above 31, or a register that is free.  So releasing
    a register twice is the same as releasing it once. *)
Theorem free_reg_idempotent (m : fdca_vrf_manager) (r : Z) :
  (r < 0 \/ 32 <= r \/ Z.testbit (allocated_regs m) r = false ->
   fdca_vrf_free_reg (Some m) r = Some m) /\
  fdca_vrf_free_reg (fdca_vrf_free_reg (Some m) r) r = fdca_vrf_free_reg (Some m) r.
Proof.
  assert (Hnop : forall m0, r < 0 \/ 32 <= r \/ Z.testbit (allocated_regs m0) r = false ->
                            fdca_vrf_free_reg (Some m0) r = Some m0).
  { intros m0 H. unfold fdca_vrf_free_reg, FDCA_RVV_NUM_VREGS.
    destruct (Z.ltb_spec r 0); [reflexivity|].
    destruct (Z.geb_spec r 32); [reflexivity|]. cbn [orb].
    destruct H as [H | [H | H]]; try lia. rewrite H. reflexivity. }
  split; [apply Hnop|].
  destruct (Z.ltb_spec r 0) as [Hneg|Hpos].
  - rewrite !Hnop by auto. reflexivity.
  - destruct (Z.geb_spec r 32) as [Hbig|Hsmall].
    + rewrite !Hnop by auto. reflexivity.
    + destruct (Z.testbit (allocated_regs m) r) eqn:Hb.
      * assert (E : fdca_vrf_free_reg (Some m) r =
                    Some (mk_vrf (clear_bit r (allocated_regs m)) (vrf_num_lanes m)
                                 (lane_width m) (reg_allocations m)
                                 (atomic64_inc (reg_frees m)) (lane_accesses m))).
        { unfold fdca_vrf_free_reg, FDCA_RVV_NUM_VREGS.
          destruct (Z.ltb_spec r 0); [lia|].
          destruct (Z.geb_spec r 32); [lia|]. cbn [orb]. rewrite Hb. reflexivity. }
        rewrite E. apply Hnop. right. right. cbn [allocated_regs]. unfold clear_bit.
        rewrite Z.clearbit_eqb, Z.eqb_refl. apply andb_false_r.
      * rewrite !Hnop by auto. reflexivity.
Qed.

End VrfAllocator.

Lemma alloc_reg_first_fit_witness :
  exists m',
    Vrf.fdca_vrf_alloc_reg (Some (Vrf.mk_vrf 0x17 4 256 0 0 0)) = (3, Some m') /\
    Vrf.prefix_taken 3 (Vrf.mk_vrf 0x17 4 256 0 0 0).
Proof.
  eexists.
  assert (E : Vrf.fdca_vrf_alloc_reg (Some (Vrf.mk_vrf 0x17 4 256 0 0 0))
              = (3, Some (Vrf.mk_vrf 0x1F 4 256 1 0 0))) by reflexivity.
  split; [exact E|].
  assert (H3 : 0 <= 3) by lia.
  exact (proj1 (proj2 (proj2 (alloc_reg_first_fit _ _ _ E H3)))).
Defined.

Lemma alloc_then_free_restores_witness :
  exists m1 m2,
    Vrf.fdca_vrf_alloc_reg (Some (Vrf.mk_vrf 0x17 4 256 0 0 0)) = (3, Some m1) /\
    Vrf.fdca_vrf_free_reg (Some m1) 3 = Some m2 /\
    Vrf.allocated_regs m2 = 0x17.
Proof.
  assert (E : Vrf.fdca_vrf_alloc_reg (Some (Vrf.mk_vrf 0x17 4 256 0 0 0))
              = (3, Some (Vrf.mk_vrf 0x1F 4 256 1 0 0))) by reflexivity.
  assert (H3 : 0 <= 3) by lia.
  destruct (alloc_then_free_restores _ _ _ E H3) as (m2 & Hf & Hb & _).
  exists (Vrf.mk_vrf 0x1F 4 256 1 0 0), m2.
  split; [exact E|]. split; [exact Hf | exact Hb].
Defined.

Lemma free_reg_idempotent_witness :
  Vrf.fdca_vrf_free_reg (Some Scenarios.vrf_empty) 5 = Some Scenarios.vrf_empty.
Proof.
  apply (proj1 (free_reg_idempotent Scenarios.vrf_empty 5)).
  right. right. reflexivity.
Defined.

(** ** VRF set-up and lane access *)
Section VrfLaneAccess.
Import Heap Vrf VrfLanes.

Lemma nth_error_seq_map {A} (f : nat -> A) (n i : nat) (tl : list A) :
  (i < n)%nat -> nth_error (map f (seq 0 n) ++ tl) i = Some (f i).
Proof.
  intros Hi. rewrite nth_error_app1 by (rewrite length_map, length_seq; exact Hi).
  apply map_nth_error.
  rewrite nth_error_nth' with (d := O) by (rewrite length_seq; exact Hi).
  rewrite seq_nth by exact Hi. reflexivity.
Qed.

(** X23: VRF manager set-up on a capability with 1 to 16 lanes.  When
    the allocation is granted it returns 0 with an empty allocation
    bitmap, a lane width of vlen / num_lanes, and lane [i] mapped at
    [mmio_base + i * 0x1000] for every [i] below the lane count, the
    other entries of the 16-entry table being NULL; the first register
    allocation then returns register 0.  When the allocation is refused
    it returns -ENOMEM and leaves the global manager as it was. *)
Theorem vrf_init_ready (fdev : fdca_device) (mmio_base : Z)
        (g : option lane_file) (h : heap) :
  1 <= num_lanes (rvv_config fdev) <= 16 ->
  (forall rest, alloc_script h = true :: rest ->
     exists f h',
       fdca_vrf_init fdev mmio_base g h = Ok (0, Some f, h') /\
       live_blocks h' = live_blocks h + 1 /\
       allocated_regs (mgr f) = 0 /\
       vrf_num_lanes (mgr f) = num_lanes (rvv_config fdev) /\
       lane_width (mgr f) = vlen (rvv_config fdev) / num_lanes (rvv_config fdev) /\
       length (lane_bases f) = 16%nat /\
       (forall i, 0 <= i < num_lanes (rvv_config fdev) ->
                  nth_error (lane_bases f) (Z.to_nat i) = Some (mmio_base + i * 0x1000)) /\
       (forall i, num_lanes (rvv_config fdev) <= i < 16 ->
                  nth_error (lane_bases f) (Z.to_nat i) = Some 0) /\
       fst (fdca_vrf_alloc_reg (Some (mgr f))) = 0) /\
  (fst (kalloc h) = false ->
   exists h', fdca_vrf_init fdev mmio_base g h = Ok (- ENOMEM, g, h') /\
              live_blocks h' = live_blocks h).
Proof.
  intros Hn. split.
  - intros rest Hs. unfold fdca_vrf_init, kalloc. rewrite Hs. cbn [negb].
    destruct (Z.eqb_spec (num_lanes (rvv_config fdev)) 0); [lia|].
    destruct (Z.gtb_spec (num_lanes (rvv_config fdev)) 16); [lia|].
    eexists. eexists. split; [reflexivity|].
    cbn [mgr lane_bases allocated_regs vrf_num_lanes lane_width].
    split; [unfold live_blocks; cbn; lia|].
    split; [reflexivity|]. split; [reflexivity|]. split; [reflexivity|].
    split.
    { rewrite length_app, length_map, length_seq, repeat_length. lia. }
    split.
    { intros i Hi.
      rewrite nth_error_seq_map by lia. rewrite Z2Nat.id by lia. reflexivity. }
    split.
    { intros i Hi.
      rewrite nth_error_app2 by (rewrite length_map, length_seq; lia).
      rewrite length_map, length_seq.
      rewrite nth_error_repeat by lia. reflexivity. }
    reflexivity.
  - intros Hk. unfold fdca_vrf_init.
    pose proof (kalloc_cases h) as [(rest & Hs & E) | (_ & Hl)].
    + rewrite E in Hk. discriminate.
    + destruct (kalloc h) as [ok h1]. cbn [fst snd] in *. subst ok.
      eexists. split; [reflexivity|]. exact Hl.
Qed.

(** A capability without lanes, or with more than 16, makes the set-up
    divide by zero or write outside the lane table. *)
Lemma vrf_init_bad_lane_count (fdev : fdca_device) (mmio_base : Z)
      (g : option lane_file) (h : heap) (rest : list bool) :
  alloc_script h = true :: rest ->
  num_lanes (rvv_config fdev) = 0 \/ 16 < num_lanes (rvv_config fdev) ->
  fdca_vrf_init fdev mmio_base g h = Fault.
Proof.
  intros Hs Hn. unfold fdca_vrf_init, kalloc. rewrite Hs. cbn [negb].
  destruct (Z.eqb_spec (num_lanes (rvv_config fdev)) 0); [reflexivity|].
  destruct (Z.gtb_spec (num_lanes (rvv_config fdev)) 16); [reflexivity|lia].
Qed.

(** X24: argument checks of the lane accessors.  Without a manager, with
    a register index outside 0..31, or with a lane that is negative or
    not below the lane count, a read and a write both return -EINVAL; the
    read copies nothing, the write leaves the MMIO contents alone, and
    the access counter does not move.  (A negative lane is caught by the
    unsigned comparison with the lane count.) *)
Theorem lane_access_rejects (f : lane_file) (reg lane size : Z)
        (buffer : list Z) (m : mmio) :
  0 <= vrf_num_lanes (mgr f) <= 2 ^ 31 ->
  - 2 ^ 31 <= lane < 2 ^ 31 ->
  fdca_vrf_read_lane None reg lane size m = Ok (- EINVAL, None, None) /\
  fdca_vrf_write_lane None reg lane buffer size m = Ok (- EINVAL, m, None) /\
  (reg < 0 \/ 32 <= reg \/ lane < 0 \/ vrf_num_lanes (mgr f) <= lane ->
   fdca_vrf_read_lane (Some f) reg lane size m = Ok (- EINVAL, None, Some f) /\
   fdca_vrf_write_lane (Some f) reg lane buffer size m = Ok (- EINVAL, m, Some f)).
Proof.
  intros Hn Hl. split; [reflexivity|]. split; [reflexivity|].
  intros Hbad.
  assert (E : lane_address (Some f) reg lane = Ok (inl (- EINVAL))).
  { unfold lane_address, FDCA_RVV_NUM_VREGS.
    destruct (Z.ltb_spec reg 0); [reflexivity|].
    destruct (Z.geb_spec reg 32); [reflexivity|]. cbn [orb].
    destruct (Z.geb_spec (u32 lane) (vrf_num_lanes (mgr f))) as [|Hlt];
      [reflexivity|].
    exfalso. unfold u32 in Hlt.
    destruct (Z.lt_ge_cases lane 0) as [Hneg|Hpos].
    - assert (Hm : lane + 2 ^ 32 = lane mod 2 ^ 32).
      { apply Z.mod_unique with (q := -1); lia. }
      rewrite <- Hm in Hlt. lia.
    - rewrite Z.mod_small in Hlt by lia. lia. }
  unfold fdca_vrf_read_lane, fdca_vrf_write_lane. rewrite E. split; reflexivity.
Qed.

Lemma lane_address_count_access (f : lane_file) (reg lane : Z) :
  lane_address (Some (count_access f)) reg lane = lane_address (Some f) reg lane.
Proof. reflexivity. Qed.

Lemma nth_map_seq {A} (f : nat -> A) (n i : nat) (d : A) :
  (i < n)%nat -> nth i (map f (seq 0 n)) d = f i.
Proof.
  intros Hi. apply nth_error_nth.
  rewrite <- (app_nil_r (map f (seq 0 n))). apply nth_error_seq_map. exact Hi.
Qed.

Lemma memcpy_round_trip (a : Z) (buf : list Z) (m : mmio) :
  memcpy_fromio a (Z.of_nat (length buf))
                (memcpy_toio a buf (Z.of_nat (length buf)) m) = buf.
Proof.
  unfold memcpy_fromio. rewrite Nat2Z.id.
  apply nth_ext with (d := 0) (d' := 0).
  - rewrite length_map, length_seq. reflexivity.
  - intros i Hi. rewrite length_map, length_seq in Hi.
    rewrite nth_map_seq by exact Hi.
    unfold memcpy_toio.
    destruct (Z.leb_spec a (a + Z.of_nat i)); [|lia].
    destruct (Z.ltb_spec (a + Z.of_nat i) (a + Z.of_nat (length buf))); [|lia].
    cbn [andb]. replace (a + Z.of_nat i - a) with (Z.of_nat i) by lia.
    rewrite Nat2Z.id. reflexivity.
Qed.

(** X25: what a lane write stores, a lane read of the same register,
    lane and length returns; each of the two accesses is counted. *)
Theorem lane_write_then_read (g : option lane_file) (reg lane : Z)
        (buffer : list Z) (m m' : mmio) (g' : option lane_file) :
  fdca_vrf_write_lane g reg lane buffer (Z.of_nat (length buffer)) m
  = Ok (0, m', g') ->
  exists f f',
    g = Some f /\ g' = Some (count_access f) /\
    fdca_vrf_read_lane g' reg lane (Z.of_nat (length buffer)) m'
    = Ok (0, Some buffer, Some f') /\
    lane_accesses (mgr f') = atomic64_inc (atomic64_inc (lane_accesses (mgr f))).
Proof.
  unfold fdca_vrf_write_lane, fdca_vrf_read_lane. intros Hw.
  destruct g as [f|]; [|discriminate Hw].
  rewrite <- (lane_address_count_access f reg lane) in Hw.
  destruct (lane_address (Some (count_access f)) reg lane) as [[err|addr]|] eqn:Ea;
    try discriminate Hw.
  - exfalso. revert Ea. rewrite lane_address_count_access.
    unfold lane_address, EINVAL, ENODEV.
    repeat match goal with
           | |- context [if ?b then _ else _] => destruct b
           | |- context [match ?x with _ => _ end] => destruct x
           end; intros Ea; try discriminate Ea;
      injection Ea as Ea; subst err; injection Hw as Hw; discriminate Hw.
  - assert (Hm : m' = memcpy_toio addr buffer (Z.of_nat (length buffer)) m)
      by congruence.
    assert (Hg : g' = Some (count_access f)) by congruence.
    subst m' g'. exists f, (count_access (count_access f)).
    split; [reflexivity|]. split; [reflexivity|].
    rewrite Ea, memcpy_round_trip. split; reflexivity.
Qed.

(** The byte offset of a register in its lane window. *)
Lemma lane_offset (r w : Z) :
  0 <= r < 32 -> 0 <= w < 2 ^ 27 -> w mod 8 = 0 ->
  u32 (r * w) / 8 = r * (w / 8).
Proof.
  intros Hr Hw H8. rewrite u32_small by (change (2 ^ 32) with (32 * 2 ^ 27); nia).
  rewrite (Z.div_mod w 8) at 1 by lia. rewrite H8, Z.add_0_r.
  replace (r * (8 * (w / 8))) with (r * (w / 8) * 8) by lia.
  apply Z.div_mul. lia.
Qed.

(** X26: registers of one lane do not overlap when the lane width is a
    multiple of 8 bits and an access is no longer than one register:
    writing register [r1] leaves what a read of another register [r2] of
    the same lane returns unchanged. *)
Theorem lane_write_other_register (f : lane_file) (r1 r2 lane size : Z)
        (buffer : list Z) (m m' : mmio) (g' : option lane_file) :
  lane_width (mgr f) mod 8 = 0 -> 0 <= lane_width (mgr f) < 2 ^ 27 ->
  0 <= size <= lane_width (mgr f) / 8 ->
  r1 <> r2 ->
  fdca_vrf_write_lane (Some f) r1 lane buffer size m = Ok (0, m', g') ->
  forall data f2,
    fdca_vrf_read_lane (Some f) r2 lane size m = Ok (0, Some data, f2) ->
    exists f3, fdca_vrf_read_lane g' r2 lane size m' = Ok (0, Some data, f3).
Proof.
  intros H8 Hw Hsz Hne Hwr data f2 Hrd.
  unfold fdca_vrf_write_lane in Hwr. unfold fdca_vrf_read_lane in Hrd |- *.
  destruct (lane_address (Some f) r1 lane) as [[e1|a1]|] eqn:E1;
    try discriminate Hwr.
  { exfalso. revert E1. unfold lane_address, EINVAL, ENODEV.
    repeat match goal with
           | |- context [if ?b then _ else _] => destruct b
           | |- context [match ?x with _ => _ end] => destruct x
           end; intros E1; try discriminate E1;
      injection E1 as E1; subst e1; injection Hwr as Hwr; discriminate Hwr. }
  assert (Hm : m' = memcpy_toio a1 buffer size m) by congruence.
  assert (Hg : g' = Some (count_access f)) by congruence.
  subst m' g'. rewrite lane_address_count_access.
  destruct (lane_address (Some f) r2 lane) as [[e2|a2]|] eqn:E2;
    try discriminate Hrd.
  assert (Hd : data = memcpy_fromio a2 size m) by congruence. subst data.
  eexists. f_equal. f_equal. f_equal. f_equal.
  (* the two windows are disjoint *)
  revert E1 E2. unfold lane_address, FDCA_RVV_NUM_VREGS.
  destruct (Z.ltb_spec r1 0); [discriminate|].
  destruct (Z.geb_spec r1 32); [discriminate|].
  destruct (Z.ltb_spec r2 0); [discriminate|].
  destruct (Z.geb_spec r2 32); [discriminate|]. cbn [orb].
  destruct (u32 lane >=? vrf_num_lanes (mgr f)); [discriminate|].
  destruct (lane <? 0); [discriminate|].
  destruct (nth_error (lane_bases f) (Z.to_nat lane)) as [base|]; [|discriminate].
  destruct (base =? 0); [discriminate|].
  rewrite !lane_offset by (assumption || lia).
  intros E1 E2.
  assert (Ha1 : a1 = base + r1 * (lane_width (mgr f) / 8)) by congruence.
  assert (Ha2 : a2 = base + r2 * (lane_width (mgr f) / 8)) by congruence.
  unfold memcpy_fromio. apply map_ext_in. intros i Hi.
  apply in_seq in Hi. unfold memcpy_toio.
  assert (Hk : 0 <= lane_width (mgr f) / 8) by (apply Z.div_pos; lia).
  destruct (Z.leb_spec a1 (a2 + Z.of_nat i));
    destruct (Z.ltb_spec (a2 + Z.of_nat i) (a1 + size));
    cbn [andb]; try reflexivity.
  exfalso. nia.
Qed.

End VrfLaneAccess.

Lemma vrf_init_ready_witness :
  1 <= num_lanes (rvv_config Scenarios.device_1024) <= 16 /\
  exists f h',
    VrfLanes.fdca_vrf_init Scenarios.device_1024 0xF0000000 None
                           (Heap.mk_heap [true] 0 0)
    = VrfLanes.Ok (0, Some f, h') /\
    Vrf.lane_width (VrfLanes.mgr f) = 256 /\
    nth_error (VrfLanes.lane_bases f) 3 = Some 0xF0003000.
Proof.
  assert (Hn : 1 <= num_lanes (rvv_config Scenarios.device_1024) <= 16)
    by (simpl; lia).
  split; [exact Hn|].
  destruct (proj1 (vrf_init_ready Scenarios.device_1024 0xF0000000 None
                                  (Heap.mk_heap [true] 0 0) Hn) [] eq_refl)
    as (f & h' & Hi & _ & _ & _ & Hw & _ & Hb & _).
  exists f, h'. split; [exact Hi|]. split; [exact Hw|].
  assert (H3 : 0 <= 3 < num_lanes (rvv_config Scenarios.device_1024))
    by (simpl; lia).
  exact (Hb 3 H3).
Defined.

Lemma lane_access_rejects_witness :
  VrfLanes.fdca_vrf_read_lane
    (Some (VrfLanes.mk_lanes (Vrf.mk_vrf 0 4 256 0 0 0) [4096; 8192; 12288; 16384]))
    3 (-1) 32 (fun _ => 0)
  = VrfLanes.Ok (- Errno.EINVAL, None,
                 Some (VrfLanes.mk_lanes (Vrf.mk_vrf 0 4 256 0 0 0)
                                         [4096; 8192; 12288; 16384])).
Proof.
  assert (Hn : 0 <= Vrf.vrf_num_lanes
                      (VrfLanes.mgr (VrfLanes.mk_lanes (Vrf.mk_vrf 0 4 256 0 0 0)
                                       [4096; 8192; 12288; 16384])) <= 2 ^ 31)
    by (simpl; lia).
  assert (Hl : - 2 ^ 31 <= -1 < 2 ^ 31) by lia.
  destruct (lane_access_rejects
              (VrfLanes.mk_lanes (Vrf.mk_vrf 0 4 256 0 0 0) [4096; 8192; 12288; 16384])
              3 (-1) 32 [] (fun _ => 0) Hn Hl) as (_ & _ & H).
  assert (Hbad : 3 < 0 \/ 32 <= 3 \/ -1 < 0 \/ 4 <= -1) by lia.
  exact (proj1 (H Hbad)).
Defined.

Lemma lane_write_then_read_witness :
  exists m' g' f',
    VrfLanes.fdca_vrf_write_lane
      (Some (VrfLanes.mk_lanes (Vrf.mk_vrf 0 4 256 0 0 0) [4096; 8192; 12288; 16384]))
      3 1 [1; 2; 3; 4] 4 (fun _ => 0) = VrfLanes.Ok (0, m', g') /\
    VrfLanes.fdca_vrf_read_lane g' 3 1 4 m' = VrfLanes.Ok (0, Some [1; 2; 3; 4], Some f').
Proof.
  eexists. eexists.
  assert (E : VrfLanes.fdca_vrf_write_lane
                (Some (VrfLanes.mk_lanes (Vrf.mk_vrf 0 4 256 0 0 0)
                                         [4096; 8192; 12288; 16384]))
                3 1 [1; 2; 3; 4] (Z.of_nat (length [1; 2; 3; 4])) (fun _ => 0)
              = VrfLanes.Ok (0, VrfLanes.memcpy_toio (8192 + 96) [1; 2; 3; 4] 4 (fun _ => 0),
                             Some (VrfLanes.count_access
                                     (VrfLanes.mk_lanes (Vrf.mk_vrf 0 4 256 0 0 0)
                                                        [4096; 8192; 12288; 16384]))))
    by reflexivity.
  destruct (lane_write_then_read _ _ _ _ _ _ _ E) as (f & f' & _ & _ & Hr & _).
  exists f'. split; [exact E | exact Hr].
Defined.

Lemma lane_write_other_register_witness :
  exists f3,
    VrfLanes.fdca_vrf_read_lane
      (Some (VrfLanes.count_access
               (VrfLanes.mk_lanes (Vrf.mk_vrf 0 4 256 0 0 0) [4096; 8192; 12288; 16384])))
      4 1 4
      (VrfLanes.memcpy_toio (8192 + 96) [1; 2; 3; 4] 4 (fun _ => 0))
    = VrfLanes.Ok (0, Some [0; 0; 0; 0], f3).
Proof.
  assert (H8 : Vrf.lane_width (Vrf.mk_vrf 0 4 256 0 0 0) mod 8 = 0) by reflexivity.
  assert (Hw : 0 <= Vrf.lane_width (Vrf.mk_vrf 0 4 256 0 0 0) < 2 ^ 27)
    by (simpl; lia).
  assert (Hs : 0 <= 4 <= Vrf.lane_width (Vrf.mk_vrf 0 4 256 0 0 0) / 8)
    by (cbn; lia).
  assert (Hne : 3 <> 4) by lia.
  exact (lane_write_other_register
           (VrfLanes.mk_lanes (Vrf.mk_vrf 0 4 256 0 0 0) [4096; 8192; 12288; 16384])
           3 4 1 4 [1; 2; 3; 4] (fun _ => 0) _ _ H8 Hw Hs Hne eq_refl
           [0; 0; 0; 0] _ eq_refl).
Defined.

(** ** Vector memory transfers, continued *)
Section VectorMemTransfers.
Import Heap RvvInstr VectorMem VectorMemOps.

Lemma conserved_refl (s : machine) : conserved s s.
Proof.
  exists [], []. rewrite app_nil_r. repeat split.
Qed.

Lemma conserved_trans (s1 s2 s3 : machine) :
  conserved s1 s2 -> conserved s2 s3 -> conserved s1 s3.
Proof.
  intros (c1 & e1 & Hs1 & Ht1 & Hn1) (c2 & e2 & Hs2 & Ht2 & Hn2).
  exists (c1 ++ c2), (e1 ++ e2).
  split; [rewrite Hs1, Hs2; apply app_assoc|].
  split; [rewrite Ht2, Ht1; symmetry; apply app_assoc|].
  rewrite !filter_app, !length_app. lia.
Qed.

Lemma conserves_ret {A} (a : A) : conserves (ret a).
Proof. intros s. apply conserved_refl. Qed.

Lemma conserves_bind {A B} (c : M A) (k : A -> M B) :
  conserves c -> (forall a, conserves (k a)) -> conserves (bind c k).
Proof.
  intros Hc Hk s. unfold bind. specialize (Hc s).
  destruct (c s) as [a s1]. cbn [snd] in Hc.
  eapply conserved_trans; [exact Hc | apply Hk].
Qed.

Lemma conserves_get_machine : conserves get_machine.
Proof. intros s. apply conserved_refl. Qed.

Lemma conserves_get_op : conserves get_op.
Proof. intros s. apply conserved_refl. Qed.

Lemma conserves_log (e : log_entry) : conserves (log e).
Proof.
  intros s. exists [], []. cbn. rewrite app_nil_r. repeat split.
Qed.

Lemma conserves_emit (e : hw_event) :
  is_dma_free e = false -> conserves (emit e).
Proof.
  intros He s. exists [], [e]. cbn. rewrite He. repeat split.
Qed.

Lemma conserves_poll_status (off : Z) : conserves (poll_status off).
Proof.
  intros s. unfold poll_status.
  destruct (status_script (m_plat s)).
  - apply conserved_refl.
  - exists [], [Ev_ioread32 off]. cbn. repeat split.
Qed.

Lemma conserves_cleanup_dma : conserves fdca_vector_mem_cleanup_dma.
Proof.
  intros s. unfold fdca_vector_mem_cleanup_dma, bind, get_op.
  destruct (cpu_addr (m_op s)) as [cpu|] eqn:Hc.
  - exists [], [Ev_dma_free (total_size (m_op s)) cpu (dma_addr (m_op s))].
    cbn. unfold held. cbn. rewrite Hc. repeat split.
  - apply conserved_refl.
Qed.

Lemma conserves_indexed : conserves fdca_vector_mem_indexed.
Proof.
  intros s. unfold fdca_vector_mem_indexed, bind, get_op, dma_alloc_coherent.
  destruct s as [d o [ds ss tr]]. cbn [m_plat m_op m_dev dma_script status_script trace].
  destruct ds as [|[[ic idma]|] rest].
  - exists [], [Ev_dma_alloc (u64 (num_elements o * 4))].
    cbn. repeat split.
  - eexists [Some (ic, idma)], _. cbn -[u64 BIT ctrl_word].
    split; [reflexivity|]. rewrite <- !app_assoc. split; [reflexivity|].
    cbn -[u64 BIT ctrl_word]. reflexivity.
  - exists [None], [Ev_dma_alloc (u64 (num_elements o * 4))].
    cbn. repeat split.
Qed.

Create HintDb vm_conserves.
Hint Resolve conserves_ret conserves_get_machine conserves_get_op conserves_log
     conserves_poll_status conserves_cleanup_dma conserves_indexed : vm_conserves.

Ltac conserves_step :=
  match goal with
  | |- conserves (bind _ _) => apply conserves_bind; [|intro]
  | |- conserves (match ?x with _ => _ end) => destruct x
  | |- conserves (iowrite64 _ _) => apply conserves_emit; reflexivity
  | |- conserves (iowrite32 _ _) => apply conserves_emit; reflexivity
  | |- conserves _ => solve [auto with vm_conserves]
  end.

Lemma conserves_unit_stride : conserves fdca_vector_mem_unit_stride.
Proof. unfold fdca_vector_mem_unit_stride. repeat conserves_step. Qed.

Lemma conserves_strided : conserves fdca_vector_mem_strided.
Proof. unfold fdca_vector_mem_strided. repeat conserves_step. Qed.

Lemma conserves_segment : conserves fdca_vector_mem_segment.
Proof. unfold fdca_vector_mem_segment. repeat conserves_step. Qed.

Lemma conserves_wait_completion (fuel : nat) :
  conserves (fdca_vector_mem_wait_completion fuel).
Proof.
  induction fuel as [|fuel IH]; cbn [fdca_vector_mem_wait_completion].
  - auto with vm_conserves.
  - repeat conserves_step.
Qed.

Hint Resolve conserves_unit_stride conserves_strided conserves_segment
     conserves_wait_completion : vm_conserves.

Lemma conserves_execute_transfer : conserves execute_transfer.
Proof. unfold execute_transfer. repeat conserves_step. Qed.

Lemma releases_bind {A B} (c : M A) (k : A -> M B) :
  (forall a, releases (k a)) -> releases (bind c k).
Proof.
  intros Hk s. unfold bind. destruct (c s) as [a s1]. apply Hk.
Qed.

Lemma cleanup_dma_releases (s : machine) :
  cpu_addr (m_op (snd (fdca_vector_mem_cleanup_dma s))) = None.
Proof.
  unfold fdca_vector_mem_cleanup_dma. unfold bind at 1. unfold get_op.
  destruct (cpu_addr (m_op s)) eqn:Hc; [reflexivity|exact Hc].
Qed.

Lemma releases_cleanup_then {A} (a : A) :
  releases (bind fdca_vector_mem_cleanup_dma (fun _ => ret a)).
Proof.
  intros s. unfold bind at 1.
  pose proof (cleanup_dma_releases s) as H.
  destruct (fdca_vector_mem_cleanup_dma s) as [u s1]. exact H.
Qed.

Lemma releases_execute_transfer : releases execute_transfer.
Proof.
  unfold execute_transfer.
  apply releases_bind. intros op.
  destruct (op_type op);
    repeat first [ apply releases_cleanup_then
                 | apply releases_bind; intro
                 | match goal with
                   | |- releases (if ?b then _ else _) => destruct b
                   end ].
Qed.

(** Preparing the staging buffer, from a descriptor that holds none. *)
Lemma prepare_dma_conserved (s : machine) :
  cpu_addr (m_op s) = None ->
  let r := fdca_vector_mem_prepare_dma s in
  conserved s (snd r) /\
  (fst r <> 0 -> cpu_addr (m_op (snd r)) = None).
Proof.
  intros Hc. cbv zeta.
  unfold fdca_vector_mem_prepare_dma, bind, get_op, put_op, dma_alloc_coherent.
  destruct s as [d o [ds ss tr]].
  cbn [m_plat m_op m_dev dma_script status_script trace] in *.
  assert (Hh : held (mk_machine d o (mk_platform ds ss tr)) = 0%nat)
    by (unfold held; cbn; rewrite Hc; reflexivity).
  destruct (op_type o);
    try (split; [apply conserved_refl | intros _; exact Hc]);
    destruct ds as [|[[cpu dma]|] rest]; cbn -[u32];
      (split; [| intros H; try reflexivity; exfalso; apply H; reflexivity]);
      match goal with
      | |- conserved
             {| m_dev := _; m_op := _;
                m_plat := {| dma_script := ?a :: _; status_script := _; trace := _ |} |}
             {| m_dev := _; m_op := _;
                m_plat := {| dma_script := _; status_script := _;
                             trace := _ ++ ?e |} |} =>
        exists [a], e
      | |- conserved
             {| m_dev := _; m_op := _;
                m_plat := {| dma_script := []; status_script := _; trace := _ |} |}
             {| m_dev := _; m_op := _;
                m_plat := {| dma_script := _; status_script := _;
                             trace := _ ++ ?e |} |} =>
        exists [], e
      end;
      unfold held; cbn -[u32]; rewrite ?Hc; repeat split.
Qed.

(** X27: no DMA buffer is lost.  For a descriptor that holds no staging
    buffer when the call starts, every buffer the DMA allocator grants
    during [execute] (the staging buffer and, in indexed mode, the index
    buffer) is given back before the call returns, on every path, and the
    descriptor holds no staging buffer afterwards. *)
Theorem execute_dma_balance (d : fdca_device) (o : fdca_vector_mem_op)
        (p : platform) :
  cpu_addr o = None ->
  let r := fdca_vector_mem_execute (Some d) (Some o) p in
  result_code r <> None ->
  exists consumed events o',
    result_op r = Some o' /\ cpu_addr o' = None /\
    dma_script p = consumed ++ dma_script (result_platform r) /\
    trace (result_platform r) = trace p ++ events /\
    length (filter is_granted consumed) = length (filter is_dma_free events).
Proof.
  intros Hc. cbv zeta. intros _.
  unfold fdca_vector_mem_execute, result_code, result_op, result_platform.
  assert (H : conserved (mk_machine d o p) (snd (execute_body (mk_machine d o p))) /\
              cpu_addr (m_op (snd (execute_body (mk_machine d o p)))) = None).
  { unfold execute_body, bind, get_machine. cbn [m_dev].
    destruct (negb (vpu_present d)).
    - cbn. split; [|exact Hc]. exists [], []. cbn. rewrite app_nil_r. repeat split.
    - pose proof (prepare_dma_conserved (mk_machine d o p) Hc) as Hp.
      cbv zeta in Hp.
      destruct (fdca_vector_mem_prepare_dma (mk_machine d o p)) as [ret0 s1].
      cbn [fst snd] in Hp. destruct Hp as [Hcons Hrel].
      destruct (Z.eqb_spec ret0 0) as [->|Hne]; cbn [negb].
      + split.
        * eapply conserved_trans; [exact Hcons | apply conserves_execute_transfer].
        * apply releases_execute_transfer.
      + cbn. split; [exact Hcons | apply Hrel; exact Hne]. }
  destruct (execute_body (mk_machine d o p)) as [rc s]. cbn [fst snd] in *.
  destruct H as [(consumed & events & Hs & Ht & Hn) Hrel].
  exists consumed, events, (m_op s).
  split; [reflexivity|]. split; [exact Hrel|].
  split; [exact Hs|]. split; [exact Ht|].
  unfold held in Hn. cbn [m_op] in Hn. rewrite Hc, Hrel in Hn. lia.
Qed.

Lemma cleanup_dma_keeps_status (s : machine) :
  status_script (m_plat (snd (fdca_vector_mem_cleanup_dma s)))
  = status_script (m_plat s).
Proof.
  unfold fdca_vector_mem_cleanup_dma. unfold bind at 1. unfold get_op.
  destruct (cpu_addr (m_op s)); reflexivity.
Qed.

Lemma wait_completion_verdict (o1 : Z * bool) (post : list (Z * bool)) :
  poll_decides o1 = true ->
  forall (pre : list (Z * bool)) (fuel : nat) (s : machine),
    status_script (m_plat s) = pre ++ o1 :: post ->
    Forall (fun x => poll_decides x = false) pre ->
    (length pre < fuel)%nat ->
    let r := fdca_vector_mem_wait_completion fuel s in
    fst r = Some (poll_verdict o1) /\
    status_script (m_plat (snd r)) = post /\
    m_op (snd r) = m_op s /\
    dma_script (m_plat (snd r)) = dma_script (m_plat s) /\
    trace (m_plat (snd r))
    = trace (m_plat s) ++ repeat (Ev_ioread32 0x1A0) (S (length pre)).
Proof.
  intros Hdec pre. induction pre as [|x pre IH]; intros fuel s Hss Hall Hfuel.
  - destruct fuel as [|fuel]; [cbn in Hfuel; lia|].
    destruct s as [d o [ds ss tr]]. cbn [m_plat status_script app] in Hss. subst ss.
    destruct o1 as [st ex].
    unfold poll_verdict, poll_decides, poll_done in *. cbn [fst snd] in *.
    cbn [fdca_vector_mem_wait_completion]. unfold bind, poll_status.
    cbn [m_plat status_script dma_script trace m_dev m_op].
    destruct (negb (Z.land st (BIT 0) =? 0)).
    + destruct (negb (Z.land st (BIT 1) =? 0)); cbn; repeat split.
    + cbn [orb] in Hdec. subst ex. cbn. repeat split.
  - destruct fuel as [|fuel]; [cbn in Hfuel; lia|].
    destruct s as [d o [ds ss tr]]. cbn [m_plat status_script app] in Hss. subst ss.
    pose proof (Forall_inv Hall) as Hx. pose proof (Forall_inv_tail Hall) as Htl.
    destruct x as [st ex].
    unfold poll_decides, poll_done in Hx. cbn [fst snd] in Hx.
    apply orb_false_iff in Hx. destruct Hx as [Hd He]. subst ex.
    assert (E : fdca_vector_mem_wait_completion (S fuel)
                  (mk_machine d o (mk_platform ds ((st, false) :: pre ++ o1 :: post) tr))
                = fdca_vector_mem_wait_completion fuel
                    (mk_machine d o (mk_platform ds (pre ++ o1 :: post)
                                                 (tr ++ [Ev_ioread32 0x1A0])))).
    { cbn [fdca_vector_mem_wait_completion]. unfold bind at 1. unfold poll_status.
      cbn [m_plat status_script dma_script trace m_dev m_op].
      rewrite Hd. reflexivity. }
    rewrite E.
    specialize (IH fuel
                   (mk_machine d o (mk_platform ds (pre ++ o1 :: post)
                                                (tr ++ [Ev_ioread32 0x1A0])))
                   eq_refl Htl ltac:(cbn in Hfuel; lia)).
    cbv zeta in IH |- *. cbn [m_plat m_op dma_script trace] in IH.
    destruct IH as (H1 & H2 & H3 & H4 & H5).
    split; [exact H1|]. split; [exact H2|]. split; [exact H3|].
    split; [exact H4|].
    cbn [m_plat m_op dma_script trace].
    rewrite H5, <- app_assoc. reflexivity.
Qed.

Lemma keeps_status_ret {A} (a : A) : keeps_status (ret a).
Proof. intros s. reflexivity. Qed.

Lemma keeps_status_bind {A B} (c : M A) (k : A -> M B) :
  keeps_status c -> (forall a, keeps_status (k a)) -> keeps_status (bind c k).
Proof.
  intros Hc Hk s. unfold bind. specialize (Hc s).
  destruct (c s) as [a s1]. cbn [snd] in Hc. rewrite Hk. exact Hc.
Qed.

Lemma keeps_status_get_op : keeps_status get_op.
Proof. intros s. reflexivity. Qed.

Lemma keeps_status_log (e : log_entry) : keeps_status (log e).
Proof. intros s. reflexivity. Qed.

Lemma keeps_status_emit (e : hw_event) : keeps_status (emit e).
Proof. intros s. reflexivity. Qed.

Create HintDb vm_status.
Hint Resolve keeps_status_ret keeps_status_get_op keeps_status_log
     keeps_status_emit : vm_status.

Ltac keeps_status_step :=
  match goal with
  | |- keeps_status (bind _ _) => apply keeps_status_bind; [|intro]
  | |- keeps_status (dma_free_coherent _ _ _) => unfold dma_free_coherent
  | |- keeps_status (iowrite64 _ _) => unfold iowrite64
  | |- keeps_status (iowrite32 _ _) => unfold iowrite32
  | |- keeps_status _ => solve [auto with vm_status]
  end.

Lemma yields_bind {A B} (b : B) (c : M A) (k : A -> M B) :
  (forall a, yields b (k a)) -> yields b (bind c k).
Proof.
  intros Hk s. unfold bind. destruct (c s) as [a s1]. apply Hk.
Qed.

Lemma yields_ret {A} (a : A) : yields a (ret a).
Proof. intros s. reflexivity. Qed.

Ltac yields_step :=
  match goal with
  | |- yields _ (bind _ _) => apply yields_bind; intro
  | |- yields _ (ret _) => apply yields_ret
  end.

(** A computation that always yields [a] and does not poll. *)
Lemma kicks_intro (c : M Z) (s : machine) :
  yields 0 c -> keeps_status c ->
  exists s2, c s = (0, s2) /\
             status_script (m_plat s2) = status_script (m_plat s).
Proof.
  intros Hy Hk. specialize (Hy s). specialize (Hk s).
  destruct (c s) as [a s2]. cbn [fst snd] in *. subst a.
  exists s2. split; [reflexivity | exact Hk].
Qed.

Lemma unit_stride_kicks (s : machine) :
  exists s2, fdca_vector_mem_unit_stride s = (0, s2) /\
             status_script (m_plat s2) = status_script (m_plat s).
Proof.
  apply kicks_intro; unfold fdca_vector_mem_unit_stride.
  - repeat yields_step.
  - repeat keeps_status_step.
Qed.

Lemma strided_kicks (s : machine) :
  exists s2, fdca_vector_mem_strided s = (0, s2) /\
             status_script (m_plat s2) = status_script (m_plat s).
Proof.
  apply kicks_intro; unfold fdca_vector_mem_strided.
  - repeat yields_step.
  - repeat keeps_status_step.
Qed.

Lemma segment_kicks (s : machine) :
  exists s2, fdca_vector_mem_segment s = (0, s2) /\
             status_script (m_plat s2) = status_script (m_plat s).
Proof.
  apply kicks_intro; unfold fdca_vector_mem_segment.
  - repeat yields_step.
  - repeat keeps_status_step.
Qed.

Lemma indexed_kicks (s : machine) (b : Z * Z) (rest : list (option (Z * Z))) :
  dma_script (m_plat s) = Some b :: rest ->
  exists s2, fdca_vector_mem_indexed s = (0, s2) /\
             status_script (m_plat s2) = status_script (m_plat s).
Proof.
  intros Hd. unfold fdca_vector_mem_indexed.
  unfold bind at 1. unfold get_op. unfold bind at 1.
  unfold dma_alloc_coherent. rewrite Hd. destruct b as [ic idma].
  match goal with
  | |- exists s2, ?c ?s1 = _ /\ _ =>
    destruct (kicks_intro c s1) as (s2 & E & Hk)
  end.
  - repeat yields_step.
  - repeat keeps_status_step.
  - exists s2. split; [exact E | exact Hk].
Qed.

(** The index buffer is refused: nothing but the request happens. *)
Lemma indexed_refused (s : machine) :
  next_alloc_fails (m_plat s) ->
  fdca_vector_mem_indexed s =
  (- ENOMEM,
   mk_machine (dev_log (m_dev s) Err_index_dma_alloc_failed) (m_op s)
              (mk_platform (tl (dma_script (m_plat s))) (status_script (m_plat s))
                           (trace (m_plat s)
                            ++ [Ev_dma_alloc (u64 (num_elements (m_op s) * 4))]))).
Proof.
  intros Hf. unfold next_alloc_fails in Hf. unfold fdca_vector_mem_indexed.
  unfold bind at 1. unfold get_op. unfold bind at 1.
  unfold dma_alloc_coherent.
  destruct (dma_script (m_plat s)) as [|[b|] rest]; try contradiction; reflexivity.
Qed.

Lemma prepare_dma_granted (s : machine) (cpu dma : Z)
      (rest : list (option (Z * Z))) :
  op_type (m_op s) <> FDCA_VMEM_WHOLE_REG ->
  dma_script (m_plat s) = Some (cpu, dma) :: rest ->
  exists s1,
    fdca_vector_mem_prepare_dma s = (0, s1) /\
    op_type (m_op s1) = op_type (m_op s) /\
    dma_script (m_plat s1) = rest /\
    status_script (m_plat s1) = status_script (m_plat s).
Proof.
  intros Ht Hd. destruct s as [d o [ds ss tr]].
  cbn [m_plat m_op dma_script] in Ht, Hd. subst ds.
  unfold fdca_vector_mem_prepare_dma, bind, get_op, put_op, dma_alloc_coherent, ret.
  cbn [m_plat m_op m_dev dma_script status_script trace].
  destruct (op_type o) eqn:Eo; try congruence;
    cbn -[u32]; eexists; (split; [reflexivity|]); cbn; rewrite Eo; repeat split.
Qed.

(** X28: the outcome of a transfer.  With the vector unit present, a
    supported addressing mode, the buffers granted and, in indexed mode,
    an index array that covers the elements, [execute] returns
    what the first deciding poll of the status register says: 0 when the
    completion bit is set and the error bit clear, -EIO when both are
    set, -ETIMEDOUT when the completion bit is clear and the deadline has
    passed.  The completion bit is looked at first, so a transfer that is
    complete at a poll made after the deadline still succeeds.  The polls
    after the deciding one are not made. *)
Theorem execute_verdict (d : fdca_device) (o : fdca_vector_mem_op) (p : platform)
        (cpu dma : Z) (rest : list (option (Z * Z)))
        (pre post : list (Z * bool)) (o1 : Z * bool) :
  vpu_present d = true ->
  op_type o <> FDCA_VMEM_WHOLE_REG ->
  dma_script p = Some (cpu, dma) :: rest ->
  (op_type o = FDCA_VMEM_INDEXED ->
   (exists ix, indices o = Some ix /\ num_elements o <= Z.of_nat (length ix)) /\
   exists b rest', rest = Some b :: rest') ->
  status_script p = pre ++ o1 :: post ->
  Forall (fun x => poll_decides x = false) pre ->
  poll_decides o1 = true ->
  let r := fdca_vector_mem_execute (Some d) (Some o) p in
  result_code r = Some (poll_verdict o1) /\
  status_script (result_platform r) = post.
Proof.
  intros Hv Ht Hds Hix Hss Hall Hdec. cbv zeta.
  assert (Hw : forall s : machine,
             status_script (m_plat s) = pre ++ o1 :: post ->
             exists s4,
               (s1 <- get_machine ;;
                ret2 <- fdca_vector_mem_wait_completion
                          (S (length (status_script (m_plat s1)))) ;;
                fdca_vector_mem_cleanup_dma ;;; ret ret2)%vm s
               = (Some (poll_verdict o1), s4) /\
               status_script (m_plat s4) = post).
  { intros s Hs. unfold bind at 1. unfold get_machine. unfold bind at 1.
    pose proof (wait_completion_verdict o1 post Hdec pre
                  (S (length (status_script (m_plat s)))) s Hs Hall
                  ltac:(rewrite Hs, length_app; cbn; lia)) as W.
    cbv zeta in W.
    destruct (fdca_vector_mem_wait_completion _ s) as [r2 s3].
    cbn [fst snd] in W. destruct W as (W1 & W2 & _).
    unfold bind at 1. pose proof (cleanup_dma_keeps_status s3) as K.
    destruct (fdca_vector_mem_cleanup_dma s3) as [u s4]. unfold ret.
    cbn [fst snd] in *. exists s4. rewrite W1.
    split; [reflexivity | rewrite K; exact W2]. }
  assert (Htr : forall s1 : machine,
             op_type (m_op s1) = op_type o ->
             dma_script (m_plat s1) = rest ->
             status_script (m_plat s1) = pre ++ o1 :: post ->
             exists s4, execute_transfer s1 = (Some (poll_verdict o1), s4) /\
                        status_script (m_plat s4) = post).
  { intros s1 Ho Hd Hs. unfold execute_transfer. unfold bind at 1. unfold get_op.
    rewrite Ho.
    destruct (op_type o) eqn:Eo; try congruence; unfold bind at 1.
    - destruct (unit_stride_kicks s1) as (s2 & E & Hk). rewrite E.
      cbn [Z.eqb negb]. apply Hw. congruence.
    - destruct (strided_kicks s1) as (s2 & E & Hk). rewrite E.
      cbn [Z.eqb negb]. apply Hw. congruence.
    - destruct (Hix eq_refl) as (_ & b & rest' & Hr).
      destruct (indexed_kicks s1 b rest' ltac:(congruence)) as (s2 & E & Hk).
      rewrite E. cbn [Z.eqb negb]. apply Hw. congruence.
    - destruct (segment_kicks s1) as (s2 & E & Hk). rewrite E.
      cbn [Z.eqb negb]. apply Hw. congruence. }
  destruct (prepare_dma_granted (mk_machine d o p) cpu dma rest Ht Hds)
    as (s1 & E & Ho & Hd & Hs).
  destruct (Htr s1 Ho Hd ltac:(cbn [m_plat] in Hs; congruence)) as (s4 & E4 & Hpost).
  assert (Eb : execute_body (mk_machine d o p) = (Some (poll_verdict o1), s4)).
  { unfold execute_body. unfold bind at 1. unfold get_machine. cbn [m_dev].
    rewrite Hv. cbn [negb]. unfold bind at 1. rewrite E. cbn [Z.eqb negb].
    exact E4. }
  unfold fdca_vector_mem_execute, result_code, result_platform. rewrite Eb.
  split; [reflexivity | exact Hpost].
Qed.

(** X29: indexed mode when the index buffer cannot be had.  With the
    staging buffer granted and the allocation of the index buffer
    refused, [execute] returns -ENOMEM; all it has done is the two
    allocation requests and the release of the staging buffer: no
    register of the vector unit is written and the status register is
    not read. *)
Theorem execute_indexed_without_index_buffer (d : fdca_device)
        (o : fdca_vector_mem_op) (p : platform) (cpu dma : Z)
        (rest : list (option (Z * Z))) :
  vpu_present d = true ->
  op_type o = FDCA_VMEM_INDEXED ->
  dma_script p = Some (cpu, dma) :: rest ->
  next_alloc_fails (mk_platform rest (status_script p) (trace p)) ->
  let r := fdca_vector_mem_execute (Some d) (Some o) p in
  let size := u32 (num_elements o * element_size o) in
  result_code r = Some (- ENOMEM) /\
  trace (result_platform r)
  = trace p ++ [Ev_dma_alloc size; Ev_dma_alloc (u64 (num_elements o * 4));
                Ev_dma_free size cpu dma] /\
  status_script (result_platform r) = status_script p /\
  filter is_mmio_write (trace (result_platform r)) = filter is_mmio_write (trace p).
Proof.
  intros Hv Ht Hds Hfail. cbv zeta.
  destruct p as [ds ss tr]. cbn [dma_script status_script trace] in *. subst ds.
  assert (Ep : fdca_vector_mem_prepare_dma
                 (mk_machine d o (mk_platform (Some (cpu, dma) :: rest) ss tr))
               = (0, mk_machine d
                       (set_staging
                          (set_total_size o (u32 (num_elements o * element_size o)))
                          (Some cpu) dma)
                       (mk_platform rest ss
                          (tr ++ [Ev_dma_alloc (u32 (num_elements o * element_size o))])))).
  { unfold fdca_vector_mem_prepare_dma, bind, get_op, put_op, dma_alloc_coherent, ret.
    cbn [m_plat m_op m_dev dma_script status_script trace]. rewrite Ht. reflexivity. }
  set (size := u32 (num_elements o * element_size o)) in *.
  assert (Eb : execute_body
                 (mk_machine d o (mk_platform (Some (cpu, dma) :: rest) ss tr))
               = (Some (- ENOMEM),
                  mk_machine (dev_log d Err_index_dma_alloc_failed)
                    (set_staging
                       (set_staging (set_total_size o size) (Some cpu) dma) None dma)
                    (mk_platform (tl rest) ss
                       (((tr ++ [Ev_dma_alloc size])
                           ++ [Ev_dma_alloc (u64 (num_elements o * 4))])
                          ++ [Ev_dma_free size cpu dma])))).
  { unfold execute_body. unfold bind at 1. unfold get_machine. cbn [m_dev].
    rewrite Hv. cbn [negb]. unfold bind at 1. rewrite Ep. cbn [Z.eqb negb].
    unfold execute_transfer. unfold bind at 1. unfold get_op.
    cbn [m_op set_staging set_total_size op_type]. rewrite Ht.
    unfold bind at 1. rewrite indexed_refused by exact Hfail.
    unfold ENOMEM. cbn [Z.opp Z.eqb negb].
    unfold bind, fdca_vector_mem_cleanup_dma, get_op, put_op, dma_free_coherent,
      emit, ret.
    cbn -[u32 u64 size]. reflexivity. }
  unfold fdca_vector_mem_execute, result_code, result_platform. rewrite Eb.
  cbn [fst snd m_plat m_dev m_op trace status_script].
  rewrite <- !app_assoc. cbn [app].
  repeat split.
  rewrite !filter_app. cbn. rewrite app_nil_r. reflexivity.
Qed.

(** X30: replacing the index array of a descriptor, from a source that
    holds at least [count] indices.  A NULL descriptor or a NULL source
    gives -EINVAL and changes nothing.  Otherwise the
    old array is freed first.  If the new array is granted the call
    returns 0, the descriptor holds the first [count] indices of the
    source and its element count is [count].  If it is refused the call
    returns -ENOMEM and the descriptor is left without an index array,
    although its element count is still the old one. *)
Theorem set_indices_outcomes (o : fdca_vector_mem_op) (src : list Z) (count : Z)
        (h : heap) :
  0 <= count <= Z.of_nat (length src) ->
  fdca_vector_mem_set_indices None (Some src) count h = (- EINVAL, None, h) /\
  fdca_vector_mem_set_indices (Some o) None count h = (- EINVAL, Some o, h) /\
  let r := fdca_vector_mem_set_indices (Some o) (Some src) count h in
  let old := match indices o with Some _ => 1 | None => 0 end in
  ((exists rest, alloc_script h = true :: rest) /\
   fst (fst r) = 0 /\
   snd (fst r) = Some (set_indices_field o (Some (firstn (Z.to_nat count) src)) count) /\
   live_blocks (snd r) = live_blocks h - old + 1)
  \/
  ((forall rest, alloc_script h <> true :: rest) /\
   fst (fst r) = - ENOMEM /\
   snd (fst r) = Some (set_indices_field o None (num_elements o)) /\
   live_blocks (snd r) = live_blocks h - old).
Proof.
  intros _. split; [reflexivity|]. split; [reflexivity|]. cbv zeta.
  unfold fdca_vector_mem_set_indices, kalloc, kfree, live_blocks.
  destruct (indices o) as [ix|]; cbn [alloc_script n_alloc n_free];
    destruct (alloc_script h) as [|[|] rest]; cbn;
      first [ left; split; [eexists; reflexivity|]; repeat split; lia
            | right; split; [congruence|]; repeat split; lia ].
Qed.

End VectorMemTransfers.

Lemma execute_dma_balance_witness :
  let o := VectorMem.mk_op RvvInstr.FDCA_VMEM_INDEXED 0x80000000 0
             (Some [0; 2; 4; 6]) 4 4 true 0 None 0 in
  let p := VectorMem.mk_platform [Some (0x1000, 0x2000); Some (0x3000, 0x4000)]
                                 [(0, false); (1, false)] [] in
  let r := VectorMem.fdca_vector_mem_execute (Some Scenarios.device_1024) (Some o) p in
  VectorMem.cpu_addr o = None /\
  VectorMem.result_code r <> None /\
  exists consumed events o',
    VectorMemOps.result_op r = Some o' /\ VectorMem.cpu_addr o' = None /\
    VectorMem.dma_script p = consumed ++ VectorMem.dma_script (VectorMem.result_platform r) /\
    VectorMem.trace (VectorMem.result_platform r) = VectorMem.trace p ++ events /\
    length (filter VectorMemOps.is_granted consumed)
    = length (filter VectorMemOps.is_dma_free events).
Proof.
  cbv zeta. split; [reflexivity|].
  assert (Hr : VectorMem.result_code
                 (VectorMem.fdca_vector_mem_execute (Some Scenarios.device_1024)
                    (Some (VectorMem.mk_op RvvInstr.FDCA_VMEM_INDEXED 0x80000000 0
                             (Some [0; 2; 4; 6]) 4 4 true 0 None 0))
                    (VectorMem.mk_platform
                       [Some (0x1000, 0x2000); Some (0x3000, 0x4000)]
                       [(0, false); (1, false)] [])) <> None)
    by (vm_compute; discriminate).
  split; [exact Hr|].
  exact (execute_dma_balance Scenarios.device_1024
           (VectorMem.mk_op RvvInstr.FDCA_VMEM_INDEXED 0x80000000 0
              (Some [0; 2; 4; 6]) 4 4 true 0 None 0)
           (VectorMem.mk_platform [Some (0x1000, 0x2000); Some (0x3000, 0x4000)]
              [(0, false); (1, false)] [])
           eq_refl Hr).
Defined.

Lemma execute_verdict_witness :
  let o := VectorMem.fdca_vector_mem_create_op RvvInstr.FDCA_VMEM_UNIT_STRIDE
             0x80000000 4 4 true in
  let p := VectorMem.mk_platform [Some (0x1000, 0x2000)]
                                 [(0, false); (0, false); (3, true); (1, false)] [] in
  let r := VectorMem.fdca_vector_mem_execute (Some Scenarios.device_1024) (Some o) p in
  VectorMem.result_code r = Some (- Errno.EIO) /\
  VectorMem.status_script (VectorMem.result_platform r) = [(1, false)].
Proof.
  cbv zeta.
  apply (execute_verdict Scenarios.device_1024
           (VectorMem.fdca_vector_mem_create_op RvvInstr.FDCA_VMEM_UNIT_STRIDE
              0x80000000 4 4 true)
           (VectorMem.mk_platform [Some (0x1000, 0x2000)]
              [(0, false); (0, false); (3, true); (1, false)] [])
           0x1000 0x2000 [] [(0, false); (0, false)] [(1, false)] (3, true)).
  - reflexivity.
  - simpl. discriminate.
  - reflexivity.
  - simpl. discriminate.
  - reflexivity.
  - repeat constructor.
  - reflexivity.
Defined.

Lemma execute_indexed_without_index_buffer_witness :
  let o := VectorMem.fdca_vector_mem_create_op RvvInstr.FDCA_VMEM_INDEXED
             0x80000000 4 4 true in
  let p := VectorMem.mk_platform [Some (0x1000, 0x2000); None] [(1, false)] [] in
  let r := VectorMem.fdca_vector_mem_execute (Some Scenarios.device_1024) (Some o) p in
  VectorMem.result_code r = Some (- Errno.ENOMEM) /\
  VectorMem.trace (VectorMem.result_platform r)
  = [VectorMem.Ev_dma_alloc 16; VectorMem.Ev_dma_alloc 16;
     VectorMem.Ev_dma_free 16 0x1000 0x2000] /\
  VectorMem.status_script (VectorMem.result_platform r) = [(1, false)].
Proof.
  cbv zeta.
  destruct (execute_indexed_without_index_buffer Scenarios.device_1024
              (VectorMem.fdca_vector_mem_create_op RvvInstr.FDCA_VMEM_INDEXED
                 0x80000000 4 4 true)
              (VectorMem.mk_platform [Some (0x1000, 0x2000); None] [(1, false)] [])
              0x1000 0x2000 [None] eq_refl eq_refl eq_refl I)
    as (Hc & Ht & Hs & _).
  split; [exact Hc|]. split; [exact Ht | exact Hs].
Defined.

Lemma set_indices_outcomes_witness :
  let o := VectorMem.fdca_vector_mem_create_op RvvInstr.FDCA_VMEM_INDEXED
             0x80000000 4 4 true in
  VectorMemOps.fdca_vector_mem_set_indices (Some o) None 2 (Heap.mk_heap [true] 1 0)
  = (- Errno.EINVAL, Some o, Heap.mk_heap [true] 1 0).
Proof.
  cbv zeta.
  assert (Hc : 0 <= 2 <= Z.of_nat (length [7; 8; 9])) by (simpl; lia).
  exact (proj1 (proj2 (set_indices_outcomes
                         (VectorMem.fdca_vector_mem_create_op
                            RvvInstr.FDCA_VMEM_INDEXED 0x80000000 4 4 true)
                         [7; 8; 9] 2 (Heap.mk_heap [true] 1 0) Hc))).
Defined.
